(** * GM car interface: feed-forward models, parameters and the per-cycle update

    Shallow embedding of [selfdrive/car/gm/interface.py].  Python floats are
    IEEE 754 binary64 values, modelled by Rocq's primitive floats; Python's
    [ZeroDivisionError] is modelled by [None]. *)

From Stdlib Require Import ZArith Floats List Bool Lia.
From stdpp Require Import base option strings gmap.
Import ListNotations.

Set Warnings "-inexact-float".
Set Default Proof Using "Type".

(** ** Python float operations *)

Module PyFloat.

(** [a < b] on floats: false as soon as one side is NaN. *)
Definition lt (a b : float) : bool := PrimFloat.ltb a b.

(** [a == b] on floats: false as soon as one side is NaN, true on [0.0 == -0.0]. *)
Definition eq (a b : float) : bool := PrimFloat.eqb a b.

(** [a <= b]. *)
Definition le (a b : float) : bool := PrimFloat.leb a b.

(** [-a]. *)
Definition neg (a : float) : float := PrimFloat.opp a.

(** [math.fabs a]. *)
Definition fabs (a : float) : float := PrimFloat.abs a.

(** [a / b]: CPython raises [ZeroDivisionError] when [b == 0.0] and
    otherwise performs the IEEE division. *)
Definition truediv (a b : float) : option float :=
  if PrimFloat.eqb b 0%float then None else Some (PrimFloat.div a b).

(** [x != x], the usual NaN test. *)
Definition isnan (a : float) : bool := negb (PrimFloat.eqb a a).

(** [math.isfinite a]: neither a NaN nor an infinity, that is [|a| < inf]. *)
Definition isfinite (a : float) : bool := PrimFloat.ltb (PrimFloat.abs a) PrimFloat.infinity.

End PyFloat.

(** ** Feed-forward steering models *)

Section Feedforward.
Local Open Scope float_scope.

Definition get_steer_feedforward_volt (desired_angle v_ego : float) : option float :=
  let desired_angle := desired_angle * 0.02904609 in
  sigmoid ← PyFloat.truediv desired_angle (1 + PyFloat.fabs desired_angle);
  Some (0.10006696 * sigmoid * (v_ego + 3.12485927)).

Definition get_steer_feedforward_acadia (desired_angle v_ego : float) : option float :=
  let desired_angle := desired_angle * 0.09760208 in
  sigmoid ← PyFloat.truediv desired_angle (1 + PyFloat.fabs desired_angle);
  Some (0.04689655 * sigmoid * (v_ego + 10.028217)).

End Feedforward.

(** ** Enumerations

    The capnp enums of the cereal schema and the identifiers of
    [selfdrive/car/gm/values.py] are declared outside this file; they are
    modelled as inductive types carrying the members [interface.py] names. *)

Module ButtonType.
(** [car.CarState.ButtonEvent.Type]. *)
Inductive t :=
| unknown | leftBlinker | rightBlinker | accelCruise | decelCruise | cancel
| altButton1 | altButton2 | altButton3 | setCruise | resumeCruise | gapAdjustCruise.

#[global] Instance button_type_eq_dec : EqDecision t.
Proof. solve_decision. Defined.

Definition eqb (a b : t) : bool := bool_decide (a = b).
End ButtonType.

Module EventName.
(** [car.CarEvent.EventName]: the members this file adds, the two button
    events of [create_button_enable_events], and the other members by their
    schema ordinal. *)
Inductive t :=
| belowEngageSpeed | resumeRequired | belowSteerSpeed
| buttonEnable | buttonCancel
| otherEvent (ordinal : N).

#[global] Instance event_name_eq_dec : EqDecision t.
Proof. solve_decision. Defined.
End EventName.

Module GearShifter.
(** [car.CarState.GearShifter]. *)
Inductive t :=
| unknown | park | drive | neutral | reverse | sport | low | brake | eco | manumatic.
End GearShifter.

Module CAR.
(** The vehicle identifiers of [values.CAR] that [interface.py] names; any
    other identifier is [OTHER]. *)
Inductive t :=
| VOLT | VOLT_NR | MALIBU | MALIBU_NR | HOLDEN_ASTRA | ACADIA | ACADIA_NR
| BUICK_REGAL | CADILLAC_ATS | ESCALADE_ESV | BOLT_NR | EQUINOX_NR
| TAHOE_NR | SILVERADO_NR | SUBURBAN | BOLT_EUV
| OTHER (name : string).

#[global] Instance car_eq_dec : EqDecision t.
Proof. solve_decision. Defined.

(** [a == b] on identifiers. *)
Definition eqb (a b : t) : bool := bool_decide (a = b).
End CAR.

(** [values.CruiseButtons]: the raw codes of the steering-wheel cruise
    buttons.  The numbers are declared in [values.py]; the interface only
    names them, so they are a parameter of the model. *)
Record CruiseButtonCodes := {
  INIT : Z;
  UNPRESS : Z;
  RES_ACCEL : Z;
  DECEL_SET : Z;
  MAIN : Z;
  CANCEL : Z
}.

(** [common.conversions.Conversions]: the unit factor [get_params] uses for
    the speed thresholds. *)
Record Conversions := {
  MPH_TO_MS : float
}.

(** ** Messages *)

Module ButtonEvent.
(** [car.CarState.ButtonEvent]. *)
Record t := { pressed : bool; type : ButtonType.t }.

Definition set_type (v : ButtonType.t) (be : t) : t :=
  {| pressed := pressed be; type := v |}.
End ButtonEvent.

Module CruiseState.
(** [car.CarState.CruiseState], the flags the update reads. *)
Record t := { enabled : bool; standstill : bool }.
End CruiseState.

Module Events.
(** Modelled from the spec: the [Events] container of
    [selfdrive/controls/lib/events.py] is not under src/.  The spec describes
    a cycle's output as "an ordered sequence of Events ... matching
    evaluation order", so the container is the list of names in the order
    they were added, and [to_msg] yields one message per stored name in that
    order (the per-name flags of the message come from a table that is not
    modelled). *)
Definition t := list EventName.t.

Definition add (event_name : EventName.t) (events : t) : t := events ++ [event_name].

Definition to_msg (events : t) : list EventName.t := events.
End Events.

Module CarState.
(** [car.CarState], the fields the update reads or writes. *)
Record t := {
  vEgo : float;
  standstill : bool;
  cruiseState : CruiseState.t;
  steeringRateLimited : bool;
  buttonEvents : list ButtonEvent.t;
  events : list EventName.t
}.

Definition set_steeringRateLimited (v : bool) (ret : t) : t :=
  {| vEgo := vEgo ret; standstill := standstill ret; cruiseState := cruiseState ret;
     steeringRateLimited := v; buttonEvents := buttonEvents ret; events := events ret |}.

Definition set_buttonEvents (v : list ButtonEvent.t) (ret : t) : t :=
  {| vEgo := vEgo ret; standstill := standstill ret; cruiseState := cruiseState ret;
     steeringRateLimited := steeringRateLimited ret; buttonEvents := v; events := events ret |}.

Definition set_events (v : list EventName.t) (ret : t) : t :=
  {| vEgo := vEgo ret; standstill := standstill ret; cruiseState := cruiseState ret;
     steeringRateLimited := steeringRateLimited ret; buttonEvents := buttonEvents ret;
     events := v |}.
End CarState.

(** ** Vehicle parameters *)

Module LateralTuning.
(** [car.CarParams.LateralPIDTuning]. *)
Record pid_t := {
  kpBP : list float; kpV : list float;
  kiBP : list float; kiV : list float;
  kf : float
}.

(** [car.CarParams.LateralTorqueTuning]. *)
Record torque_t := {
  useSteeringAngle : bool;
  torque_kp : float; torque_kf : float; torque_ki : float;
  friction : float
}.

(** The [lateralTuning] union, by its active member. *)
Inductive t :=
| pid (p : pid_t)
| torque (q : torque_t).

(** A write [ret.lateralTuning.pid.<field> = v]; the schema refuses it when
    [pid] is not the active member, which no path of [get_params] reaches. *)
Definition update_pid (f : pid_t -> pid_t) (lt : t) : t :=
  match lt with
  | pid p => pid (f p)
  | torque q => torque q
  end.

Definition update_torque (f : torque_t -> torque_t) (lt : t) : t :=
  match lt with
  | torque q => torque (f q)
  | pid p => pid p
  end.

Definition set_kpBP v p := {| kpBP := v; kpV := kpV p; kiBP := kiBP p; kiV := kiV p; kf := kf p |}.
Definition set_kpV v p := {| kpBP := kpBP p; kpV := v; kiBP := kiBP p; kiV := kiV p; kf := kf p |}.
Definition set_kiBP v p := {| kpBP := kpBP p; kpV := kpV p; kiBP := v; kiV := kiV p; kf := kf p |}.
Definition set_kiV v p := {| kpBP := kpBP p; kpV := kpV p; kiBP := kiBP p; kiV := v; kf := kf p |}.
Definition set_kf v p := {| kpBP := kpBP p; kpV := kpV p; kiBP := kiBP p; kiV := kiV p; kf := v |}.

Definition set_useSteeringAngle v q :=
  {| useSteeringAngle := v; torque_kp := torque_kp q; torque_kf := torque_kf q;
     torque_ki := torque_ki q; friction := friction q |}.
Definition set_torque_kp v q :=
  {| useSteeringAngle := useSteeringAngle q; torque_kp := v; torque_kf := torque_kf q;
     torque_ki := torque_ki q; friction := friction q |}.
Definition set_torque_kf v q :=
  {| useSteeringAngle := useSteeringAngle q; torque_kp := torque_kp q; torque_kf := v;
     torque_ki := torque_ki q; friction := friction q |}.
Definition set_torque_ki v q :=
  {| useSteeringAngle := useSteeringAngle q; torque_kp := torque_kp q; torque_kf := torque_kf q;
     torque_ki := v; friction := friction q |}.
Definition set_friction v q :=
  {| useSteeringAngle := useSteeringAngle q; torque_kp := torque_kp q; torque_kf := torque_kf q;
     torque_ki := torque_ki q; friction := v |}.

(** [ret.lateralTuning.init('torque')]: a fresh member with the schema's
    zero defaults becomes the active one. *)
Definition init_torque : t :=
  torque {| useSteeringAngle := false; torque_kp := 0%float; torque_kf := 0%float;
            torque_ki := 0%float; friction := 0%float |}.

(** The pid gain [kf], when [pid] is the active member. *)
Definition pid_kf (lt : t) : option float :=
  match lt with
  | pid p => Some (kf p)
  | torque _ => None
  end.
End LateralTuning.

Module CarParams.
(** [car.CarParams], the fields read by the feed-forward selection and by the
    per-cycle update, with the lateral tuning and the actuator delay. *)
Record t := {
  carFingerprint : CAR.t;
  carName : string;
  pcmCruise : bool;
  minEnableSpeed : float;
  minSteerSpeed : float;
  steerActuatorDelay : float;
  lateralTuning : LateralTuning.t
}.

Definition set_carName v r :=
  {| carFingerprint := carFingerprint r; carName := v; pcmCruise := pcmCruise r;
     minEnableSpeed := minEnableSpeed r; minSteerSpeed := minSteerSpeed r;
     steerActuatorDelay := steerActuatorDelay r; lateralTuning := lateralTuning r |}.
Definition set_pcmCruise v r :=
  {| carFingerprint := carFingerprint r; carName := carName r; pcmCruise := v;
     minEnableSpeed := minEnableSpeed r; minSteerSpeed := minSteerSpeed r;
     steerActuatorDelay := steerActuatorDelay r; lateralTuning := lateralTuning r |}.
Definition set_minEnableSpeed v r :=
  {| carFingerprint := carFingerprint r; carName := carName r; pcmCruise := pcmCruise r;
     minEnableSpeed := v; minSteerSpeed := minSteerSpeed r;
     steerActuatorDelay := steerActuatorDelay r; lateralTuning := lateralTuning r |}.
Definition set_minSteerSpeed v r :=
  {| carFingerprint := carFingerprint r; carName := carName r; pcmCruise := pcmCruise r;
     minEnableSpeed := minEnableSpeed r; minSteerSpeed := v;
     steerActuatorDelay := steerActuatorDelay r; lateralTuning := lateralTuning r |}.
Definition set_steerActuatorDelay v r :=
  {| carFingerprint := carFingerprint r; carName := carName r; pcmCruise := pcmCruise r;
     minEnableSpeed := minEnableSpeed r; minSteerSpeed := minSteerSpeed r;
     steerActuatorDelay := v; lateralTuning := lateralTuning r |}.
Definition set_lateralTuning v r :=
  {| carFingerprint := carFingerprint r; carName := carName r; pcmCruise := pcmCruise r;
     minEnableSpeed := minEnableSpeed r; minSteerSpeed := minSteerSpeed r;
     steerActuatorDelay := steerActuatorDelay r; lateralTuning := v |}.

(** [ret.lateralTuning.pid.<field> = v] and [ret.lateralTuning.torque.<field> = v]. *)
Definition update_pid f r := set_lateralTuning (LateralTuning.update_pid f (lateralTuning r)) r.
Definition update_torque f r := set_lateralTuning (LateralTuning.update_torque f (lateralTuning r)) r.
End CarParams.


(** Modelled from the spec: [CarInterfaceBase.get_std_params] is not under
    src/.  The spec says the parameters are "created once at startup from a
    vehicle identifier", so the base record carries the identifier as its
    fingerprint; the other fields start from the schema's defaults (zero,
    empty, the [lateralTuning] union on its first member [pid]) and
    [get_params] overwrites each of them. *)
Definition get_std_params (candidate : CAR.t) : CarParams.t :=
  {| CarParams.carFingerprint := candidate;
     CarParams.carName := "";
     CarParams.pcmCruise := false;
     CarParams.minEnableSpeed := 0%float;
     CarParams.minSteerSpeed := 0%float;
     CarParams.steerActuatorDelay := 0%float;
     CarParams.lateralTuning :=
       LateralTuning.pid {| LateralTuning.kpBP := []; LateralTuning.kpV := [];
                            LateralTuning.kiBP := []; LateralTuning.kiV := [];
                            LateralTuning.kf := 0%float |} |}.

Section GetParams.
Local Open Scope float_scope.
Import CAR LateralTuning CarParams.

Local Notation "r |> f" := (f r) (at level 45, left associativity, only parsing).

(** The torque tuning block shared by the TAHOE_NR, SILVERADO_NR and SUBURBAN
    branches; [MAX_LAT_ACCEL] is a non-zero literal in each of them, so the
    divisions do not raise. *)
Definition torque_tune (MAX_LAT_ACCEL friction : float) (ret : CarParams.t) : CarParams.t :=
  ret |> set_lateralTuning init_torque
      |> update_torque (set_useSteeringAngle true)
      |> update_torque (set_torque_kp (2.0 / MAX_LAT_ACCEL))
      |> update_torque (set_torque_kf (1.0 / MAX_LAT_ACCEL))
      |> update_torque (set_torque_ki (0.50 / MAX_LAT_ACCEL))
      |> update_torque (set_friction friction).

(** [CarInterface.get_params], on the modelled fields.  The fingerprint
    argument only decides [enableGasInterceptor], which changes longitudinal
    tuning fields alone. *)
Definition get_params (CV : Conversions) (candidate : CAR.t) : CarParams.t :=
  let ret := get_std_params candidate in
  let ret := ret |> set_carName "gm"
                 |> set_pcmCruise false in
  (* baseline tuning for all GM vehicles *)
  let ret := ret |> set_minSteerSpeed (7 * MPH_TO_MS CV)
                 |> update_pid (set_kiBP [0.0]) |> update_pid (set_kpBP [0.0])
                 |> update_pid (set_kpV [0.2]) |> update_pid (set_kiV [0.00])
                 |> update_pid (set_kf 0.00004)
                 |> set_steerActuatorDelay 0.1 in
  let ret := ret |> set_minEnableSpeed (18 * MPH_TO_MS CV) in
  if CAR.eqb candidate VOLT || CAR.eqb candidate VOLT_NR then
    ret |> update_pid (set_kpBP [0.0; 40.0])
        |> update_pid (set_kpV [0.0; 0.17])
        |> update_pid (set_kiBP [0.0])
        |> update_pid (set_kiV [0.0])
        |> update_pid (set_kf 1.0)
        |> set_steerActuatorDelay 0.2
  else if CAR.eqb candidate MALIBU || CAR.eqb candidate MALIBU_NR then
    ret
  else if CAR.eqb candidate HOLDEN_ASTRA then
    ret
  else if CAR.eqb candidate ACADIA || CAR.eqb candidate ACADIA_NR then
    ret |> set_minEnableSpeed (-1.0)
        |> update_pid (set_kf 1.0)
  else if CAR.eqb candidate BUICK_REGAL then
    ret
  else if CAR.eqb candidate CADILLAC_ATS then
    ret
  else if CAR.eqb candidate ESCALADE_ESV then
    ret |> set_minEnableSpeed (-1.0)
        |> update_pid (set_kiBP [10.0; 41.0]) |> update_pid (set_kpBP [10.0; 41.0])
        |> update_pid (set_kpV [0.13; 0.24]) |> update_pid (set_kiV [0.01; 0.02])
        |> update_pid (set_kf 0.000045)
  else if CAR.eqb candidate BOLT_NR then
    ret |> set_minEnableSpeed (-1)
        |> set_minSteerSpeed (5 * MPH_TO_MS CV)
        |> set_steerActuatorDelay 0.0
        |> update_pid (set_kpBP [10.0; 41.0]) |> update_pid (set_kiBP [10.0; 41.0])
        |> update_pid (set_kpV [0.18; 0.275]) |> update_pid (set_kiV [0.01; 0.021])
        |> update_pid (set_kf 0.0002)
  else if CAR.eqb candidate EQUINOX_NR then
    ret |> set_minEnableSpeed (18 * MPH_TO_MS CV)
  else if CAR.eqb candidate TAHOE_NR then
    ret |> set_minEnableSpeed (-1.0)
        |> set_minSteerSpeed (-1 * MPH_TO_MS CV)
        |> set_steerActuatorDelay 0.2
        |> set_pcmCruise true
        |> torque_tune 2.5 0.1
  else if CAR.eqb candidate SILVERADO_NR then
    ret |> set_minEnableSpeed (-1.0)
        |> set_minSteerSpeed (-1 * MPH_TO_MS CV)
        |> set_pcmCruise true
        |> set_steerActuatorDelay 0.11
        |> torque_tune 2.5 0.1
  else if CAR.eqb candidate SUBURBAN then
    ret |> set_minEnableSpeed (-1.0)
        |> set_minSteerSpeed (-1 * MPH_TO_MS CV)
        |> set_steerActuatorDelay 0.075
        |> set_pcmCruise true
        |> torque_tune 2.0 0.12
  else if CAR.eqb candidate BOLT_EUV then
    ret |> set_minEnableSpeed (-1)
        |> set_minSteerSpeed (5 * MPH_TO_MS CV)
        |> set_steerActuatorDelay 0.0
        |> update_pid (set_kpBP [10.0; 41.0]) |> update_pid (set_kiBP [10.0; 41.0])
        |> update_pid (set_kpV [0.18; 0.275]) |> update_pid (set_kiV [0.01; 0.021])
        |> update_pid (set_kf 0.0002)
        |> set_pcmCruise true
  else
    ret.

End GetParams.

(** ** The car interface *)

(** The attributes of the GM [CarState] reader ([self.CS]) that the update
    consults: the current and the previous raw cruise-button code. *)
Record GMCarState := {
  cruise_buttons : Z;
  prev_cruise_buttons : Z
}.

(** The attribute of the car controller ([self.CC]) that the update reads. *)
Record CarController := {
  steer_rate_limited : bool
}.

(** The function object returned by the feed-forward selection. *)
Inductive SteerFeedforward :=
| ref_get_steer_feedforward_volt
| ref_get_steer_feedforward_acadia
| ref_get_steer_feedforward_default.

Section Interface.

(** CAN parser state and the [CarControl] message, opaque to this file. *)
Variable Parser : Type.
Variable CarControl : Type.

(** [class CarInterface(CarInterfaceBase)]: the attributes used here. *)
Record CarInterface := {
  CP : CarParams.t;
  CS : GMCarState;
  CC : option CarController;
  cp : Parser;
  cp_loopback : Parser;
  cp_body : Parser
}.

Definition set_CS (v : GMCarState) (self : CarInterface) : CarInterface :=
  {| CP := CP self; CS := v; CC := CC self;
     cp := cp self; cp_loopback := cp_loopback self; cp_body := cp_body self |}.

(** Collaborators defined outside this file. *)
Variable CruiseButtons : CruiseButtonCodes.
Variable get_steer_feedforward_default : float -> float -> option float.
Variable CarState_update : GMCarState -> Parser -> Parser -> Parser -> CarState.t * GMCarState.
Variable create_button_event : Z -> Z -> gmap Z ButtonType.t -> Z -> ButtonEvent.t.
Variable create_common_events :
  CarInterface -> CarState.t -> list GearShifter.t -> bool -> Events.t.
Variable create_button_enable_events : list ButtonEvent.t -> bool -> list EventName.t.

(** The dict literal [BUTTONS_DICT]: later keys overwrite earlier equal ones. *)
Definition BUTTONS_DICT : gmap Z ButtonType.t :=
  <[CANCEL CruiseButtons := ButtonType.cancel]>
    (<[MAIN CruiseButtons := ButtonType.altButton3]>
       (<[DECEL_SET CruiseButtons := ButtonType.decelCruise]>
          (<[RES_ACCEL CruiseButtons := ButtonType.accelCruise]> ∅))).

Definition get_steer_feedforward_function (self : CarInterface) : SteerFeedforward :=
  if CAR.eqb (CarParams.carFingerprint (CP self)) CAR.VOLT then
    ref_get_steer_feedforward_volt
  else if CAR.eqb (CarParams.carFingerprint (CP self)) CAR.ACADIA then
    ref_get_steer_feedforward_acadia
  else
    ref_get_steer_feedforward_default.

(** Calling the selected function object. *)
Definition call_steer_feedforward (f : SteerFeedforward) : float -> float -> option float :=
  match f with
  | ref_get_steer_feedforward_volt => get_steer_feedforward_volt
  | ref_get_steer_feedforward_acadia => get_steer_feedforward_acadia
  | ref_get_steer_feedforward_default => get_steer_feedforward_default
  end.

(** [CarInterface._update]: returns the interface with the reader state left
    by [self.CS.update] and the car state of the cycle. *)
Definition _update (self : CarInterface) (c : CarControl) : CarInterface * CarState.t :=
  let '(ret, CS') := CarState_update (CS self) (cp self) (cp_loopback self) (cp_body self) in
  let self := set_CS CS' self in
  let ret :=
    CarState.set_steeringRateLimited
      (match CC self with Some CC => steer_rate_limited CC | None => false end) ret in
  let ret :=
    if negb (cruise_buttons (CS self) =? prev_cruise_buttons (CS self))%Z
       && negb (prev_cruise_buttons (CS self) =? INIT CruiseButtons)%Z
    then
      let be := create_button_event (cruise_buttons (CS self)) (prev_cruise_buttons (CS self))
                                    BUTTONS_DICT (UNPRESS CruiseButtons) in
      (* Suppress resume button if we're resuming from stop so we don't adjust speed. *)
      let be :=
        if ButtonType.eqb (ButtonEvent.type be) ButtonType.accelCruise
           && (CruiseState.enabled (CarState.cruiseState ret) && CarState.standstill ret)
        then ButtonEvent.set_type ButtonType.unknown be
        else be in
      CarState.set_buttonEvents [be] ret
    else ret in
  let events :=
    create_common_events self ret
      [GearShifter.sport; GearShifter.low; GearShifter.eco; GearShifter.manumatic]
      (CarParams.pcmCruise (CP self)) in
  let events :=
    if PyFloat.lt (CarState.vEgo ret) (CarParams.minEnableSpeed (CP self))
    then Events.add EventName.belowEngageSpeed events else events in
  let events :=
    if CruiseState.standstill (CarState.cruiseState ret)
    then Events.add EventName.resumeRequired events else events in
  let events :=
    if PyFloat.lt (CarState.vEgo ret) (CarParams.minSteerSpeed (CP self))
    then Events.add EventName.belowSteerSpeed events else events in
  (* handle button presses *)
  let events :=
    events ++ create_button_enable_events (CarState.buttonEvents ret)
                                          (CarParams.pcmCruise (CP self)) in
  let ret := CarState.set_events (Events.to_msg events) ret in
  (self, ret).

End Interface.

(** ** The specification's wording of the two algorithms *)

Section SpecSide.
Local Open Scope float_scope.

(** Spec 4.1: scale the angle by [a], take [scaled / (1 + |scaled|)], multiply
    by [b] and by [(ego_speed + c)]. *)
Definition spec_feedforward (a b c desired_angle ego_speed : float) : float :=
  let scaled := a * desired_angle in
  let sigmoid := scaled / (1 + abs scaled) in
  b * sigmoid * (ego_speed + c).

(** Spec 4.3: rules 1, 2 and 3 of the threshold evaluator, in that order. *)
Definition spec_evaluate (ego_speed : float) (cruiseStandstill : bool)
    (minEnableSpeed minSteerSpeed : float) : list EventName.t :=
  (if ego_speed <? minEnableSpeed then [EventName.belowEngageSpeed] else []) ++
  (if cruiseStandstill then [EventName.resumeRequired] else []) ++
  (if ego_speed <? minSteerSpeed then [EventName.belowSteerSpeed] else []).

End SpecSide.

(** ** Sample collaborators

    Concrete stand-ins for the parts declared outside this file, used to run
    the update on explicit inputs. *)

(** The button codes of the GM steering-wheel message. *)
Definition gm_cruise_buttons : CruiseButtonCodes :=
  {| INIT := 0; UNPRESS := 1; RES_ACCEL := 2; DECEL_SET := 3; MAIN := 5; CANCEL := 6 |}.

(** Miles per hour to metres per second. *)
Definition gm_conversions : Conversions := {| MPH_TO_MS := 0.44704%float |}.

(** Modelled from the spec: [create_button_event] of [selfdrive/car/__init__.py]
    is not under src/.  Spec 4.2: the pair (current, previous) is classified
    against the static mapping from button codes to button types; "an unpress
    code maps to release semantics", so on the unpress code the event is a
    release of the previous button, otherwise a press of the current one; a
    code "not found in the mapping yields an unknown-typed event". *)
Definition create_button_event_spec (cur_but prev_but : Z)
    (buttons_dict : gmap Z ButtonType.t) (unpressed : Z) : ButtonEvent.t :=
  let '(pressed, but) :=
    if negb (cur_but =? unpressed)%Z then (true, cur_but) else (false, prev_but) in
  {| ButtonEvent.pressed := pressed;
     ButtonEvent.type := default ButtonType.unknown (buttons_dict !! but) |}.

(** A decoded sample standing for the three CAN parsers: the car state the
    reader builds from it and the raw cruise-button code. *)
Record RawSample := {
  sample_state : CarState.t;
  sample_button : Z
}.

(** Modelled from the spec: the reader's [update] ([carstate.py]) is not under
    src/.  Spec 4.4 (d): each cycle the stored previous button becomes the
    button of the sample before, "to be used next cycle". *)
Definition sample_CarState_update (CS : GMCarState) (cp cp_loopback cp_body : RawSample)
  : CarState.t * GMCarState :=
  (sample_state cp,
   {| cruise_buttons := sample_button cp; prev_cruise_buttons := cruise_buttons CS |}).

(** A base interface that raises no common event. *)
Definition sample_create_common_events (self : CarInterface RawSample) (cs_out : CarState.t)
    (extra_gears : list GearShifter.t) (pcm_enable : bool) : Events.t := [].

(** A stand-in for [create_button_enable_events]: enable on the release of
    the accelerate or decelerate button unless the stock cruise is in charge,
    cancel on the press of the cancel button. *)
Definition sample_create_button_enable_events (buttonEvents : list ButtonEvent.t)
    (pcm_cruise : bool) : list EventName.t :=
  flat_map (fun b =>
    (if negb pcm_cruise
        && (ButtonType.eqb (ButtonEvent.type b) ButtonType.accelCruise
            || ButtonType.eqb (ButtonEvent.type b) ButtonType.decelCruise)
        && negb (ButtonEvent.pressed b)
     then [EventName.buttonEnable] else []) ++
    (if ButtonType.eqb (ButtonEvent.type b) ButtonType.cancel && ButtonEvent.pressed b
     then [EventName.buttonCancel] else [])) buttonEvents.

(** A default feed-forward for the base interface. *)
Definition sample_steer_feedforward_default (desired_angle v_ego : float) : option float :=
  Some (desired_angle * (v_ego * v_ego))%float.

(** The update with the sample collaborators plugged in. *)
Definition sample_update (self : CarInterface RawSample) : CarInterface RawSample * CarState.t :=
  _update RawSample unit gm_cruise_buttons sample_CarState_update create_button_event_spec
          sample_create_common_events sample_create_button_enable_events self tt.

(** A decoded sample: ego speed, vehicle standstill, cruise enabled, cruise
    standstill, and the raw button code. *)
Definition sample (vEgo : float) (standstill enabled cruise_standstill : bool) (button : Z)
  : RawSample :=
  {| sample_state :=
       {| CarState.vEgo := vEgo;
          CarState.standstill := standstill;
          CarState.cruiseState :=
            {| CruiseState.enabled := enabled; CruiseState.standstill := cruise_standstill |};
          CarState.steeringRateLimited := false;
          CarState.buttonEvents := [];
          CarState.events := [] |};
     sample_button := button |}.

(** An interface for [candidate] whose reader last saw the button [prev] and
    whose parsers hold the sample [smp]. *)
Definition sample_interface (candidate : CAR.t) (prev : Z) (smp : RawSample)
  : CarInterface RawSample :=
  {| CP := get_params gm_conversions candidate;
     CS := {| cruise_buttons := prev; prev_cruise_buttons := INIT gm_cruise_buttons |};
     CC := None;
     cp := smp; cp_loopback := smp; cp_body := smp |}.

(** The next cycle: the parsers receive the sample [smp], then the update runs. *)
Definition sample_cycle (smp : RawSample) (self : CarInterface RawSample)
  : CarInterface RawSample * CarState.t :=
  sample_update {| CP := CP RawSample self; CS := CS RawSample self; CC := CC RawSample self;
                   cp := smp; cp_loopback := smp; cp_body := smp |}.

(** ** Vehicle parameters, every field *)

Module LongitudinalTuning.
(** [car.CarParams.LongitudinalPIDTuning], the fields [get_params] writes. *)
Record t := {
  kpBP : list float; kpV : list float;
  kiBP : list float; kiV : list float;
  kf : float
}.

Definition set_kpBP v p := {| kpBP := v; kpV := kpV p; kiBP := kiBP p; kiV := kiV p; kf := kf p |}.
Definition set_kpV v p := {| kpBP := kpBP p; kpV := v; kiBP := kiBP p; kiV := kiV p; kf := kf p |}.
Definition set_kiBP v p := {| kpBP := kpBP p; kpV := kpV p; kiBP := v; kiV := kiV p; kf := kf p |}.
Definition set_kiV v p := {| kpBP := kpBP p; kpV := kpV p; kiBP := kiBP p; kiV := v; kf := kf p |}.
Definition set_kf v p := {| kpBP := kpBP p; kpV := kpV p; kiBP := kiBP p; kiV := kiV p; kf := v |}.
End LongitudinalTuning.

(** The fingerprint argument of [get_params]: for each CAN bus the message
    addresses seen on it, with their lengths. *)
Definition Fingerprint := gmap Z (gmap Z Z).

Section GetParamsFull.
Local Open Scope float_scope.
Import CAR.

(** [car.CarParams.SafetyConfig], opaque to this file. *)
Variable SafetyConfig : Type.

(** [car.CarParams] with every field that [get_params] writes: the fields of
    [CarParams.t] above as [basic], and the others. *)
Record FullCarParams := {
  basic : CarParams.t;
  safetyConfigs : list SafetyConfig;
  alternativeExperience : Z;
  openpilotLongitudinalControl : bool;
  radarOffCan : bool;
  dashcamOnly : bool;
  enableGasInterceptor : bool;
  longitudinalTuning : LongitudinalTuning.t;
  steerLimitTimer : float;
  radarTimeStep : float;
  mass : float;
  wheelbase : float;
  steerRatio : float;
  steerRatioRear : float;
  centerToFront : float;
  stoppingDecelRate : float;
  stopAccel : float;
  vEgoStopping : float;
  vEgoStarting : float;
  stoppingControl : bool;
  rotationalInertia : float;
  tireStiffnessFront : float;
  tireStiffnessRear : float
}.

Definition set_basic v (r : FullCarParams) : FullCarParams :=
  {| basic := v; safetyConfigs := safetyConfigs r;
     alternativeExperience := alternativeExperience r;
     openpilotLongitudinalControl := openpilotLongitudinalControl r;
     radarOffCan := radarOffCan r; dashcamOnly := dashcamOnly r;
     enableGasInterceptor := enableGasInterceptor r; longitudinalTuning := longitudinalTuning r;
     steerLimitTimer := steerLimitTimer r; radarTimeStep := radarTimeStep r; mass := mass r;
     wheelbase := wheelbase r; steerRatio := steerRatio r; steerRatioRear := steerRatioRear r;
     centerToFront := centerToFront r; stoppingDecelRate := stoppingDecelRate r;
     stopAccel := stopAccel r; vEgoStopping := vEgoStopping r; vEgoStarting := vEgoStarting r;
     stoppingControl := stoppingControl r; rotationalInertia := rotationalInertia r;
     tireStiffnessFront := tireStiffnessFront r; tireStiffnessRear := tireStiffnessRear r |}.
Definition set_safetyConfigs v (r : FullCarParams) : FullCarParams :=
  {| basic := basic r; safetyConfigs := v; alternativeExperience := alternativeExperience r;
     openpilotLongitudinalControl := openpilotLongitudinalControl r;
     radarOffCan := radarOffCan r; dashcamOnly := dashcamOnly r;
     enableGasInterceptor := enableGasInterceptor r; longitudinalTuning := longitudinalTuning r;
     steerLimitTimer := steerLimitTimer r; radarTimeStep := radarTimeStep r; mass := mass r;
     wheelbase := wheelbase r; steerRatio := steerRatio r; steerRatioRear := steerRatioRear r;
     centerToFront := centerToFront r; stoppingDecelRate := stoppingDecelRate r;
     stopAccel := stopAccel r; vEgoStopping := vEgoStopping r; vEgoStarting := vEgoStarting r;
     stoppingControl := stoppingControl r; rotationalInertia := rotationalInertia r;
     tireStiffnessFront := tireStiffnessFront r; tireStiffnessRear := tireStiffnessRear r |}.
Definition set_alternativeExperience v (r : FullCarParams) : FullCarParams :=
  {| basic := basic r; safetyConfigs := safetyConfigs r; alternativeExperience := v;
     openpilotLongitudinalControl := openpilotLongitudinalControl r;
     radarOffCan := radarOffCan r; dashcamOnly := dashcamOnly r;
     enableGasInterceptor := enableGasInterceptor r; longitudinalTuning := longitudinalTuning r;
     steerLimitTimer := steerLimitTimer r; radarTimeStep := radarTimeStep r; mass := mass r;
     wheelbase := wheelbase r; steerRatio := steerRatio r; steerRatioRear := steerRatioRear r;
     centerToFront := centerToFront r; stoppingDecelRate := stoppingDecelRate r;
     stopAccel := stopAccel r; vEgoStopping := vEgoStopping r; vEgoStarting := vEgoStarting r;
     stoppingControl := stoppingControl r; rotationalInertia := rotationalInertia r;
     tireStiffnessFront := tireStiffnessFront r; tireStiffnessRear := tireStiffnessRear r |}.
Definition set_openpilotLongitudinalControl v (r : FullCarParams) : FullCarParams :=
  {| basic := basic r; safetyConfigs := safetyConfigs r;
     alternativeExperience := alternativeExperience r; openpilotLongitudinalControl := v;
     radarOffCan := radarOffCan r; dashcamOnly := dashcamOnly r;
     enableGasInterceptor := enableGasInterceptor r; longitudinalTuning := longitudinalTuning r;
     steerLimitTimer := steerLimitTimer r; radarTimeStep := radarTimeStep r; mass := mass r;
     wheelbase := wheelbase r; steerRatio := steerRatio r; steerRatioRear := steerRatioRear r;
     centerToFront := centerToFront r; stoppingDecelRate := stoppingDecelRate r;
     stopAccel := stopAccel r; vEgoStopping := vEgoStopping r; vEgoStarting := vEgoStarting r;
     stoppingControl := stoppingControl r; rotationalInertia := rotationalInertia r;
     tireStiffnessFront := tireStiffnessFront r; tireStiffnessRear := tireStiffnessRear r |}.
Definition set_radarOffCan v (r : FullCarParams) : FullCarParams :=
  {| basic := basic r; safetyConfigs := safetyConfigs r;
     alternativeExperience := alternativeExperience r;
     openpilotLongitudinalControl := openpilotLongitudinalControl r; radarOffCan := v;
     dashcamOnly := dashcamOnly r; enableGasInterceptor := enableGasInterceptor r;
     longitudinalTuning := longitudinalTuning r; steerLimitTimer := steerLimitTimer r;
     radarTimeStep := radarTimeStep r; mass := mass r; wheelbase := wheelbase r;
     steerRatio := steerRatio r; steerRatioRear := steerRatioRear r;
     centerToFront := centerToFront r; stoppingDecelRate := stoppingDecelRate r;
     stopAccel := stopAccel r; vEgoStopping := vEgoStopping r; vEgoStarting := vEgoStarting r;
     stoppingControl := stoppingControl r; rotationalInertia := rotationalInertia r;
     tireStiffnessFront := tireStiffnessFront r; tireStiffnessRear := tireStiffnessRear r |}.
Definition set_dashcamOnly v (r : FullCarParams) : FullCarParams :=
  {| basic := basic r; safetyConfigs := safetyConfigs r;
     alternativeExperience := alternativeExperience r;
     openpilotLongitudinalControl := openpilotLongitudinalControl r;
     radarOffCan := radarOffCan r; dashcamOnly := v;
     enableGasInterceptor := enableGasInterceptor r; longitudinalTuning := longitudinalTuning r;
     steerLimitTimer := steerLimitTimer r; radarTimeStep := radarTimeStep r; mass := mass r;
     wheelbase := wheelbase r; steerRatio := steerRatio r; steerRatioRear := steerRatioRear r;
     centerToFront := centerToFront r; stoppingDecelRate := stoppingDecelRate r;
     stopAccel := stopAccel r; vEgoStopping := vEgoStopping r; vEgoStarting := vEgoStarting r;
     stoppingControl := stoppingControl r; rotationalInertia := rotationalInertia r;
     tireStiffnessFront := tireStiffnessFront r; tireStiffnessRear := tireStiffnessRear r |}.
Definition set_enableGasInterceptor v (r : FullCarParams) : FullCarParams :=
  {| basic := basic r; safetyConfigs := safetyConfigs r;
     alternativeExperience := alternativeExperience r;
     openpilotLongitudinalControl := openpilotLongitudinalControl r;
     radarOffCan := radarOffCan r; dashcamOnly := dashcamOnly r; enableGasInterceptor := v;
     longitudinalTuning := longitudinalTuning r; steerLimitTimer := steerLimitTimer r;
     radarTimeStep := radarTimeStep r; mass := mass r; wheelbase := wheelbase r;
     steerRatio := steerRatio r; steerRatioRear := steerRatioRear r;
     centerToFront := centerToFront r; stoppingDecelRate := stoppingDecelRate r;
     stopAccel := stopAccel r; vEgoStopping := vEgoStopping r; vEgoStarting := vEgoStarting r;
     stoppingControl := stoppingControl r; rotationalInertia := rotationalInertia r;
     tireStiffnessFront := tireStiffnessFront r; tireStiffnessRear := tireStiffnessRear r |}.
Definition set_longitudinalTuning v (r : FullCarParams) : FullCarParams :=
  {| basic := basic r; safetyConfigs := safetyConfigs r;
     alternativeExperience := alternativeExperience r;
     openpilotLongitudinalControl := openpilotLongitudinalControl r;
     radarOffCan := radarOffCan r; dashcamOnly := dashcamOnly r;
     enableGasInterceptor := enableGasInterceptor r; longitudinalTuning := v;
     steerLimitTimer := steerLimitTimer r; radarTimeStep := radarTimeStep r; mass := mass r;
     wheelbase := wheelbase r; steerRatio := steerRatio r; steerRatioRear := steerRatioRear r;
     centerToFront := centerToFront r; stoppingDecelRate := stoppingDecelRate r;
     stopAccel := stopAccel r; vEgoStopping := vEgoStopping r; vEgoStarting := vEgoStarting r;
     stoppingControl := stoppingControl r; rotationalInertia := rotationalInertia r;
     tireStiffnessFront := tireStiffnessFront r; tireStiffnessRear := tireStiffnessRear r |}.
Definition set_steerLimitTimer v (r : FullCarParams) : FullCarParams :=
  {| basic := basic r; safetyConfigs := safetyConfigs r;
     alternativeExperience := alternativeExperience r;
     openpilotLongitudinalControl := openpilotLongitudinalControl r;
     radarOffCan := radarOffCan r; dashcamOnly := dashcamOnly r;
     enableGasInterceptor := enableGasInterceptor r; longitudinalTuning := longitudinalTuning r;
     steerLimitTimer := v; radarTimeStep := radarTimeStep r; mass := mass r;
     wheelbase := wheelbase r; steerRatio := steerRatio r; steerRatioRear := steerRatioRear r;
     centerToFront := centerToFront r; stoppingDecelRate := stoppingDecelRate r;
     stopAccel := stopAccel r; vEgoStopping := vEgoStopping r; vEgoStarting := vEgoStarting r;
     stoppingControl := stoppingControl r; rotationalInertia := rotationalInertia r;
     tireStiffnessFront := tireStiffnessFront r; tireStiffnessRear := tireStiffnessRear r |}.
Definition set_radarTimeStep v (r : FullCarParams) : FullCarParams :=
  {| basic := basic r; safetyConfigs := safetyConfigs r;
     alternativeExperience := alternativeExperience r;
     openpilotLongitudinalControl := openpilotLongitudinalControl r;
     radarOffCan := radarOffCan r; dashcamOnly := dashcamOnly r;
     enableGasInterceptor := enableGasInterceptor r; longitudinalTuning := longitudinalTuning r;
     steerLimitTimer := steerLimitTimer r; radarTimeStep := v; mass := mass r;
     wheelbase := wheelbase r; steerRatio := steerRatio r; steerRatioRear := steerRatioRear r;
     centerToFront := centerToFront r; stoppingDecelRate := stoppingDecelRate r;
     stopAccel := stopAccel r; vEgoStopping := vEgoStopping r; vEgoStarting := vEgoStarting r;
     stoppingControl := stoppingControl r; rotationalInertia := rotationalInertia r;
     tireStiffnessFront := tireStiffnessFront r; tireStiffnessRear := tireStiffnessRear r |}.
Definition set_mass v (r : FullCarParams) : FullCarParams :=
  {| basic := basic r; safetyConfigs := safetyConfigs r;
     alternativeExperience := alternativeExperience r;
     openpilotLongitudinalControl := openpilotLongitudinalControl r;
     radarOffCan := radarOffCan r; dashcamOnly := dashcamOnly r;
     enableGasInterceptor := enableGasInterceptor r; longitudinalTuning := longitudinalTuning r;
     steerLimitTimer := steerLimitTimer r; radarTimeStep := radarTimeStep r; mass := v;
     wheelbase := wheelbase r; steerRatio := steerRatio r; steerRatioRear := steerRatioRear r;
     centerToFront := centerToFront r; stoppingDecelRate := stoppingDecelRate r;
     stopAccel := stopAccel r; vEgoStopping := vEgoStopping r; vEgoStarting := vEgoStarting r;
     stoppingControl := stoppingControl r; rotationalInertia := rotationalInertia r;
     tireStiffnessFront := tireStiffnessFront r; tireStiffnessRear := tireStiffnessRear r |}.
Definition set_wheelbase v (r : FullCarParams) : FullCarParams :=
  {| basic := basic r; safetyConfigs := safetyConfigs r;
     alternativeExperience := alternativeExperience r;
     openpilotLongitudinalControl := openpilotLongitudinalControl r;
     radarOffCan := radarOffCan r; dashcamOnly := dashcamOnly r;
     enableGasInterceptor := enableGasInterceptor r; longitudinalTuning := longitudinalTuning r;
     steerLimitTimer := steerLimitTimer r; radarTimeStep := radarTimeStep r; mass := mass r;
     wheelbase := v; steerRatio := steerRatio r; steerRatioRear := steerRatioRear r;
     centerToFront := centerToFront r; stoppingDecelRate := stoppingDecelRate r;
     stopAccel := stopAccel r; vEgoStopping := vEgoStopping r; vEgoStarting := vEgoStarting r;
     stoppingControl := stoppingControl r; rotationalInertia := rotationalInertia r;
     tireStiffnessFront := tireStiffnessFront r; tireStiffnessRear := tireStiffnessRear r |}.
Definition set_steerRatio v (r : FullCarParams) : FullCarParams :=
  {| basic := basic r; safetyConfigs := safetyConfigs r;
     alternativeExperience := alternativeExperience r;
     openpilotLongitudinalControl := openpilotLongitudinalControl r;
     radarOffCan := radarOffCan r; dashcamOnly := dashcamOnly r;
     enableGasInterceptor := enableGasInterceptor r; longitudinalTuning := longitudinalTuning r;
     steerLimitTimer := steerLimitTimer r; radarTimeStep := radarTimeStep r; mass := mass r;
     wheelbase := wheelbase r; steerRatio := v; steerRatioRear := steerRatioRear r;
     centerToFront := centerToFront r; stoppingDecelRate := stoppingDecelRate r;
     stopAccel := stopAccel r; vEgoStopping := vEgoStopping r; vEgoStarting := vEgoStarting r;
     stoppingControl := stoppingControl r; rotationalInertia := rotationalInertia r;
     tireStiffnessFront := tireStiffnessFront r; tireStiffnessRear := tireStiffnessRear r |}.
Definition set_steerRatioRear v (r : FullCarParams) : FullCarParams :=
  {| basic := basic r; safetyConfigs := safetyConfigs r;
     alternativeExperience := alternativeExperience r;
     openpilotLongitudinalControl := openpilotLongitudinalControl r;
     radarOffCan := radarOffCan r; dashcamOnly := dashcamOnly r;
     enableGasInterceptor := enableGasInterceptor r; longitudinalTuning := longitudinalTuning r;
     steerLimitTimer := steerLimitTimer r; radarTimeStep := radarTimeStep r; mass := mass r;
     wheelbase := wheelbase r; steerRatio := steerRatio r; steerRatioRear := v;
     centerToFront := centerToFront r; stoppingDecelRate := stoppingDecelRate r;
     stopAccel := stopAccel r; vEgoStopping := vEgoStopping r; vEgoStarting := vEgoStarting r;
     stoppingControl := stoppingControl r; rotationalInertia := rotationalInertia r;
     tireStiffnessFront := tireStiffnessFront r; tireStiffnessRear := tireStiffnessRear r |}.
Definition set_centerToFront v (r : FullCarParams) : FullCarParams :=
  {| basic := basic r; safetyConfigs := safetyConfigs r;
     alternativeExperience := alternativeExperience r;
     openpilotLongitudinalControl := openpilotLongitudinalControl r;
     radarOffCan := radarOffCan r; dashcamOnly := dashcamOnly r;
     enableGasInterceptor := enableGasInterceptor r; longitudinalTuning := longitudinalTuning r;
     steerLimitTimer := steerLimitTimer r; radarTimeStep := radarTimeStep r; mass := mass r;
     wheelbase := wheelbase r; steerRatio := steerRatio r; steerRatioRear := steerRatioRear r;
     centerToFront := v; stoppingDecelRate := stoppingDecelRate r; stopAccel := stopAccel r;
     vEgoStopping := vEgoStopping r; vEgoStarting := vEgoStarting r;
     stoppingControl := stoppingControl r; rotationalInertia := rotationalInertia r;
     tireStiffnessFront := tireStiffnessFront r; tireStiffnessRear := tireStiffnessRear r |}.
Definition set_stoppingDecelRate v (r : FullCarParams) : FullCarParams :=
  {| basic := basic r; safetyConfigs := safetyConfigs r;
     alternativeExperience := alternativeExperience r;
     openpilotLongitudinalControl := openpilotLongitudinalControl r;
     radarOffCan := radarOffCan r; dashcamOnly := dashcamOnly r;
     enableGasInterceptor := enableGasInterceptor r; longitudinalTuning := longitudinalTuning r;
     steerLimitTimer := steerLimitTimer r; radarTimeStep := radarTimeStep r; mass := mass r;
     wheelbase := wheelbase r; steerRatio := steerRatio r; steerRatioRear := steerRatioRear r;
     centerToFront := centerToFront r; stoppingDecelRate := v; stopAccel := stopAccel r;
     vEgoStopping := vEgoStopping r; vEgoStarting := vEgoStarting r;
     stoppingControl := stoppingControl r; rotationalInertia := rotationalInertia r;
     tireStiffnessFront := tireStiffnessFront r; tireStiffnessRear := tireStiffnessRear r |}.
Definition set_stopAccel v (r : FullCarParams) : FullCarParams :=
  {| basic := basic r; safetyConfigs := safetyConfigs r;
     alternativeExperience := alternativeExperience r;
     openpilotLongitudinalControl := openpilotLongitudinalControl r;
     radarOffCan := radarOffCan r; dashcamOnly := dashcamOnly r;
     enableGasInterceptor := enableGasInterceptor r; longitudinalTuning := longitudinalTuning r;
     steerLimitTimer := steerLimitTimer r; radarTimeStep := radarTimeStep r; mass := mass r;
     wheelbase := wheelbase r; steerRatio := steerRatio r; steerRatioRear := steerRatioRear r;
     centerToFront := centerToFront r; stoppingDecelRate := stoppingDecelRate r; stopAccel := v;
     vEgoStopping := vEgoStopping r; vEgoStarting := vEgoStarting r;
     stoppingControl := stoppingControl r; rotationalInertia := rotationalInertia r;
     tireStiffnessFront := tireStiffnessFront r; tireStiffnessRear := tireStiffnessRear r |}.
Definition set_vEgoStopping v (r : FullCarParams) : FullCarParams :=
  {| basic := basic r; safetyConfigs := safetyConfigs r;
     alternativeExperience := alternativeExperience r;
     openpilotLongitudinalControl := openpilotLongitudinalControl r;
     radarOffCan := radarOffCan r; dashcamOnly := dashcamOnly r;
     enableGasInterceptor := enableGasInterceptor r; longitudinalTuning := longitudinalTuning r;
     steerLimitTimer := steerLimitTimer r; radarTimeStep := radarTimeStep r; mass := mass r;
     wheelbase := wheelbase r; steerRatio := steerRatio r; steerRatioRear := steerRatioRear r;
     centerToFront := centerToFront r; stoppingDecelRate := stoppingDecelRate r;
     stopAccel := stopAccel r; vEgoStopping := v; vEgoStarting := vEgoStarting r;
     stoppingControl := stoppingControl r; rotationalInertia := rotationalInertia r;
     tireStiffnessFront := tireStiffnessFront r; tireStiffnessRear := tireStiffnessRear r |}.
Definition set_vEgoStarting v (r : FullCarParams) : FullCarParams :=
  {| basic := basic r; safetyConfigs := safetyConfigs r;
     alternativeExperience := alternativeExperience r;
     openpilotLongitudinalControl := openpilotLongitudinalControl r;
     radarOffCan := radarOffCan r; dashcamOnly := dashcamOnly r;
     enableGasInterceptor := enableGasInterceptor r; longitudinalTuning := longitudinalTuning r;
     steerLimitTimer := steerLimitTimer r; radarTimeStep := radarTimeStep r; mass := mass r;
     wheelbase := wheelbase r; steerRatio := steerRatio r; steerRatioRear := steerRatioRear r;
     centerToFront := centerToFront r; stoppingDecelRate := stoppingDecelRate r;
     stopAccel := stopAccel r; vEgoStopping := vEgoStopping r; vEgoStarting := v;
     stoppingControl := stoppingControl r; rotationalInertia := rotationalInertia r;
     tireStiffnessFront := tireStiffnessFront r; tireStiffnessRear := tireStiffnessRear r |}.
Definition set_stoppingControl v (r : FullCarParams) : FullCarParams :=
  {| basic := basic r; safetyConfigs := safetyConfigs r;
     alternativeExperience := alternativeExperience r;
     openpilotLongitudinalControl := openpilotLongitudinalControl r;
     radarOffCan := radarOffCan r; dashcamOnly := dashcamOnly r;
     enableGasInterceptor := enableGasInterceptor r; longitudinalTuning := longitudinalTuning r;
     steerLimitTimer := steerLimitTimer r; radarTimeStep := radarTimeStep r; mass := mass r;
     wheelbase := wheelbase r; steerRatio := steerRatio r; steerRatioRear := steerRatioRear r;
     centerToFront := centerToFront r; stoppingDecelRate := stoppingDecelRate r;
     stopAccel := stopAccel r; vEgoStopping := vEgoStopping r; vEgoStarting := vEgoStarting r;
     stoppingControl := v; rotationalInertia := rotationalInertia r;
     tireStiffnessFront := tireStiffnessFront r; tireStiffnessRear := tireStiffnessRear r |}.
Definition set_rotationalInertia v (r : FullCarParams) : FullCarParams :=
  {| basic := basic r; safetyConfigs := safetyConfigs r;
     alternativeExperience := alternativeExperience r;
     openpilotLongitudinalControl := openpilotLongitudinalControl r;
     radarOffCan := radarOffCan r; dashcamOnly := dashcamOnly r;
     enableGasInterceptor := enableGasInterceptor r; longitudinalTuning := longitudinalTuning r;
     steerLimitTimer := steerLimitTimer r; radarTimeStep := radarTimeStep r; mass := mass r;
     wheelbase := wheelbase r; steerRatio := steerRatio r; steerRatioRear := steerRatioRear r;
     centerToFront := centerToFront r; stoppingDecelRate := stoppingDecelRate r;
     stopAccel := stopAccel r; vEgoStopping := vEgoStopping r; vEgoStarting := vEgoStarting r;
     stoppingControl := stoppingControl r; rotationalInertia := v;
     tireStiffnessFront := tireStiffnessFront r; tireStiffnessRear := tireStiffnessRear r |}.
Definition set_tireStiffnessFront v (r : FullCarParams) : FullCarParams :=
  {| basic := basic r; safetyConfigs := safetyConfigs r;
     alternativeExperience := alternativeExperience r;
     openpilotLongitudinalControl := openpilotLongitudinalControl r;
     radarOffCan := radarOffCan r; dashcamOnly := dashcamOnly r;
     enableGasInterceptor := enableGasInterceptor r; longitudinalTuning := longitudinalTuning r;
     steerLimitTimer := steerLimitTimer r; radarTimeStep := radarTimeStep r; mass := mass r;
     wheelbase := wheelbase r; steerRatio := steerRatio r; steerRatioRear := steerRatioRear r;
     centerToFront := centerToFront r; stoppingDecelRate := stoppingDecelRate r;
     stopAccel := stopAccel r; vEgoStopping := vEgoStopping r; vEgoStarting := vEgoStarting r;
     stoppingControl := stoppingControl r; rotationalInertia := rotationalInertia r;
     tireStiffnessFront := v; tireStiffnessRear := tireStiffnessRear r |}.
Definition set_tireStiffnessRear v (r : FullCarParams) : FullCarParams :=
  {| basic := basic r; safetyConfigs := safetyConfigs r;
     alternativeExperience := alternativeExperience r;
     openpilotLongitudinalControl := openpilotLongitudinalControl r;
     radarOffCan := radarOffCan r; dashcamOnly := dashcamOnly r;
     enableGasInterceptor := enableGasInterceptor r; longitudinalTuning := longitudinalTuning r;
     steerLimitTimer := steerLimitTimer r; radarTimeStep := radarTimeStep r; mass := mass r;
     wheelbase := wheelbase r; steerRatio := steerRatio r; steerRatioRear := steerRatioRear r;
     centerToFront := centerToFront r; stoppingDecelRate := stoppingDecelRate r;
     stopAccel := stopAccel r; vEgoStopping := vEgoStopping r; vEgoStarting := vEgoStarting r;
     stoppingControl := stoppingControl r; rotationalInertia := rotationalInertia r;
     tireStiffnessFront := tireStiffnessFront r; tireStiffnessRear := v |}.

(** A write to one of the fields of [basic], and to one of [longitudinalTuning]. *)
Definition on_basic (f : CarParams.t -> CarParams.t) (r : FullCarParams) : FullCarParams :=
  set_basic (f (basic r)) r.
Definition update_longitudinalTuning (f : LongitudinalTuning.t -> LongitudinalTuning.t)
    (r : FullCarParams) : FullCarParams :=
  set_longitudinalTuning (f (longitudinalTuning r)) r.

(** Collaborators defined outside this file: the unit factors and the cargo
    mass, the set [NO_ASCM] of [values.py], the safety configuration of the
    GM safety model, the two scaling helpers (which may raise), and the fields
    of the record of [get_std_params] other than the [basic] ones. *)
Variable CV : Conversions.
Variable LB_TO_KG : float.
Variable STD_CARGO_KG : float.
Variable NO_ASCM : list CAR.t.
Variable gm_safety_config : SafetyConfig.
Variable scale_rot_inertia : float -> float -> option float.
Variable scale_tire_stiffness : float -> float -> float -> float -> option (float * float).
Variable std_params : CAR.t -> Fingerprint -> FullCarParams.

(** The value a float field gives back once written; its width is fixed by
    the message schema, which is not part of this file. *)
Variable readback : float -> float.

Local Notation "r |> f" := (f r) (at level 45, left associativity, only parsing).

(** Modelled from the spec: [CarInterfaceBase.get_std_params] is not under
    src/.  The [basic] fields are those of [get_std_params] above (the
    parameters are "created once at startup from a vehicle identifier"); the
    other fields are as the base interface leaves them, a parameter. *)
Definition get_std_params_full (candidate : CAR.t) (fingerprint : Fingerprint) : FullCarParams :=
  set_basic (get_std_params candidate) (std_params candidate fingerprint).

(** The longitudinal tune of the cars driven through the gas interceptor,
    shared by the VOLT / VOLT_NR and the BOLT_NR branches. *)
Definition gas_interceptor_tune (ret : FullCarParams) : FullCarParams :=
  ret |> update_longitudinalTuning (LongitudinalTuning.set_kpBP [0.0; 35.0])
      |> update_longitudinalTuning (LongitudinalTuning.set_kpV [0.4; 0.06])
      |> update_longitudinalTuning (LongitudinalTuning.set_kiBP [0.0; 35.0])
      |> update_longitudinalTuning (LongitudinalTuning.set_kiV [0.0; 0.04])
      |> update_longitudinalTuning (LongitudinalTuning.set_kf 0.25)
      |> set_stoppingDecelRate 0.8
      |> set_stopAccel 0.0
      |> set_vEgoStopping 0.5
      |> set_vEgoStarting 0.5
      |> set_stoppingControl true.

(** The baseline longitudinal tune with the two timers, which the source
    writes twice. *)
Definition baseline_longitudinal_tune (ret : FullCarParams) : FullCarParams :=
  ret |> update_longitudinalTuning (LongitudinalTuning.set_kpBP [5.0; 35.0])
      |> update_longitudinalTuning (LongitudinalTuning.set_kpV [2.4; 1.5])
      |> update_longitudinalTuning (LongitudinalTuning.set_kiBP [0.0])
      |> update_longitudinalTuning (LongitudinalTuning.set_kiV [0.36])
      |> set_steerLimitTimer 0.4
      |> set_radarTimeStep 0.0667.

(** [CarInterface.get_params(candidate, fingerprint)], every statement.
    [fingerprint[0]] raises [KeyError] when the fingerprint has no entry for
    bus 0, and the scaling helpers may raise: [None].  The arguments [car_fw]
    and [disable_radar] are not used by the source. *)
Definition get_params_full (candidate : CAR.t) (fingerprint : Fingerprint)
  : option FullCarParams :=
  let ret := get_std_params_full candidate fingerprint in
  let ret := ret |> on_basic (CarParams.set_carName "gm")
                 |> set_safetyConfigs [gm_safety_config]
                 |> set_alternativeExperience 1
                 |> on_basic (CarParams.set_pcmCruise false)
                 |> set_openpilotLongitudinalControl true
                 |> set_radarOffCan false in
  let ret := ret |> set_dashcamOnly
                      (bool_decide (candidate ∈ [CADILLAC_ATS; HOLDEN_ASTRA; MALIBU; BUICK_REGAL])) in
  (* LKAS only - no radar, no long *)
  let ret :=
    if bool_decide (candidate ∈ NO_ASCM)
    then ret |> set_openpilotLongitudinalControl false |> set_radarOffCan true
    else ret in
  let tire_stiffness_factor := 0.444 in
  (* baseline tuning for all GM vehicles *)
  let ret := ret |> on_basic (CarParams.set_minSteerSpeed (7 * MPH_TO_MS CV))
                 |> on_basic (CarParams.update_pid (LateralTuning.set_kiBP [0.0]))
                 |> on_basic (CarParams.update_pid (LateralTuning.set_kpBP [0.0]))
                 |> on_basic (CarParams.update_pid (LateralTuning.set_kpV [0.2]))
                 |> on_basic (CarParams.update_pid (LateralTuning.set_kiV [0.00]))
                 |> on_basic (CarParams.update_pid (LateralTuning.set_kf 0.00004))
                 |> on_basic (CarParams.set_steerActuatorDelay 0.1) in
  bus0 ← fingerprint !! 0%Z;
  let ret := ret |> set_enableGasInterceptor (bool_decide (is_Some (bus0 !! 0x201%Z))) in
  (* baseline longitudinal tune *)
  let ret := baseline_longitudinal_tune ret in
  let ret := if enableGasInterceptor ret then set_openpilotLongitudinalControl true ret else ret in
  let ret := baseline_longitudinal_tune ret in
  (* supports stop and go, but initial engage must (conservatively) be above 18mph *)
  let ret := ret |> on_basic (CarParams.set_minEnableSpeed (18 * MPH_TO_MS CV)) in
  let '(ret, tire_stiffness_factor) :=
    if CAR.eqb candidate VOLT || CAR.eqb candidate VOLT_NR then
      let ret := ret |> set_mass (1607.0 + STD_CARGO_KG)
                     |> set_wheelbase 2.69
                     |> set_steerRatio 17.7 in
      let tire_stiffness_factor := 0.469 in
      let ret := set_centerToFront (readback (wheelbase ret) * 0.45) ret in
      let ret := ret |> on_basic (CarParams.update_pid (LateralTuning.set_kpBP [0.0; 40.0]))
                     |> on_basic (CarParams.update_pid (LateralTuning.set_kpV [0.0; 0.17]))
                     |> on_basic (CarParams.update_pid (LateralTuning.set_kiBP [0.0]))
                     |> on_basic (CarParams.update_pid (LateralTuning.set_kiV [0.0]))
                     |> on_basic (CarParams.update_pid (LateralTuning.set_kf 1.0))
                     |> on_basic (CarParams.set_steerActuatorDelay 0.2) in
      let ret := if enableGasInterceptor ret then gas_interceptor_tune ret else ret in
      (ret, tire_stiffness_factor)
    else if CAR.eqb candidate MALIBU || CAR.eqb candidate MALIBU_NR then
      let ret := ret |> set_mass (1496.0 + STD_CARGO_KG)
                     |> set_wheelbase 2.83
                     |> set_steerRatio 15.8 in
      let ret := set_centerToFront (readback (wheelbase ret) * 0.4) ret in
      (ret, tire_stiffness_factor)
    else if CAR.eqb candidate HOLDEN_ASTRA then
      let ret := ret |> set_mass (1363.0 + STD_CARGO_KG)
                     |> set_wheelbase 2.662 in
      let ret := set_centerToFront (readback (wheelbase ret) * 0.4) ret in
      let ret := ret |> set_steerRatio 15.7 in
      (ret, tire_stiffness_factor)
    else if CAR.eqb candidate ACADIA || CAR.eqb candidate ACADIA_NR then
      let ret := ret |> on_basic (CarParams.set_minEnableSpeed (-1.0))
                     |> set_mass (4353.0 * LB_TO_KG + STD_CARGO_KG)
                     |> set_wheelbase 2.86
                     |> set_steerRatio 14.4 in
      let ret := set_centerToFront (readback (wheelbase ret) * 0.4) ret in
      let ret := ret |> on_basic (CarParams.update_pid (LateralTuning.set_kf 1.0)) in
      (ret, tire_stiffness_factor)
    else if CAR.eqb candidate BUICK_REGAL then
      let ret := ret |> set_mass (3779.0 * LB_TO_KG + STD_CARGO_KG)
                     |> set_wheelbase 2.83
                     |> set_steerRatio 14.4 in
      let ret := set_centerToFront (readback (wheelbase ret) * 0.4) ret in
      (ret, tire_stiffness_factor)
    else if CAR.eqb candidate CADILLAC_ATS then
      let ret := ret |> set_mass (1601.0 + STD_CARGO_KG)
                     |> set_wheelbase 2.78
                     |> set_steerRatio 15.3 in
      let ret := set_centerToFront (readback (wheelbase ret) * 0.49) ret in
      (ret, tire_stiffness_factor)
    else if CAR.eqb candidate ESCALADE_ESV then
      let ret := ret |> on_basic (CarParams.set_minEnableSpeed (-1.0))
                     |> set_mass (2739.0 + STD_CARGO_KG)
                     |> set_wheelbase 3.302
                     |> set_steerRatio 17.3 in
      let ret := set_centerToFront (readback (wheelbase ret) * 0.49) ret in
      let ret := ret |> on_basic (CarParams.update_pid (LateralTuning.set_kiBP [10.0; 41.0]))
                     |> on_basic (CarParams.update_pid (LateralTuning.set_kpBP [10.0; 41.0]))
                     |> on_basic (CarParams.update_pid (LateralTuning.set_kpV [0.13; 0.24]))
                     |> on_basic (CarParams.update_pid (LateralTuning.set_kiV [0.01; 0.02]))
                     |> on_basic (CarParams.update_pid (LateralTuning.set_kf 0.000045)) in
      let tire_stiffness_factor := 1.0 in
      (ret, tire_stiffness_factor)
    else if CAR.eqb candidate BOLT_NR then
      let ret := ret |> on_basic (CarParams.set_minEnableSpeed (-1))
                     |> on_basic (CarParams.set_minSteerSpeed (5 * MPH_TO_MS CV))
                     |> set_mass (1616.0 + STD_CARGO_KG)
                     |> set_wheelbase 2.60096
                     |> set_steerRatio 16.8
                     |> set_steerRatioRear 0.0
                     |> set_centerToFront 2.0828 in
      let tire_stiffness_factor := 1.0 in
      let ret := ret |> on_basic (CarParams.set_steerActuatorDelay 0.0)
                     |> on_basic (CarParams.update_pid (LateralTuning.set_kpBP [10.0; 41.0]))
                     |> on_basic (CarParams.update_pid (LateralTuning.set_kiBP [10.0; 41.0]))
                     |> on_basic (CarParams.update_pid (LateralTuning.set_kpV [0.18; 0.275]))
                     |> on_basic (CarParams.update_pid (LateralTuning.set_kiV [0.01; 0.021]))
                     |> on_basic (CarParams.update_pid (LateralTuning.set_kf 0.0002)) in
      let ret := if enableGasInterceptor ret then gas_interceptor_tune ret else ret in
      (ret, tire_stiffness_factor)
    else if CAR.eqb candidate EQUINOX_NR then
      let ret := ret |> on_basic (CarParams.set_minEnableSpeed (18 * MPH_TO_MS CV))
                     |> set_mass (3500.0 * LB_TO_KG + STD_CARGO_KG)
                     |> set_wheelbase 2.72
                     |> set_steerRatio 14.4
                     |> set_steerRatioRear 0.0 in
      let ret := set_centerToFront (readback (wheelbase ret) * 0.4) ret in
      (ret, tire_stiffness_factor)
    else if CAR.eqb candidate TAHOE_NR then
      let ret := ret |> on_basic (CarParams.set_minEnableSpeed (-1.0))
                     |> on_basic (CarParams.set_minSteerSpeed (-1 * MPH_TO_MS CV))
                     |> set_mass (5602.0 * LB_TO_KG + STD_CARGO_KG)
                     |> set_wheelbase 2.95
                     |> set_steerRatio 16.3
                     |> set_steerRatioRear 0.0
                     |> set_centerToFront 2.59
                     |> on_basic (CarParams.set_steerActuatorDelay 0.2)
                     |> on_basic (CarParams.set_pcmCruise true)
                     |> set_openpilotLongitudinalControl false
                     |> set_radarOffCan true
                     |> on_basic (torque_tune 2.5 0.1) in
      (ret, tire_stiffness_factor)
    else if CAR.eqb candidate SILVERADO_NR then
      let ret := ret |> on_basic (CarParams.set_minEnableSpeed (-1.0))
                     |> on_basic (CarParams.set_minSteerSpeed (-1 * MPH_TO_MS CV))
                     |> set_mass (2400.0 + STD_CARGO_KG)
                     |> set_wheelbase 3.745
                     |> set_steerRatio 16.3
                     |> on_basic (CarParams.set_pcmCruise true) in
      let ret := set_centerToFront (readback (wheelbase ret) * 0.49) ret in
      let ret := ret |> on_basic (CarParams.set_steerActuatorDelay 0.11)
                     |> on_basic (torque_tune 2.5 0.1) in
      (ret, tire_stiffness_factor)
    else if CAR.eqb candidate SUBURBAN then
      let ret := ret |> on_basic (CarParams.set_minEnableSpeed (-1.0))
                     |> on_basic (CarParams.set_minSteerSpeed (-1 * MPH_TO_MS CV))
                     |> set_mass (2731.0 + STD_CARGO_KG)
                     |> set_wheelbase 3.302
                     |> set_steerRatio 17.3 in
      let ret := set_centerToFront (readback (wheelbase ret) * 0.49) ret in
      let ret := ret |> on_basic (CarParams.set_steerActuatorDelay 0.075)
                     |> on_basic (CarParams.set_pcmCruise true)
                     |> set_openpilotLongitudinalControl false
                     |> set_radarOffCan true
                     |> on_basic (torque_tune 2.0 0.12) in
      (ret, tire_stiffness_factor)
    else if CAR.eqb candidate BOLT_EUV then
      let ret := ret |> on_basic (CarParams.set_minEnableSpeed (-1))
                     |> on_basic (CarParams.set_minSteerSpeed (5 * MPH_TO_MS CV))
                     |> set_mass (1616.0 + STD_CARGO_KG)
                     |> set_wheelbase 2.60096
                     |> set_steerRatio 16.8
                     |> set_steerRatioRear 0.0
                     |> set_centerToFront 2.0828 in
      let tire_stiffness_factor := 1.0 in
      let ret := ret |> on_basic (CarParams.set_steerActuatorDelay 0.0)
                     |> on_basic (CarParams.update_pid (LateralTuning.set_kpBP [10.0; 41.0]))
                     |> on_basic (CarParams.update_pid (LateralTuning.set_kiBP [10.0; 41.0]))
                     |> on_basic (CarParams.update_pid (LateralTuning.set_kpV [0.18; 0.275]))
                     |> on_basic (CarParams.update_pid (LateralTuning.set_kiV [0.01; 0.021]))
                     |> on_basic (CarParams.update_pid (LateralTuning.set_kf 0.0002))
                     |> on_basic (CarParams.set_pcmCruise true)
                     |> set_openpilotLongitudinalControl false
                     |> set_radarOffCan true in
      (ret, tire_stiffness_factor)
    else
      (ret, tire_stiffness_factor) in
  rot ← scale_rot_inertia (readback (mass ret)) (readback (wheelbase ret));
  let ret := set_rotationalInertia rot ret in
  '(front, rear) ← scale_tire_stiffness (readback (mass ret)) (readback (wheelbase ret))
                                         (readback (centerToFront ret)) tire_stiffness_factor;
  Some (ret |> set_tireStiffnessFront front |> set_tireStiffnessRear rear).

End GetParamsFull.

(** ** The controller call *)

Section Apply.
Variable Parser : Type.
Variable CarControl : Type.

(** What the controller's [update] returns, opaque to this file. *)
Variable Actuation : Type.

(** [CarController.update], defined outside this file: it returns its result
    and leaves the controller in a new state. *)
Variable CarController_update :
  CarController -> CarControl -> GMCarState -> CarController * Actuation.

Definition set_CC (v : option CarController) (self : CarInterface Parser)
  : CarInterface Parser :=
  {| CP := CP Parser self; CS := CS Parser self; CC := v;
     cp := cp Parser self; cp_loopback := cp_loopback Parser self;
     cp_body := cp_body Parser self |}.

(** [CarInterface.apply]: [self.CC.update] raises [AttributeError] while
    [self.CC] is [None]. *)
Definition apply (self : CarInterface Parser) (c : CarControl)
  : option (CarInterface Parser * Actuation) :=
  match CC Parser self with
  | None => None
  | Some controller =>
      let '(controller, ret) := CarController_update controller c (CS Parser self) in
      Some (set_CC (Some controller) self, ret)
  end.

End Apply.

(** ** Well-formed interpolation tables *)

(** Every breakpoint is below the next one. *)
Fixpoint ascending (l : list float) : bool :=
  match l with
  | x :: (y :: _) as rest => PyFloat.lt x y && ascending rest
  | _ => true
  end.

(** ** Sample collaborators of [get_params] *)

(** A stand-in for [NO_ASCM]: the identifiers of the cars without the
    adaptive-cruise module. *)
Definition sample_NO_ASCM : list CAR.t :=
  [CAR.VOLT_NR; CAR.MALIBU_NR; CAR.ACADIA_NR; CAR.BOLT_NR; CAR.EQUINOX_NR;
   CAR.TAHOE_NR; CAR.SILVERADO_NR].

(** Stand-ins for the two scaling helpers. *)
Definition sample_scale_rot_inertia (mass wheelbase : float) : option float :=
  Some (mass * (wheelbase * wheelbase))%float.

Definition sample_scale_tire_stiffness (mass wheelbase center_to_front factor : float)
  : option (float * float) :=
  Some (factor * mass * (wheelbase - center_to_front), factor * mass * center_to_front)%float.

(** A base record with every field at zero. *)
Definition sample_std_params (candidate : CAR.t) (fingerprint : Fingerprint)
  : FullCarParams unit :=
  {| basic := get_std_params candidate;
     safetyConfigs := [];
     alternativeExperience := 0;
     openpilotLongitudinalControl := false;
     radarOffCan := false;
     dashcamOnly := false;
     enableGasInterceptor := false;
     longitudinalTuning :=
       {| LongitudinalTuning.kpBP := []; LongitudinalTuning.kpV := [];
          LongitudinalTuning.kiBP := []; LongitudinalTuning.kiV := [];
          LongitudinalTuning.kf := 0%float |};
     steerLimitTimer := 0%float;
     radarTimeStep := 0%float;
     mass := 0%float;
     wheelbase := 0%float;
     steerRatio := 0%float;
     steerRatioRear := 0%float;
     centerToFront := 0%float;
     stoppingDecelRate := 0%float;
     stopAccel := 0%float;
     vEgoStopping := 0%float;
     vEgoStarting := 0%float;
     stoppingControl := false;
     rotationalInertia := 0%float;
     tireStiffnessFront := 0%float;
     tireStiffnessRear := 0%float |}.

(** [get_params] with the sample collaborators plugged in; float fields give
    back the value written. *)
Definition sample_get_params_full : CAR.t -> Fingerprint -> option (FullCarParams unit) :=
  get_params_full unit gm_conversions 0.45359237%float 136%float sample_NO_ASCM tt
                  sample_scale_rot_inertia sample_scale_tire_stiffness sample_std_params
                  (fun x => x).

(** A fingerprint with the gas-interceptor message on bus 0, and one without. *)
Definition sample_fingerprint_pedal : Fingerprint := {[ 0%Z := {[ 0x201%Z := 6%Z ]} ]}.
Definition sample_fingerprint_stock : Fingerprint := {[ 0%Z := {[ 0x1E1%Z := 7%Z ]} ]}.

(** ** Magnitude classes of binary64 values *)

(** A zero, or a finite number below [2 ^ k] in magnitude. *)
Definition SF_bounded (k : Z) (x : spec_float) : Prop :=
  match x with
  | S754_zero _ => True
  | S754_finite _ m e => (Zdigits2 (Zpos m) + e <= k /\ e <= 971)%Z
  | _ => False
  end.

(** Plus infinity, or a positive finite number that is at least one. *)
Definition SF_ge_one (x : spec_float) : Prop :=
  match x with
  | S754_infinity false => True
  | S754_finite false m e => (1 <= Zdigits2 (Zpos m) + e)%Z
  | _ => False
  end.

(** * Facts about the binary64 operations

    The primitive float operations are specified through [Prim2SF] by the
    operations of [SpecFloat]; the lemmas below are the rounding facts the
    interface needs. *)

Section SpecFloatFacts.
Local Open Scope Z_scope.

Lemma Zdigits2_log2 (p : positive) : Zdigits2 (Zpos p) = Z.log2 (Zpos p) + 1.
Proof.
  unfold Zdigits2.
  induction p as [p IH|p IH|]; simpl; try reflexivity.
  - rewrite Pos2Z.inj_succ. destruct p; simpl in *; lia.
  - rewrite Pos2Z.inj_succ. destruct p; simpl in *; lia.
Qed.

Lemma shr_1_m (r : shr_record) :
  0 <= shr_m r -> shr_m (shr_1 r) = Z.shiftr (shr_m r) 1.
Proof.
  destruct r as [m b s]; simpl. intros Hm.
  rewrite <- Z.div2_spec.
  destruct m as [|[p|p|]|p]; simpl; try reflexivity; lia.
Qed.

Lemma iter_pos_shr_1_m (n : positive) : forall r,
  0 <= shr_m r -> shr_m (SpecFloat.iter_pos shr_1 n r) = Z.shiftr (shr_m r) (Zpos n).
Proof.
  induction n as [n IH|n IH|]; intros r Hr; simpl SpecFloat.iter_pos.
  - assert (H1 : 0 <= shr_m (shr_1 r)) by (rewrite shr_1_m by assumption; apply Z.shiftr_nonneg; assumption).
    assert (H2 : 0 <= shr_m (SpecFloat.iter_pos shr_1 n (shr_1 r))) by (rewrite IH by assumption; apply Z.shiftr_nonneg; assumption).
    rewrite IH, IH, shr_1_m by assumption.
    rewrite !Z.shiftr_shiftr by lia. f_equal. lia.
  - assert (H2 : 0 <= shr_m (SpecFloat.iter_pos shr_1 n r)) by (rewrite IH by assumption; apply Z.shiftr_nonneg; assumption).
    rewrite IH, IH by assumption.
    rewrite !Z.shiftr_shiftr by lia. f_equal. lia.
  - apply shr_1_m; assumption.
Qed.

Lemma Zdigits2_pos (x : Z) : 0 < x -> Zdigits2 x = Z.log2 x + 1.
Proof. destruct x as [|p|p]; try lia. intros _. apply Zdigits2_log2. Qed.

Lemma shr_record_of_loc_m (m : Z) (l : location) : shr_m (shr_record_of_loc m l) = m.
Proof. destruct l as [|[]]; reflexivity. Qed.

Lemma fexp_normal (k : Z) : -1021 <= k -> fexp prec emax k = k - 53.
Proof. unfold fexp, emin, prec, emax. lia. Qed.

(** Shifting to the format's exponent keeps a large enough mantissa positive. *)
Lemma shr_fexp_pos (m e : Z) (l : location) :
  0 < m -> -1021 <= Zdigits2 m + e ->
  exists r e', shr_fexp prec emax m e l = (r, e') /\ 0 < shr_m r /\
               Zdigits2 (shr_m r) + e' = Zdigits2 m + e /\ Zdigits2 (shr_m r) <= 53 /\
               (Zdigits2 m <= 53 -> e' = e).
Proof.
  intros Hm Hk. unfold shr_fexp. rewrite fexp_normal by assumption.
  replace (Zdigits2 m + e - 53 - e) with (Zdigits2 m - 53) by lia.
  unfold shr. destruct (Zdigits2 m - 53) as [|q|q] eqn:E.
  - eexists _, _. split; [reflexivity|]. rewrite shr_record_of_loc_m. repeat split; lia.
  - eexists _, _. split; [reflexivity|].
    rewrite iter_pos_shr_1_m by (rewrite shr_record_of_loc_m; lia).
    rewrite shr_record_of_loc_m.
    rewrite Zdigits2_pos in E by assumption.
    assert (HL : Z.log2 (Z.shiftr m (Zpos q)) = 52).
    { rewrite Z.log2_shiftr by assumption. lia. }
    assert (Hpos : 0 < Z.shiftr m (Zpos q)).
    { destruct (Z.ltb_spec 0 (Z.shiftr m (Zpos q))) as [H|H]; [assumption|].
      rewrite Z.log2_nonpos in HL by assumption. discriminate. }
    rewrite (Zdigits2_pos _ Hpos), HL, (Zdigits2_pos _ Hm). repeat split; lia.
  - eexists _, _. split; [reflexivity|]. rewrite shr_record_of_loc_m. repeat split; lia.
Qed.

Lemma round_nearest_even_bounds (m : Z) (l : location) :
  m <= round_nearest_even m l <= m + 1.
Proof. destruct l as [|[]]; simpl; try destruct (Z.even m); lia. Qed.

(** Rounding a positive mantissa above the underflow range never gives a zero
    or a NaN: the result is a finite number or an infinity of the given sign. *)
Lemma binary_round_aux_pos (s : bool) (m e : Z) (l : location) :
  0 < m -> -1021 <= Zdigits2 m + e ->
  (exists m' e', binary_round_aux prec emax s m e l = S754_finite s m' e') \/
  binary_round_aux prec emax s m e l = S754_infinity s.
Proof.
  intros Hm Hk. unfold binary_round_aux.
  destruct (shr_fexp_pos m e l Hm Hk) as (r & e' & -> & Hr & Hd & _).
  pose proof (round_nearest_even_bounds (shr_m r) (loc_of_shr_record r)) as Hb.
  set (m2 := round_nearest_even (shr_m r) (loc_of_shr_record r)) in *.
  assert (Hm2 : 0 < m2) by lia.
  assert (Hd2 : Zdigits2 (shr_m r) <= Zdigits2 m2).
  { rewrite !Zdigits2_pos by assumption. pose proof (Z.log2_le_mono (shr_m r) m2). lia. }
  destruct (shr_fexp_pos m2 e' loc_Exact Hm2) as (r2 & e2 & -> & Hr2 & _); [lia|].
  destruct (shr_m r2) as [|p|p]; try lia.
  destruct (e2 <=? emax - prec); [left; eauto | right; reflexivity].
Qed.

Lemma Pos_iter_xO (m d : positive) : Zpos (Pos.iter xO m d) = Zpos m * 2 ^ Zpos d.
Proof.
  rewrite (Pos.iter_swap_gen _ _ Zpos xO (Z.mul 2)) by reflexivity.
  change (Pos.iter (Z.mul 2) (Zpos m) d) with (Z.shiftl (Zpos m) (Zpos d)).
  apply Z.shiftl_mul_pow2. lia.
Qed.

Lemma shl_align_spec (m : positive) (e e2 : Z) :
  snd (shl_align m e e2) = Z.min e e2 /\
  Zpos (fst (shl_align m e e2)) = Zpos m * 2 ^ (e - Z.min e e2).
Proof.
  unfold shl_align. destruct (e2 - e) as [|d|d] eqn:E; simpl.
  - replace (Z.min e e2) with e by lia. rewrite Z.sub_diag. lia.
  - replace (Z.min e e2) with e by lia. rewrite Z.sub_diag. lia.
  - replace (Z.min e e2) with e2 by lia. split; [reflexivity|].
    rewrite Pos_iter_xO. f_equal. f_equal. lia.
Qed.

Lemma binary_round_aux_opp (s : bool) (m e : Z) (l : location) :
  binary_round_aux prec emax (negb s) m e l = SFopp (binary_round_aux prec emax s m e l).
Proof.
  unfold binary_round_aux.
  destruct (shr_fexp prec emax m e l) as [r e'].
  destruct (shr_fexp prec emax _ e' loc_Exact) as [r2 e2].
  destruct (shr_m r2); try reflexivity.
  destruct (e2 <=? emax - prec); reflexivity.
Qed.

Lemma SFopp_involutive (x : spec_float) : SFopp (SFopp x) = x.
Proof. destruct x as [s|s| |s m e]; simpl; rewrite ?negb_involutive; reflexivity. Qed.

Lemma SFabs_opp (x : spec_float) : SFabs (SFopp x) = SFabs x.
Proof. destruct x; reflexivity. Qed.

Lemma SFmul_opp_l (x y : spec_float) :
  SFmul prec emax (SFopp x) y = SFopp (SFmul prec emax x y).
Proof.
  destruct x as [sx|sx| |sx mx ex], y as [sy|sy| |sy my ey]; simpl;
    rewrite <- ?negb_xorb_l; try reflexivity.
  apply binary_round_aux_opp.
Qed.

Lemma SFmul_comm (x y : spec_float) : SFmul prec emax x y = SFmul prec emax y x.
Proof.
  destruct x as [sx|sx| |sx mx ex], y as [sy|sy| |sy my ey]; simpl;
    rewrite ?(xorb_comm sx sy); try reflexivity.
  rewrite (Pos.mul_comm mx my), (Z.add_comm ex ey). reflexivity.
Qed.

Lemma SFdiv_opp_l (x y : spec_float) :
  SFdiv prec emax (SFopp x) y = SFopp (SFdiv prec emax x y).
Proof.
  destruct x as [sx|sx| |sx mx ex], y as [sy|sy| |sy my ey]; simpl;
    rewrite <- ?negb_xorb_l; try reflexivity.
  destruct (SFdiv_core_binary prec emax (Zpos mx) ex (Zpos my) ey) as [[mz ez] lz].
  apply binary_round_aux_opp.
Qed.

Lemma SFcompare_refl (x : spec_float) : x <> S754_nan -> SFcompare x x = Some Eq.
Proof.
  destruct x as [s|s| |s m e]; simpl; intros H; try congruence.
  - destruct s; reflexivity.
  - rewrite Z.compare_refl.
    assert (Pos.compare_cont Eq m m = Eq) as -> by apply Pos.compare_cont_refl.
    destruct s; reflexivity.
Qed.

Lemma iter_pos_shr_1_exact_52 (m : positive) :
  SpecFloat.iter_pos shr_1 52 (Build_shr_record (Zpos (4503599627370496 * m)) false false)
  = Build_shr_record (Zpos m) false false.
Proof. reflexivity. Qed.

(** Multiplying by plus or minus one is exact. *)
Lemma SFmul_one_exact (s1 s2 : bool) (m : positive) (e : Z) :
  bounded prec emax m e = true ->
  SFmul prec emax (S754_finite s1 4503599627370496 (-52)) (S754_finite s2 m e)
  = S754_finite (xorb s1 s2) m e.
Proof.
  unfold bounded, canonical_mantissa. intros H.
  apply andb_prop in H as [Hc Hb]. apply Z.eqb_eq in Hc. apply Z.leb_le in Hb.
  unfold SFmul, binary_round_aux.
  assert (Hd : Zdigits2 (Zpos (4503599627370496 * m)) = Zpos (digits2_pos m) + 52).
  { rewrite Zdigits2_log2, Pos2Z.inj_mul, Z.mul_comm.
    change (Zpos 4503599627370496) with (2 ^ 52).
    rewrite Z.log2_mul_pow2 by lia.
    pose proof (Zdigits2_log2 m) as Hm. unfold Zdigits2 in Hm. lia. }
  unfold shr_fexp at 1. rewrite Hd.
  replace (Zpos (digits2_pos m) + 52 + (-52 + e)) with (Zpos (digits2_pos m) + e) by lia.
  rewrite Hc. replace (e - (-52 + e)) with 52 by lia.
  unfold shr, shr_record_of_loc. rewrite iter_pos_shr_1_exact_52.
  replace (-52 + e + 52) with e by lia.
  cbn [loc_of_shr_record shr_m shr_r shr_s round_nearest_even].
  unfold shr_fexp, Zdigits2. rewrite Hc, Z.sub_diag. cbn [shr shr_record_of_loc shr_m].
  apply Z.leb_le in Hb. rewrite Hb. reflexivity.
Qed.

Lemma SFmul_neg_one (x : spec_float) :
  valid_binary x = true ->
  SFmul prec emax (S754_finite true 4503599627370496 (-52)) x = SFopp x.
Proof.
  destruct x as [s|s| |s m e]; try reflexivity.
  intros H. apply (SFmul_one_exact true s m e H).
Qed.

(** A number that is at least zero is not below one that is at most zero. *)
Lemma SFltb_nonneg_nonpos (v r : spec_float) :
  SFleb (S754_zero false) v = true -> SFleb r (S754_zero false) = true -> SFltb v r = false.
Proof.
  destruct v as [sv|sv| |sv mv ev], r as [sr|sr| |sr mr er];
    try destruct sv; try destruct sr; cbn; intros; congruence.
Qed.

Lemma SFltb_opp_zero (x : spec_float) :
  SFltb (S754_zero false) x = true -> SFltb (SFopp x) (S754_zero false) = true.
Proof. destruct x as [s|s| |s m e]; try destruct s; cbn; intros; congruence. Qed.

Lemma SFltb_SFleb (x y : spec_float) : SFltb x y = true -> SFleb x y = true.
Proof. unfold SFltb, SFleb. destruct (SFcompare x y) as [[]|]; congruence. Qed.

End SpecFloatFacts.

(** ** Magnitude bounds through rounding *)

Section RoundingBounds.
Local Open Scope Z_scope.

Lemma Zdigits2_nonneg (x : Z) : 0 <= Zdigits2 x.
Proof. destruct x; simpl; lia. Qed.

Lemma Zdigits2_lt_pow2 (x : Z) : 0 <= x -> x < 2 ^ Zdigits2 x.
Proof.
  intros H. destruct (Z.eq_dec x 0) as [->|Hx]; [reflexivity|].
  rewrite Zdigits2_pos by lia. apply Z.log2_spec. lia.
Qed.

Lemma Zdigits2_ge_pow2 (x : Z) : 0 < x -> 2 ^ (Zdigits2 x - 1) <= x.
Proof.
  intros H. rewrite Zdigits2_pos by lia.
  replace (Z.log2 x + 1 - 1) with (Z.log2 x) by lia. apply Z.log2_spec. lia.
Qed.

Lemma Zdigits2_le_of_lt_pow2 (x k : Z) : 0 <= x -> 0 <= k -> x < 2 ^ k -> Zdigits2 x <= k.
Proof.
  intros Hx Hk H. destruct (Z.eq_dec x 0) as [->|Hx0]; [simpl; lia|].
  rewrite Zdigits2_pos by lia.
  assert (Z.log2 x < k) by (apply Z.log2_lt_pow2; lia). lia.
Qed.

Lemma Zdigits2_le_mono (x y : Z) : 0 <= x -> x <= y -> Zdigits2 x <= Zdigits2 y.
Proof.
  intros Hx Hxy. apply Zdigits2_le_of_lt_pow2; [lia | apply Zdigits2_nonneg |].
  pose proof (Zdigits2_lt_pow2 y). lia.
Qed.

Lemma Zdigits2_shiftr (x n : Z) :
  0 <= x -> 0 <= n -> Zdigits2 (Z.shiftr x n) = Z.max 0 (Zdigits2 x - n).
Proof.
  intros Hx Hn. destruct (Z.eq_dec x 0) as [->|Hx0].
  { rewrite Z.shiftr_0_l. change (Zdigits2 0) with 0. lia. }
  destruct (Z.eq_dec (Z.shiftr x n) 0) as [E|E].
  - rewrite E. apply Z.shiftr_eq_0_iff in E as [E|[_ E]]; [lia|].
    rewrite (Zdigits2_pos x) by lia. change (Zdigits2 0) with 0. lia.
  - assert (Hp : 0 < Z.shiftr x n) by (pose proof (Z.shiftr_nonneg x n); lia).
    rewrite (Zdigits2_pos _ Hp), Z.log2_shiftr, Zdigits2_pos by lia.
    assert (~ (Z.log2 x < n)).
    { intros Hlt. apply E. apply Z.shiftr_eq_0_iff. right. lia. }
    lia.
Qed.

Lemma Zdigits2_mul (x y : Z) :
  0 <= x -> 0 <= y -> Zdigits2 (x * y) <= Zdigits2 x + Zdigits2 y.
Proof.
  intros Hx Hy. pose proof (Zdigits2_nonneg x). pose proof (Zdigits2_nonneg y).
  apply Zdigits2_le_of_lt_pow2; [lia | lia |].
  rewrite Z.pow_add_r by assumption.
  pose proof (Zdigits2_lt_pow2 x Hx). pose proof (Zdigits2_lt_pow2 y Hy).
  nia.
Qed.

(** The general effect of [shr_fexp] on a non-negative mantissa. *)
Lemma shr_fexp_spec (m e : Z) (l : location) :
  0 <= m ->
  exists r e', shr_fexp prec emax m e l = (r, e') /\
               e' = Z.max e (fexp prec emax (Zdigits2 m + e)) /\
               shr_m r = Z.shiftr m (e' - e).
Proof.
  intros Hm. unfold shr_fexp, shr.
  destruct (fexp prec emax (Zdigits2 m + e) - e) as [|n|n] eqn:E.
  - eexists _, _. split; [reflexivity|]. rewrite shr_record_of_loc_m.
    replace (Z.max e (fexp prec emax (Zdigits2 m + e))) with e by lia.
    rewrite Z.sub_diag, Z.shiftr_0_r. split; reflexivity.
  - eexists _, _. split; [reflexivity|].
    rewrite iter_pos_shr_1_m by (rewrite shr_record_of_loc_m; lia).
    rewrite shr_record_of_loc_m.
    replace (Z.max e (fexp prec emax (Zdigits2 m + e))) with (e + Zpos n) by lia.
    split; [reflexivity|]. f_equal. lia.
  - eexists _, _. split; [reflexivity|]. rewrite shr_record_of_loc_m.
    replace (Z.max e (fexp prec emax (Zdigits2 m + e))) with e by lia.
    rewrite Z.sub_diag, Z.shiftr_0_r. split; reflexivity.
Qed.

Lemma fexp_eq (k : Z) : fexp prec emax k = Z.max (k - 53) (-1074).
Proof. reflexivity. Qed.


(** The three outcomes of rounding a non-negative mantissa: a zero, a finite
    number whose magnitude is bracketed by that of the input, or an overflow,
    which needs a large exponent or a large magnitude. *)
Lemma binary_round_aux_cases (s : bool) (m e : Z) (l : location) :
  0 <= m ->
  binary_round_aux prec emax s m e l = S754_zero s \/
  (exists m' e', binary_round_aux prec emax s m e l = S754_finite s m' e' /\
                 e' <= 971 /\
                 Zdigits2 m + e <= Zdigits2 (Zpos m') + e' /\
                 Zdigits2 (Zpos m') + e' <= Z.max (Zdigits2 m + e) (-1074) + 1) \/
  (binary_round_aux prec emax s m e l = S754_infinity s /\
   (970 < e \/ 1023 < Zdigits2 m + e)).
Proof.
  intros Hm. unfold binary_round_aux.
  destruct (shr_fexp_spec m e l Hm) as (r1 & e1 & -> & He1 & Hr1).
  rewrite fexp_eq in He1.
  pose proof (Zdigits2_nonneg m) as Hd.
  assert (Hm1 : 0 <= shr_m r1) by (rewrite Hr1; apply Z.shiftr_nonneg; assumption).
  assert (Hd1 : Zdigits2 (shr_m r1) = Z.max 0 (Zdigits2 m - (e1 - e))).
  { rewrite Hr1. apply Zdigits2_shiftr; lia. }
  pose proof (round_nearest_even_bounds (shr_m r1) (loc_of_shr_record r1)) as Hb.
  set (m2 := round_nearest_even (shr_m r1) (loc_of_shr_record r1)) in *.
  assert (Hd2 : Zdigits2 (shr_m r1) <= Zdigits2 m2 <= Zdigits2 (shr_m r1) + 1).
  { split; [apply Zdigits2_le_mono; lia|].
    pose proof (Zdigits2_nonneg (shr_m r1)).
    apply Zdigits2_le_of_lt_pow2; [lia | lia |].
    pose proof (Zdigits2_lt_pow2 (shr_m r1) Hm1).
    rewrite Z.pow_add_r, Z.pow_1_r by lia. lia. }
  destruct (shr_fexp_spec m2 e1 loc_Exact) as (r3 & e3 & -> & He3 & Hr3); [lia|].
  rewrite fexp_eq in He3.
  assert (Hm3 : 0 <= shr_m r3) by (rewrite Hr3; apply Z.shiftr_nonneg; lia).
  assert (Hd3 : Zdigits2 (shr_m r3) = Z.max 0 (Zdigits2 m2 - (e3 - e1))).
  { rewrite Hr3. apply Zdigits2_shiftr; lia. }
  destruct (shr_m r3) as [|p|p] eqn:E3; [left; reflexivity | | lia].
  right. change (emax - prec) with 971.
  destruct (Z.leb_spec e3 971) as [Hle|Hgt].
  - left. exists p, e3. split; [reflexivity|].
    assert (0 < Zdigits2 (Zpos p)) by (rewrite Zdigits2_log2; pose proof (Z.log2_nonneg (Zpos p)); lia).
    lia.
  - right. split; [reflexivity|]. lia.
Qed.

(** In the normal range the rounded result is not a zero. *)
Lemma binary_round_aux_normal (s : bool) (m e : Z) (l : location) :
  0 < m -> -1021 <= Zdigits2 m + e ->
  (exists m' e', binary_round_aux prec emax s m e l = S754_finite s m' e' /\
                 e' <= 971 /\
                 Zdigits2 m + e <= Zdigits2 (Zpos m') + e' <= Zdigits2 m + e + 1) \/
  (binary_round_aux prec emax s m e l = S754_infinity s /\
   (970 < e \/ 1023 < Zdigits2 m + e)).
Proof.
  intros Hm Hk.
  destruct (binary_round_aux_pos s m e l Hm Hk) as [(m' & e' & H)| H];
    destruct (binary_round_aux_cases s m e l) as [C|[(m2 & e2 & C & B)|[C B]]];
    try lia; rewrite H in C; try discriminate.
  - left. injection C as <- <-. exists m', e'. split; [assumption|]. lia.
  - right. split; assumption.
Qed.


Lemma SF_bounded_weaken (k k' : Z) (x : spec_float) :
  k <= k' -> SF_bounded k x -> SF_bounded k' x.
Proof. destruct x; simpl; intros; try assumption; lia. Qed.

Lemma SF_bounded_valid (x : spec_float) :
  valid_binary x = true -> x <> S754_nan -> (forall s, x <> S754_infinity s) ->
  SF_bounded 1024 x.
Proof.
  destruct x as [s|s| |s m e]; simpl; intros Hv Hn Hi; try exact I.
  - exfalso. apply (Hi s). reflexivity.
  - congruence.
  - unfold bounded, canonical_mantissa in Hv.
    apply andb_prop in Hv as [Hc Hb]. apply Z.eqb_eq in Hc. apply Z.leb_le in Hb.
    rewrite fexp_eq in Hc. change (emax - prec) with 971 in Hb.
    unfold Zdigits2. lia.
Qed.

(** Multiplying a bounded number by a small constant neither overflows nor
    gives a NaN. *)
Lemma SFmul_bounded (k : Z) (x : spec_float) (sy : bool) (my : positive) (ey : Z) :
  SF_bounded k x -> ey <= -1 -> k + (Zdigits2 (Zpos my) + ey) <= 1023 ->
  SF_bounded (Z.max (k + (Zdigits2 (Zpos my) + ey)) (-1074) + 1)
             (SFmul prec emax x (S754_finite sy my ey)).
Proof.
  destruct x as [s|s| |s m e]; cbn [SF_bounded SFmul]; intros Hx Hey Hk;
    try exact I; try contradiction.
  pose proof (Zdigits2_mul (Zpos m) (Zpos my)) as Hd.
  change (Zpos (m * my)) with (Zpos m * Zpos my).
  destruct (binary_round_aux_cases (xorb s sy) (Zpos m * Zpos my) (e + ey) loc_Exact)
    as [->|[(m' & e' & -> & B)| [_ B]]]; cbn [SF_bounded]; try exact I; lia.
Qed.


(** The quotient computed by the division core, and its exponent. *)
Lemma SFdiv_core_binary_bounds (mx my : positive) (ex ey : Z) :
  exists q e' l,
    SFdiv_core_binary prec emax (Zpos mx) ex (Zpos my) ey = (q, e', l) /\
    0 <= q /\
    e' <= Z.max (Zdigits2 (Zpos mx) + ex - (Zdigits2 (Zpos my) + ey) - 53) (-1074) /\
    Zdigits2 q + e' <= Z.max (Zdigits2 (Zpos mx) + ex - (Zdigits2 (Zpos my) + ey) + 1) (-1074).
Proof.
  unfold SFdiv_core_binary. rewrite fexp_eq.
  set (d1 := Zdigits2 (Zpos mx)). set (d2 := Zdigits2 (Zpos my)).
  change IntDef.Z.min with Z.min.
  set (e' := Z.min (Z.max (d1 + ex - (d2 + ey) - 53) (-1074)) (ex - ey)).
  set (s := ex - ey - e').
  assert (Hs : 0 <= s) by (unfold s, e'; lia).
  set (m' := match s with Z.pos _ => Z.shiftl (Zpos mx) s | 0 => Zpos mx | Z.neg _ => 0 end).
  assert (Hm' : m' = Zpos mx * 2 ^ s).
  { unfold m'. destruct s as [|p|p] eqn:Es; [lia | | lia].
    apply Z.shiftl_mul_pow2. lia. }
  destruct (Z.div_eucl m' (Zpos my)) as [q r] eqn:E.
  assert (Hq : q = m' / Zpos my) by (unfold Z.div; rewrite E; reflexivity).
  exists q, e', (new_location (Zpos my) r). split; [reflexivity|].
  assert (H2s : 0 < 2 ^ s) by (apply Z.pow_pos_nonneg; lia).
  assert (Hq0 : 0 <= q) by (rewrite Hq; apply Z.div_pos; nia).
  split; [assumption|]. split; [unfold e'; lia|].
  destruct (Z.eq_dec q 0) as [->|Hqn]; [change (Zdigits2 0) with 0; unfold e'; lia|].
  assert (Hle : q * Zpos my <= m').
  { rewrite Hq, Z.mul_comm. apply Z.mul_div_le. lia. }
  pose proof (Zdigits2_ge_pow2 (Zpos my) eq_refl) as Hmy. fold d2 in Hmy.
  pose proof (Zdigits2_lt_pow2 (Zpos mx)) as Hmx. fold d1 in Hmx.
  assert (Hd2 : 1 <= d2) by (unfold d2; rewrite Zdigits2_log2; pose proof (Z.log2_nonneg (Zpos my)); lia).
  assert (Hd1 : 0 <= d1) by apply Zdigits2_nonneg.
  assert (Hlt : q * 2 ^ (d2 - 1) < 2 ^ (d1 + s)).
  { rewrite Z.pow_add_r by lia. nia. }
  assert (Hk : 0 <= d1 + s - d2 + 1).
  { destruct (Z.le_gt_cases 0 (d1 + s - d2 + 1)) as [H|H]; [assumption|exfalso].
    assert (2 ^ (d1 + s) <= 2 ^ (d2 - 1)) by (apply Z.pow_le_mono_r; lia). nia. }
  assert (Hqk : Zdigits2 q <= d1 + s - d2 + 1).
  { apply Zdigits2_le_of_lt_pow2; [lia | assumption |].
    replace (d1 + s) with ((d1 + s - d2 + 1) + (d2 - 1)) in Hlt by lia.
    rewrite Z.pow_add_r in Hlt by lia.
    assert (0 < 2 ^ (d2 - 1)) by (apply Z.pow_pos_nonneg; lia). nia. }
  unfold s in Hqk. lia.
Qed.

(** Dividing a bounded number by one that is at least one neither overflows
    nor gives a NaN. *)
Lemma SFdiv_bounded (k : Z) (x y : spec_float) :
  SF_bounded k x -> SF_ge_one y -> k <= 1022 ->
  SF_bounded (Z.max k (-1074) + 1) (SFdiv prec emax x y).
Proof.
  destruct x as [sx|sx| |sx mx ex], y as [sy|[]| |[] my ey];
    cbn [SF_bounded SF_ge_one SFdiv]; intros Hx Hy Hk; try exact I; try contradiction.
  destruct (SFdiv_core_binary_bounds mx my ex ey) as (q & e' & l & -> & Hq & He & Hd).
  destruct (binary_round_aux_cases (xorb sx false) q e' l Hq)
    as [->|[(m' & e2 & -> & B)| [_ B]]]; cbn [SF_bounded]; try exact I; lia.
Qed.


Lemma shl_align_magnitude (m : positive) (e e2 : Z) :
  Zdigits2 (Zpos (fst (shl_align m e e2))) + snd (shl_align m e e2) = Zdigits2 (Zpos m) + e /\
  snd (shl_align m e e2) <= e.
Proof.
  destruct (shl_align_spec m e e2) as [He Hm].
  rewrite !Zdigits2_log2, Hm, Z.log2_mul_pow2, He by lia. lia.
Qed.

Lemma binary_round_normal (s : bool) (m : positive) (e : Z) :
  -1021 <= Zdigits2 (Zpos m) + e ->
  (exists m' e', binary_round prec emax s m e = S754_finite s m' e' /\
                 Zdigits2 (Zpos m) + e <= Zdigits2 (Zpos m') + e') \/
  binary_round prec emax s m e = S754_infinity s.
Proof.
  intros Hk. unfold binary_round.
  pose proof (shl_align_magnitude m e (fexp prec emax (Zpos (digits2_pos m) + e))) as [Hm _].
  destruct (shl_align m e (fexp prec emax (Zpos (digits2_pos m) + e))) as [mz ez].
  cbn [fst snd] in Hm.
  destruct (binary_round_aux_normal s (Zpos mz) ez loc_Exact) as [(m' & e' & -> & B)|[-> _]];
    [lia | lia | left | right; reflexivity].
  exists m', e'. split; [reflexivity | lia].
Qed.

(** Adding a positive number to one that is at least one gives at least one. *)
Lemma SFadd_ge_one (mx : positive) (ex : Z) (my : positive) (ey : Z) :
  1 <= Zdigits2 (Zpos mx) + ex ->
  SF_ge_one (SFadd prec emax (S754_finite false mx ex) (S754_finite false my ey)).
Proof.
  intros Hk. unfold SFadd, cond_Zopp. change IntDef.Z.min with Z.min.
  pose proof (shl_align_spec mx ex (Z.min ex ey)) as [_ Hx].
  set (a := fst (shl_align mx ex (Z.min ex ey))) in *.
  set (b := fst (shl_align my ey (Z.min ex ey))).
  change (Zpos a + Zpos b) with (Zpos (a + b)).
  unfold binary_normalize.
  assert (Hab : Zdigits2 (Zpos mx) + ex <= Zdigits2 (Zpos (a + b)) + Z.min ex ey).
  { rewrite !Zdigits2_log2.
    assert (Z.log2 (Zpos a) <= Z.log2 (Zpos (a + b))) by (apply Z.log2_le_mono; lia).
    rewrite Hx, Z.log2_mul_pow2 in H by lia.
    clear Hx Hk. revert H. generalize (Z.log2 (Z.pos (a + b))) (Z.log2 (Z.pos mx)).
    clear. lia. }
  destruct (binary_round_normal false (a + b) (Z.min ex ey)) as [(m' & e' & -> & B)| ->];
    [lia | cbn [SF_ge_one]; lia | exact I].
Qed.

Lemma one_plus_abs_ge_one (k : Z) (y : spec_float) :
  SF_bounded k y ->
  SF_ge_one (SFadd prec emax (S754_finite false 4503599627370496 (-52)) (SFabs y)).
Proof.
  destruct y as [s|s| |s m e]; cbn [SF_bounded SFabs]; intros H; try contradiction.
  - vm_compute. discriminate.
  - apply SFadd_ge_one. vm_compute. discriminate.
Qed.


Lemma shr_1_r (r : shr_record) :
  0 <= shr_m r -> shr_r (shr_1 r) = Z.testbit (shr_m r) 0.
Proof.
  destruct r as [[|[p|p|]|p] b s]; cbn [shr_m]; intros H; try reflexivity; lia.
Qed.

(** The round bit after [n] shifts is bit [n - 1] of the mantissa. *)
Lemma iter_pos_shr_1_r (n : positive) : forall r,
  0 <= shr_m r ->
  shr_r (SpecFloat.iter_pos shr_1 n r) = Z.testbit (shr_m r) (Zpos n - 1).
Proof.
  induction n as [n IH|n IH|]; intros r Hr; simpl SpecFloat.iter_pos.
  - assert (H1 : 0 <= shr_m (shr_1 r)) by (rewrite shr_1_m by assumption; apply Z.shiftr_nonneg; assumption).
    assert (H2 : 0 <= shr_m (SpecFloat.iter_pos shr_1 n (shr_1 r)))
      by (rewrite iter_pos_shr_1_m by assumption; apply Z.shiftr_nonneg; assumption).
    rewrite IH, iter_pos_shr_1_m, shr_1_m by assumption.
    rewrite !Z.shiftr_spec by lia. f_equal. lia.
  - assert (H2 : 0 <= shr_m (SpecFloat.iter_pos shr_1 n r))
      by (rewrite iter_pos_shr_1_m by assumption; apply Z.shiftr_nonneg; assumption).
    rewrite IH, iter_pos_shr_1_m by assumption.
    rewrite Z.shiftr_spec by lia. f_equal. lia.
  - apply shr_1_r. assumption.
Qed.

Lemma round_nearest_even_le (r : shr_record) :
  round_nearest_even (shr_m r) (loc_of_shr_record r) <= shr_m r + Z.b2z (shr_r r).
Proof.
  destruct r as [m [] []]; cbn [shr_m shr_r loc_of_shr_record round_nearest_even Z.b2z];
    try destruct (Z.even m); lia.
Qed.

(** Rounding in the top binade: no overflow when the shifted mantissa plus
    the round bit stays below [2 ^ 53]. *)
Lemma binary_round_aux_top (s : bool) (p e : Z) :
  0 < p -> Zdigits2 p + e = 1024 -> e < 971 ->
  Z.shiftr p (971 - e) + Z.b2z (Z.testbit p (971 - e - 1)) < 2 ^ 53 ->
  exists m', binary_round_aux prec emax s p e loc_Exact = S754_finite s m' 971 /\
             Zdigits2 (Zpos m') = 53.
Proof.
  intros Hp Hd He Hlt. unfold binary_round_aux.
  unfold shr_fexp at 1. rewrite fexp_eq, Hd.
  replace (Z.max (1024 - 53) (-1074) - e) with (971 - e) by lia.
  unfold shr. destruct (971 - e) as [|n|n] eqn:En; try lia.
  cbn [shr_record_of_loc].
  set (r1 := SpecFloat.iter_pos shr_1 n {| shr_m := p; shr_r := false; shr_s := false |}).
  assert (Hm1 : shr_m r1 = Z.shiftr p (Zpos n)) by (apply iter_pos_shr_1_m; cbn; lia).
  assert (Hr1 : shr_r r1 = Z.testbit p (Zpos n - 1)) by (apply iter_pos_shr_1_r; cbn; lia).
  pose proof (round_nearest_even_le r1) as Hle.
  pose proof (round_nearest_even_bounds (shr_m r1) (loc_of_shr_record r1)) as Hb.
  set (m2 := round_nearest_even (shr_m r1) (loc_of_shr_record r1)) in *.
  rewrite Hm1, Hr1 in Hle. rewrite Hm1 in Hb.
  assert (Hd1 : Zdigits2 (Z.shiftr p (Zpos n)) = 53).
  { rewrite Zdigits2_shiftr by lia. lia. }
  assert (Hm1pos : 0 < Z.shiftr p (Zpos n)).
  { pose proof (Z.shiftr_nonneg p (Zpos n)).
    destruct (Z.eq_dec (Z.shiftr p (Zpos n)) 0) as [E|E]; [rewrite E in Hd1; discriminate | lia]. }
  assert (Hd2 : Zdigits2 m2 = 53).
  { apply Z.le_antisymm.
    - apply Zdigits2_le_of_lt_pow2; lia.
    - rewrite <- Hd1. apply Zdigits2_le_mono; lia. }
  replace (e + Zpos n) with 971 by lia.
  destruct (shr_fexp_spec m2 971 loc_Exact) as (r3 & e3 & -> & He3 & Hr3); [lia|].
  rewrite fexp_eq, Hd2 in He3.
  assert (e3 = 971) by lia. subst e3.
  rewrite Z.sub_diag, Z.shiftr_0_r in Hr3. rewrite Hr3.
  destruct m2 as [|q|q]; try lia.
  exists q. split; [reflexivity | assumption].
Qed.

Lemma binary_round_bounded (s : bool) (p : positive) (e : Z) :
  e <= 970 ->
  Zdigits2 (Zpos p) + e <= 1023 \/
  (Zdigits2 (Zpos p) + e = 1024 /\
   Z.shiftr (Zpos p) (971 - e) + Z.b2z (Z.testbit (Zpos p) (971 - e - 1)) < 2 ^ 53) ->
  SF_bounded 1025 (binary_round prec emax s p e).
Proof.
  intros He H. unfold binary_round.
  destruct H as [H|[H Htop]].
  - pose proof (shl_align_magnitude p e (fexp prec emax (Zpos (digits2_pos p) + e))) as [Hm Hle].
    destruct (shl_align p e (fexp prec emax (Zpos (digits2_pos p) + e))) as [mz ez].
    cbn [fst snd] in Hm, Hle.
    destruct (binary_round_aux_cases s (Zpos mz) ez loc_Exact)
      as [->|[(m' & e' & -> & B)| [_ B]]]; cbn [SF_bounded]; try exact I; lia.
  - change (Zpos (digits2_pos p)) with (Zdigits2 (Zpos p)). rewrite H, fexp_eq.
    unfold shl_align.
    destruct (Z.max (1024 - 53) (-1074) - e) as [|d|d] eqn:E; try lia.
    destruct (binary_round_aux_top s (Zpos p) e) as (m' & -> & Hm'); try lia.
    cbn [SF_bounded]. lia.
Qed.


Lemma Zdigits2_ge_of_pow2_le (x k : Z) : 0 <= k -> 2 ^ k <= x -> k + 1 <= Zdigits2 x.
Proof.
  intros Hk H. assert (Hx : 0 < x) by (pose proof (Z.pow_pos_nonneg 2 k); lia).
  pose proof (Zdigits2_lt_pow2 x) as Hlt. pose proof (Zdigits2_nonneg x) as Hd.
  assert (2 ^ k < 2 ^ Zdigits2 x) by lia.
  apply Z.pow_lt_mono_r_iff in H0; lia.
Qed.

(** Adding a small positive constant to any finite number does not overflow. *)
Lemma SFadd_const_bounded (sv : bool) (mv : positive) (ev : Z) (mc : positive) (ec : Z) :
  bounded prec emax mv ev = true ->
  Zdigits2 (Zpos mc) <= 53 -> ec <= 917 -> Zdigits2 (Zpos mc) + ec <= 970 ->
  SF_bounded 1025 (SFadd prec emax (S754_finite sv mv ev) (S754_finite false mc ec)).
Proof.
  intros Hv Hdc Hec Hmc.
  unfold bounded, canonical_mantissa in Hv.
  apply andb_prop in Hv as [Hc Hb]. apply Z.eqb_eq in Hc. apply Z.leb_le in Hb.
  rewrite fexp_eq in Hc. change (emax - prec) with 971 in Hb.
  change (Zpos (digits2_pos mv)) with (Zdigits2 (Zpos mv)) in Hc.
  pose proof (Zdigits2_lt_pow2 (Zpos mv)) as Hmv_hi.
  pose proof (Zdigits2_ge_pow2 (Zpos mv)) as Hmv_lo.
  pose proof (Zdigits2_lt_pow2 (Zpos mc)) as Hmc_hi.
  pose proof (Zdigits2_nonneg (Zpos mc)) as Hdc0.
  assert (Hdv1 : 1 <= Zdigits2 (Zpos mv))
    by (rewrite Zdigits2_log2; pose proof (Z.log2_nonneg (Zpos mv)); lia).
  set (dv := Zdigits2 (Zpos mv)) in *. set (dc := Zdigits2 (Zpos mc)) in *.
  assert (Hdv : dv <= 53) by lia.
  assert (Hmv53 : Zpos mv <= 2 ^ 53 - 1).
  { assert (2 ^ dv <= 2 ^ 53) by (apply Z.pow_le_mono_r; lia). lia. }
  unfold SFadd. change IntDef.Z.min with Z.min.
  set (ez := Z.min ev ec).
  destruct (shl_align_spec mv ev ez) as [_ HA].
  destruct (shl_align_spec mc ec ez) as [_ HC].
  replace (Z.min ev ez) with ez in HA by lia.
  replace (Z.min ec ez) with ez in HC by lia.
  set (A := fst (shl_align mv ev ez)) in *.
  set (C := fst (shl_align mc ec ez)) in *.
  cbn [cond_Zopp] in *. unfold binary_normalize.
  destruct (Z.le_gt_cases ev 970) as [Hev|Hev].
  - (* below the top binade *)
    assert (Hsum : Zpos A + Zpos C < 2 ^ (1023 - ez)).
    { assert (HX : 0 < 2 ^ (970 - ez)) by (apply Z.pow_pos_nonneg; lia).
      assert (H1 : 2 ^ (ev - ez) <= 2 ^ (970 - ez)) by (apply Z.pow_le_mono_r; lia).
      assert (H2 : Zpos mc * 2 ^ (ec - ez) < 2 ^ (970 - ez)).
      { assert (2 ^ dc * 2 ^ (ec - ez) <= 2 ^ (970 - ez)).
        { rewrite <- Z.pow_add_r by lia. apply Z.pow_le_mono_r; lia. }
        assert (0 < 2 ^ (ec - ez)) by (apply Z.pow_pos_nonneg; lia). nia. }
      replace (1023 - ez) with (53 + (970 - ez)) by lia.
      rewrite Z.pow_add_r, HA, HC by lia.
      assert (0 < 2 ^ (ev - ez)) by (apply Z.pow_pos_nonneg; lia). nia. }
    destruct (cond_Zopp sv (Zpos A) + Zpos C) as [|p|p] eqn:Esum; [exact I | |];
      (apply binary_round_bounded; [lia|]; left;
       assert (Hp : Zdigits2 (Zpos p) <= 1023 - ez);
       [apply Zdigits2_le_of_lt_pow2; [lia | lia |];
        destruct sv; cbn [cond_Zopp] in Esum; lia | lia]).
  - (* the top binade *)
    assert (ev = 971) by lia. subst ev.
    assert (Hez : ez = ec) by lia.
    assert (Hdv53 : dv = 53) by lia.
    rewrite Hez in *. clear Hez.
    set (n := 971 - ec) in *.
    assert (Hn : 54 <= n) by lia.
    rewrite Z.sub_diag, Z.pow_0_r, Z.mul_1_r in HC.
    assert (Hmc53 : Zpos mc < 2 ^ 53).
    { assert (2 ^ dc <= 2 ^ 53) by (apply Z.pow_le_mono_r; lia). lia. }
    assert (H53n : 2 ^ 53 <= 2 ^ (n - 1)) by (apply Z.pow_le_mono_r; lia).
    assert (Hn1 : 2 ^ n = 2 * 2 ^ (n - 1)).
    { replace n with (1 + (n - 1)) at 1 by lia. rewrite Z.pow_add_r by lia. reflexivity. }
    assert (Hmvlo : 2 ^ 52 <= Zpos mv) by (rewrite Hdv53 in Hmv_lo; apply Hmv_lo; lia).
    assert (Hpn : 0 < 2 ^ (n - 1)) by (apply Z.pow_pos_nonneg; lia).
    destruct sv; cbn [cond_Zopp].
    + (* negative: the difference *)
      destruct (- Zpos A + Zpos C) as [|p|p] eqn:Esum; [exact I | lia |].
      assert (Hpval : Zpos p = Zpos mv * 2 ^ n - Zpos mc) by lia.
      apply binary_round_bounded; [lia|].
      assert (Hpd : Zdigits2 (Zpos p) <= 53 + n).
      { apply Zdigits2_le_of_lt_pow2; [lia | lia |].
        rewrite Z.pow_add_r by lia. nia. }
      destruct (Z.le_gt_cases (Zdigits2 (Zpos p) + ec) 1023) as [Hle|Hgt]; [left; assumption|].
      right. split; [lia|]. fold n.
      rewrite Z.shiftr_div_pow2 by lia.
      assert (Zpos p / 2 ^ n < Zpos mv).
      { apply Z.div_lt_upper_bound; [lia|]. nia. }
      destruct (Z.testbit (Zpos p) (n - 1)); cbn [Z.b2z]; lia.
    + (* positive: the sum *)
      destruct (Zpos A + Zpos C) as [|p|p] eqn:Esum; [exact I | | lia].
      assert (Hpval : Zpos p = Zpos mv * 2 ^ n + Zpos mc) by lia.
      apply binary_round_bounded; [lia|].
      right. fold n. split.
      * assert (Zdigits2 (Zpos p) <= 53 + n).
        { apply Zdigits2_le_of_lt_pow2; [lia | lia |].
          rewrite Z.pow_add_r by lia. nia. }
        assert (52 + n + 1 <= Zdigits2 (Zpos p)).
        { apply Zdigits2_ge_of_pow2_le; [lia|].
          rewrite Z.pow_add_r by lia. nia. }
        lia.
      * rewrite Z.shiftr_div_pow2 by lia.
        assert (Hdiv : Zpos p / 2 ^ n = Zpos mv).
        { rewrite Hpval, Z.div_add_l by lia. rewrite Z.div_small by lia. lia. }
        assert (Hbit : Z.testbit (Zpos p) (n - 1) = false).
        { apply Z.testbit_false; [lia|].
          replace (Zpos p) with (Zpos mv * 2 * 2 ^ (n - 1) + Zpos mc) by lia.
          rewrite Z.div_add_l by lia. rewrite (Z.div_small (Zpos mc)) by lia.
          rewrite Z.add_0_r. apply Z.mod_mul. lia. }
        rewrite Hdiv, Hbit. cbn [Z.b2z]. lia.
Qed.


Lemma SFmul_bounded_not_nan (k1 k2 : Z) (t w : spec_float) :
  SF_bounded k1 t -> SF_bounded k2 w -> SFmul prec emax t w <> S754_nan.
Proof.
  destruct t as [st|st| |st mt et], w as [sw|sw| |sw mw ew];
    cbn [SF_bounded SFmul]; intros Ht Hw; try contradiction; try discriminate.
  destruct (binary_round_aux_cases (xorb st sw) (Zpos (mt * mw)) (et + ew) loc_Exact)
    as [->|[(m' & e' & -> & B)| [-> B]]]; discriminate.
Qed.

Lemma SFadd_const_finite (v : spec_float) (mc : positive) (ec : Z) :
  valid_binary v = true -> SF_bounded 1024 v ->
  Zdigits2 (Zpos mc) <= 53 -> ec <= 917 -> Zdigits2 (Zpos mc) + ec <= 970 ->
  SF_bounded 1025 (SFadd prec emax v (S754_finite false mc ec)).
Proof.
  destruct v as [s|s| |s m e]; cbn [SF_bounded valid_binary]; intros Hv Hb Hd He Hm;
    try contradiction.
  - cbn [SFadd SF_bounded]. lia.
  - apply SFadd_const_bounded; assumption.
Qed.

(** The feed-forward formula on finite inputs is never a NaN, for small
    enough coefficients. *)
Lemma SF_feedforward_not_nan (x v : spec_float)
    (sa : bool) (ma : positive) (ea : Z) (sb : bool) (mb : positive) (eb : Z)
    (mc : positive) (ec : Z) :
  valid_binary v = true -> SF_bounded 1024 x -> SF_bounded 1024 v ->
  ea <= -1 -> Zdigits2 (Zpos ma) + ea <= -3 -> -100 <= Zdigits2 (Zpos ma) + ea ->
  eb <= -1 -> Zdigits2 (Zpos mb) + eb <= -1 ->
  Zdigits2 (Zpos mc) <= 53 -> ec <= 917 -> Zdigits2 (Zpos mc) + ec <= 970 ->
  let y := SFmul prec emax (S754_finite sa ma ea) x in
  let sigmoid :=
    SFdiv prec emax y (SFadd prec emax (S754_finite false 4503599627370496 (-52)) (SFabs y)) in
  SFmul prec emax (SFmul prec emax (S754_finite sb mb eb) sigmoid)
        (SFadd prec emax v (S754_finite false mc ec)) <> S754_nan.
Proof.
  intros Hvv Hx Hv Hea Ha Ha' Heb Hb Hdc Hec Hc y sigmoid.
  assert (Hy : SF_bounded 1022 y).
  { unfold y. rewrite SFmul_comm.
    eapply SF_bounded_weaken; [|apply (SFmul_bounded 1024); [assumption | assumption | lia]].
    lia. }
  assert (Hs : SF_bounded 1023 sigmoid).
  { unfold sigmoid.
    eapply SF_bounded_weaken; [|apply (SFdiv_bounded 1022);
      [assumption | apply (one_plus_abs_ge_one 1022); assumption | lia]].
    lia. }
  assert (Ht : SF_bounded 1023 (SFmul prec emax (S754_finite sb mb eb) sigmoid)).
  { rewrite SFmul_comm.
    eapply SF_bounded_weaken; [|apply (SFmul_bounded 1023); [assumption | assumption | lia]].
    lia. }
  eapply SFmul_bounded_not_nan; [exact Ht|].
  apply SFadd_const_finite; assumption.
Qed.

End RoundingBounds.



Section FloatFacts.
Local Open Scope float_scope.

Lemma float_mul_comm (a b : float) : a * b = b * a.
Proof. apply Prim2SF_inj. rewrite !mul_spec. apply SFmul_comm. Qed.

Lemma float_mul_opp_l (a b : float) : (- a) * b = - (a * b).
Proof. apply Prim2SF_inj. rewrite mul_spec, !opp_spec, mul_spec. apply SFmul_opp_l. Qed.

Lemma float_mul_opp_r (a b : float) : a * (- b) = - (a * b).
Proof. rewrite (float_mul_comm a (- b)), float_mul_opp_l, (float_mul_comm b a). reflexivity. Qed.

Lemma float_div_opp_l (a b : float) : (- a) / b = - (a / b).
Proof. apply Prim2SF_inj. rewrite div_spec, !opp_spec, div_spec. apply SFdiv_opp_l. Qed.

Lemma float_abs_opp (a : float) : abs (- a) = abs a.
Proof. apply Prim2SF_inj. rewrite !abs_spec, opp_spec. apply SFabs_opp. Qed.

Lemma float_opp_involutive (a : float) : - (- a) = a.
Proof. apply Prim2SF_inj. rewrite !opp_spec. apply SFopp_involutive. Qed.

(** [1 + fabs y] is never a zero: the division of the sigmoid cannot raise. *)
Lemma one_plus_fabs_nonzero (y : float) : (1 + abs y =? 0) = false.
Proof.
  rewrite FloatAxioms.eqb_spec, add_spec, abs_spec.
  change (Prim2SF 0) with (S754_zero false).
  change (Prim2SF 1) with (S754_finite false 4503599627370496 (-52)).
  unfold SF64add.
  destruct (Prim2SF y) as [s|s| |s m e]; try reflexivity.
  cbn [SFabs].
  assert (H : SF_ge_one (SFadd prec emax (S754_finite false 4503599627370496 (-52))
                               (S754_finite false m e)))
    by (apply SFadd_ge_one; vm_compute; discriminate).
  destruct (SFadd prec emax _ _) as [s'|[]| |[] m' e']; cbn [SF_ge_one] in H;
    try contradiction; reflexivity.
Qed.

Lemma isnan_spec (x : float) : PyFloat.isnan x = true -> Prim2SF x = S754_nan.
Proof.
  unfold PyFloat.isnan. rewrite FloatAxioms.eqb_spec. unfold SFeqb. intros H.
  destruct (Prim2SF x) as [s|s| |s m e] eqn:E; try reflexivity;
    rewrite SFcompare_refl in H by discriminate; discriminate.
Qed.

Lemma not_isnan_eqb_refl (x : float) : PyFloat.isnan x = false -> (x =? x) = true.
Proof. unfold PyFloat.isnan. destruct (x =? x); [reflexivity | discriminate]. Qed.

(** A NaN is below nothing. *)
Lemma ltb_nan_l (x y : float) : PyFloat.isnan x = true -> (x <? y) = false.
Proof. intros H. rewrite FloatAxioms.ltb_spec, (isnan_spec x H). reflexivity. Qed.

(** [-1 * m] is [-m], exactly. *)
Lemma float_mul_neg_one (m : float) : -1 * m = - m.
Proof.
  apply Prim2SF_inj. rewrite mul_spec, opp_spec.
  change (Prim2SF (-1)) with (S754_finite true 4503599627370496 (-52)).
  apply SFmul_neg_one, Prim2SF_valid.
Qed.

Lemma ltb_nonneg_nonpos (v r : float) :
  (0 <=? v) = true -> (r <=? 0) = true -> (v <? r) = false.
Proof.
  rewrite !FloatAxioms.leb_spec, FloatAxioms.ltb_spec.
  change (Prim2SF 0) with (S754_zero false). apply SFltb_nonneg_nonpos.
Qed.

Lemma ltb_opp_zero (m : float) : (0 <? m) = true -> (- m <? 0) = true.
Proof.
  rewrite !FloatAxioms.ltb_spec, opp_spec.
  change (Prim2SF 0) with (S754_zero false). apply SFltb_opp_zero.
Qed.

Lemma ltb_leb (x y : float) : (x <? y) = true -> (x <=? y) = true.
Proof. rewrite FloatAxioms.ltb_spec, FloatAxioms.leb_spec. apply SFltb_SFleb. Qed.


Lemma isfinite_spec (x : float) : PyFloat.isfinite x = true -> SF_bounded 1024 (Prim2SF x).
Proof.
  unfold PyFloat.isfinite. rewrite FloatAxioms.ltb_spec, abs_spec.
  change (Prim2SF infinity) with (S754_infinity false). intros H.
  apply SF_bounded_valid; [apply Prim2SF_valid | |];
    intros; intros E; rewrite E in H; discriminate.
Qed.

Lemma not_nan_isnan (x : float) : Prim2SF x <> S754_nan -> PyFloat.isnan x = false.
Proof.
  intros H. unfold PyFloat.isnan. rewrite FloatAxioms.eqb_spec. unfold SFeqb.
  rewrite SFcompare_refl by assumption. reflexivity.
Qed.

End FloatFacts.

(** * The feed-forward models *)

Section FeedforwardFacts.
Local Open Scope float_scope.

Lemma truediv_sigmoid (y : float) :
  PyFloat.truediv y (1 + PyFloat.fabs y) = Some (y / (1 + abs y)).
Proof. unfold PyFloat.truediv, PyFloat.fabs. rewrite one_plus_fabs_nonzero. reflexivity. Qed.

Lemma get_steer_feedforward_volt_spec (x v : float) :
  get_steer_feedforward_volt x v = Some (spec_feedforward 0.02904609 0.10006696 3.12485927 x v).
Proof.
  unfold get_steer_feedforward_volt, spec_feedforward.
  rewrite truediv_sigmoid, (float_mul_comm x). reflexivity.
Qed.

Lemma get_steer_feedforward_acadia_spec (x v : float) :
  get_steer_feedforward_acadia x v = Some (spec_feedforward 0.09760208 0.04689655 10.028217 x v).
Proof.
  unfold get_steer_feedforward_acadia, spec_feedforward.
  rewrite truediv_sigmoid, (float_mul_comm x). reflexivity.
Qed.

(** Negating the angle negates the value, bit for bit. *)
Lemma spec_feedforward_opp (a b c x v : float) :
  spec_feedforward a b c (- x) v = - spec_feedforward a b c x v.
Proof.
  unfold spec_feedforward.
  rewrite float_mul_opp_r, float_abs_opp, float_div_opp_l, float_mul_opp_r, float_mul_opp_l.
  reflexivity.
Qed.

(** C5: for every desired angle [x] and speed [v] the Volt model returns (and
    never raises) exactly [0.10006696 * s * (v + 3.12485927)] with
    [s = (0.02904609*x) / (1 + |0.02904609*x|)]; at [x = 10], [v = 20] this is
    the value of [0.10006696 * (10*0.02904609 / (1+10*0.02904609)) * 23.12485927],
    which is 0.520850 to six decimal places. *)
Theorem volt_feedforward_formula :
  (forall x v : float,
      get_steer_feedforward_volt x v =
      Some (0.10006696 * ((0.02904609 * x) / (1 + abs (0.02904609 * x))) * (v + 3.12485927))) /\
  get_steer_feedforward_volt 10 20 =
    Some (0.10006696 * (10 * 0.02904609 / (1 + 10 * 0.02904609)) * 23.12485927) /\
  (abs (0.10006696 * (10 * 0.02904609 / (1 + 10 * 0.02904609)) * 23.12485927 - 0.520850)
     <? 0.0000005) = true.
Proof.
  split; [exact get_steer_feedforward_volt_spec|].
  split; vm_compute; reflexivity.
Qed.

(** On finite inputs the formula yields a number, for coefficients of the
    size of the fitted ones. *)
Lemma spec_feedforward_not_nan (a b c x v : float)
    (sa : bool) (ma : positive) (ea : Z) (sb : bool) (mb : positive) (eb : Z)
    (mc : positive) (ec : Z) :
  Prim2SF a = S754_finite sa ma ea ->
  Prim2SF b = S754_finite sb mb eb ->
  Prim2SF c = S754_finite false mc ec ->
  (ea <= -1 /\ -100 <= Zdigits2 (Zpos ma) + ea <= -3)%Z ->
  (eb <= -1 /\ Zdigits2 (Zpos mb) + eb <= -1)%Z ->
  (Zdigits2 (Zpos mc) <= 53 /\ ec <= 917 /\ Zdigits2 (Zpos mc) + ec <= 970)%Z ->
  PyFloat.isfinite x = true -> PyFloat.isfinite v = true ->
  PyFloat.isnan (spec_feedforward a b c x v) = false.
Proof.
  intros Ea Eb Ec Ha Hb Hc Hx Hv. apply not_nan_isnan. unfold spec_feedforward.
  rewrite !mul_spec, div_spec, !add_spec, abs_spec, mul_spec, Ea, Eb, Ec.
  change (Prim2SF 1) with (S754_finite false 4503599627370496 (-52)).
  apply SF_feedforward_not_nan;
    try apply Prim2SF_valid; try apply isfinite_spec; try assumption; lia.
Qed.

Lemma volt_finite_not_nan (x v : float) :
  PyFloat.isfinite x = true -> PyFloat.isfinite v = true ->
  PyFloat.isnan (spec_feedforward 0.02904609 0.10006696 3.12485927 x v) = false.
Proof.
  apply (spec_feedforward_not_nan _ _ _ x v
           false 8371965446436473 (-58) false 7210584380289573 (-56)
           7036557521978620 (-51)); try reflexivity; vm_compute; intuition discriminate.
Qed.

Lemma acadia_finite_not_nan (x v : float) :
  PyFloat.isfinite x = true -> PyFloat.isfinite v = true ->
  PyFloat.isnan (spec_feedforward 0.09760208 0.04689655 10.028217 x v) = false.
Proof.
  apply (spec_feedforward_not_nan _ _ _ x v
           false 7032971057897365 (-56) false 6758505123358779 (-57)
           5645384293048809 (-49)); try reflexivity; vm_compute; intuition discriminate.
Qed.

Lemma spec_feedforward_odd (a b c x v : float) :
  PyFloat.isnan (spec_feedforward a b c x v) = false ->
  PyFloat.eq (spec_feedforward a b c x v) (PyFloat.neg (spec_feedforward a b c (- x) v)) = true.
Proof.
  intros H. unfold PyFloat.eq, PyFloat.neg.
  rewrite spec_feedforward_opp, float_opp_involutive.
  apply not_isnan_eqb_refl. assumption.
Qed.

(** Negating the angle negates the value of either model, for all floats. *)
Lemma get_steer_feedforward_opp (x v : float) :
  get_steer_feedforward_volt (- x) v = PyFloat.neg <$> get_steer_feedforward_volt x v /\
  get_steer_feedforward_acadia (- x) v = PyFloat.neg <$> get_steer_feedforward_acadia x v.
Proof.
  rewrite !get_steer_feedforward_volt_spec, !get_steer_feedforward_acadia_spec,
    !spec_feedforward_opp.
  split; reflexivity.
Qed.

(** C7: each family model is an odd function of the desired angle at every
    fixed speed: for all finite [x] and [v] the Volt and the Acadia model
    return a value at [x] and at [-x], the second being the negation of the
    first, and [feedforward(x, v) == -feedforward(-x, v)]. *)
Theorem feedforward_odd (x v : float) :
  PyFloat.isfinite x = true -> PyFloat.isfinite v = true ->
  (exists r, get_steer_feedforward_volt x v = Some r /\
             get_steer_feedforward_volt (PyFloat.neg x) v = Some (PyFloat.neg r) /\
             PyFloat.eq r (PyFloat.neg (PyFloat.neg r)) = true) /\
  (exists r, get_steer_feedforward_acadia x v = Some r /\
             get_steer_feedforward_acadia (PyFloat.neg x) v = Some (PyFloat.neg r) /\
             PyFloat.eq r (PyFloat.neg (PyFloat.neg r)) = true).
Proof.
  intros Hx Hv. unfold PyFloat.neg.
  split; eexists; (split; [|split]).
  - apply get_steer_feedforward_volt_spec.
  - rewrite get_steer_feedforward_volt_spec, spec_feedforward_opp. reflexivity.
  - rewrite <- spec_feedforward_opp.
    apply spec_feedforward_odd, volt_finite_not_nan; assumption.
  - apply get_steer_feedforward_acadia_spec.
  - rewrite get_steer_feedforward_acadia_spec, spec_feedforward_opp. reflexivity.
  - rewrite <- spec_feedforward_opp.
    apply spec_feedforward_odd, acadia_finite_not_nan; assumption.
Qed.

(** At 10 degrees and 20 m/s both models are odd. *)
Lemma feedforward_odd_witness :
  (exists r, get_steer_feedforward_volt 10 20 = Some r /\
             get_steer_feedforward_volt (-10) 20 = Some (- r) /\
             PyFloat.eq r (PyFloat.neg (- r)) = true) /\
  (exists r, get_steer_feedforward_acadia 10 20 = Some r /\
             get_steer_feedforward_acadia (-10) 20 = Some (- r) /\
             PyFloat.eq r (PyFloat.neg (- r)) = true).
Proof. exact (feedforward_odd 10 20 eq_refl eq_refl). Defined.

(** Outside the finite inputs the value can be a NaN, which compares unequal
    to everything: a NaN angle, or an infinite one (the sigmoid is then
    inf/inf), gives NaN at [x] and at [-x]. *)
Lemma feedforward_nan_inputs :
  get_steer_feedforward_volt nan 20 = Some nan /\
  get_steer_feedforward_volt (- nan) 20 = Some nan /\
  get_steer_feedforward_volt infinity 20 = Some nan /\
  get_steer_feedforward_volt (- infinity) 20 = Some nan /\
  get_steer_feedforward_acadia infinity 20 = Some nan /\
  get_steer_feedforward_acadia (- infinity) 20 = Some nan /\
  PyFloat.eq nan (PyFloat.neg nan) = false.
Proof. repeat split; vm_compute; reflexivity. Qed.

End FeedforwardFacts.

(** * The feed-forward selection *)

Section SelectionFacts.
Variable Parser : Type.
Variable get_steer_feedforward_default : float -> float -> option float.

Local Abbreviation selection := (get_steer_feedforward_function Parser).
Local Abbreviation call := (call_steer_feedforward get_steer_feedforward_default).

Lemma selection_volt_iff (self : CarInterface Parser) :
  selection self = ref_get_steer_feedforward_volt <->
  CarParams.carFingerprint (CP Parser self) = CAR.VOLT.
Proof.
  unfold get_steer_feedforward_function, CAR.eqb.
  repeat case_bool_decide; split; intros; congruence.
Qed.

Lemma selection_acadia_iff (self : CarInterface Parser) :
  selection self = ref_get_steer_feedforward_acadia <->
  CarParams.carFingerprint (CP Parser self) = CAR.ACADIA.
Proof.
  unfold get_steer_feedforward_function, CAR.eqb.
  repeat case_bool_decide; split; intros; congruence.
Qed.

(** C6: the selection is a total function of the vehicle identifier: the
    Volt model for VOLT, the Acadia model for ACADIA, and for every other
    identifier the default model of the base interface. *)
Theorem feedforward_selection_total (self : CarInterface Parser) :
  selection self =
    match CarParams.carFingerprint (CP Parser self) with
    | CAR.VOLT => ref_get_steer_feedforward_volt
    | CAR.ACADIA => ref_get_steer_feedforward_acadia
    | _ => ref_get_steer_feedforward_default
    end /\
  call (selection self) =
    match CarParams.carFingerprint (CP Parser self) with
    | CAR.VOLT => get_steer_feedforward_volt
    | CAR.ACADIA => get_steer_feedforward_acadia
    | _ => get_steer_feedforward_default
    end.
Proof.
  unfold get_steer_feedforward_function, CAR.eqb.
  destruct (CarParams.carFingerprint (CP Parser self)); split; reflexivity.
Qed.

(** C9: an interface built for VOLT_NR or ACADIA_NR gets the default model,
    although [get_params] sets the pid feed-forward gain [kf] to 1.0 for both;
    the family models are selected for the exact identifiers VOLT and ACADIA
    and for no other. *)
Theorem no_radar_variants_select_default (CV : Conversions) (self : CarInterface Parser) :
  (CP Parser self = get_params CV CAR.VOLT_NR ->
     selection self = ref_get_steer_feedforward_default /\
     call (selection self) = get_steer_feedforward_default /\
     LateralTuning.pid_kf (CarParams.lateralTuning (CP Parser self)) = Some 1%float) /\
  (CP Parser self = get_params CV CAR.ACADIA_NR ->
     selection self = ref_get_steer_feedforward_default /\
     call (selection self) = get_steer_feedforward_default /\
     LateralTuning.pid_kf (CarParams.lateralTuning (CP Parser self)) = Some 1%float) /\
  (selection self = ref_get_steer_feedforward_volt <->
     CarParams.carFingerprint (CP Parser self) = CAR.VOLT) /\
  (selection self = ref_get_steer_feedforward_acadia <->
     CarParams.carFingerprint (CP Parser self) = CAR.ACADIA).
Proof.
  split; [|split; [|split; [apply selection_volt_iff | apply selection_acadia_iff]]].
  - intros H. unfold get_steer_feedforward_function. rewrite H. repeat split.
  - intros H. unfold get_steer_feedforward_function. rewrite H. repeat split.
Qed.

End SelectionFacts.

(** * The per-cycle update *)

Section UpdateFacts.
Variable Parser : Type.
Variable CarControl : Type.
Variable CruiseButtons : CruiseButtonCodes.
Variable CarState_update : GMCarState -> Parser -> Parser -> Parser -> CarState.t * GMCarState.
Variable create_button_event : Z -> Z -> gmap Z ButtonType.t -> Z -> ButtonEvent.t.
Variable create_common_events :
  CarInterface Parser -> CarState.t -> list GearShifter.t -> bool -> Events.t.
Variable create_button_enable_events : list ButtonEvent.t -> bool -> list EventName.t.

Local Abbreviation update :=
  (_update Parser CarControl CruiseButtons CarState_update create_button_event
           create_common_events create_button_enable_events).
Local Abbreviation decode self :=
  (CarState_update (CS Parser self) (cp Parser self) (cp_loopback Parser self)
                   (cp_body Parser self)).
Local Abbreviation extra_gears :=
  [GearShifter.sport; GearShifter.low; GearShifter.eco; GearShifter.manumatic].

(** The button event of a cycle, as classified and then filtered by the
    resume suppression. *)
Lemma update_buttonEvents (self : CarInterface Parser) (c : CarControl)
    (ret0 : CarState.t) (CS' : GMCarState) :
  decode self = (ret0, CS') ->
  CarState.buttonEvents (snd (update self c)) =
    if negb (cruise_buttons CS' =? prev_cruise_buttons CS')%Z
       && negb (prev_cruise_buttons CS' =? INIT CruiseButtons)%Z
    then
      let be := create_button_event (cruise_buttons CS') (prev_cruise_buttons CS')
                                    (BUTTONS_DICT CruiseButtons) (UNPRESS CruiseButtons) in
      [if ButtonType.eqb (ButtonEvent.type be) ButtonType.accelCruise
          && (CruiseState.enabled (CarState.cruiseState ret0) && CarState.standstill ret0)
       then ButtonEvent.set_type ButtonType.unknown be else be]
    else CarState.buttonEvents ret0.
Proof.
  intros H. unfold _update. rewrite H. cbn.
  destruct (negb _ && negb _); reflexivity.
Qed.

(** The event list of a cycle: the common events of the base interface, the
    threshold events, and last the events derived from the buttons. *)
Lemma update_events (self : CarInterface Parser) (c : CarControl)
    (ret0 : CarState.t) (CS' : GMCarState) :
  decode self = (ret0, CS') ->
  CarState.events (snd (update self c)) =
    create_common_events (fst (update self c))
      (CarState.set_events (CarState.events ret0) (snd (update self c)))
      extra_gears (CarParams.pcmCruise (CP Parser self)) ++
    spec_evaluate (CarState.vEgo ret0) (CruiseState.standstill (CarState.cruiseState ret0))
      (CarParams.minEnableSpeed (CP Parser self)) (CarParams.minSteerSpeed (CP Parser self)) ++
    create_button_enable_events (CarState.buttonEvents (snd (update self c)))
      (CarParams.pcmCruise (CP Parser self)).
Proof.
  intros H. unfold _update, spec_evaluate, PyFloat.lt, Events.add, Events.to_msg.
  rewrite H. cbn.
  destruct (negb _ && negb _); cbn;
    destruct (PrimFloat.ltb _ (CarParams.minEnableSpeed _));
    destruct (CruiseState.standstill _);
    destruct (PrimFloat.ltb _ (CarParams.minSteerSpeed _));
    cbn; rewrite <- ?app_assoc; reflexivity.
Qed.

Local Abbreviation common_events self c ret0 :=
  (create_common_events (fst (update self c))
     (CarState.set_events (CarState.events ret0) (snd (update self c)))
     extra_gears (CarParams.pcmCruise (CP Parser self))).
Local Abbreviation button_enable_events self c :=
  (create_button_enable_events (CarState.buttonEvents (snd (update self c)))
     (CarParams.pcmCruise (CP Parser self))).

(** C1: when the update classifies a button change, the event it emits has
    type [unknown] if the classified type is [accelCruise] while cruise is
    enabled and the vehicle stands still; in every other combination the
    classified event is emitted unchanged. *)
Theorem resume_suppression (self : CarInterface Parser) (c : CarControl)
    (ret0 : CarState.t) (CS' : GMCarState) :
  decode self = (ret0, CS') ->
  cruise_buttons CS' <> prev_cruise_buttons CS' ->
  prev_cruise_buttons CS' <> INIT CruiseButtons ->
  let be := create_button_event (cruise_buttons CS') (prev_cruise_buttons CS')
                                (BUTTONS_DICT CruiseButtons) (UNPRESS CruiseButtons) in
  (ButtonEvent.type be = ButtonType.accelCruise ->
   CruiseState.enabled (CarState.cruiseState ret0) = true ->
   CarState.standstill ret0 = true ->
   CarState.buttonEvents (snd (update self c)) =
     [{| ButtonEvent.pressed := ButtonEvent.pressed be;
         ButtonEvent.type := ButtonType.unknown |}]) /\
  (ButtonEvent.type be <> ButtonType.accelCruise \/
   CruiseState.enabled (CarState.cruiseState ret0) = false \/
   CarState.standstill ret0 = false ->
   CarState.buttonEvents (snd (update self c)) = [be]).
Proof.
  intros H Hne Hinit be. rewrite (update_buttonEvents self c ret0 CS' H).
  apply Z.eqb_neq in Hne, Hinit. rewrite Hne, Hinit. cbn [negb andb].
  fold be. unfold ButtonType.eqb. split.
  - intros Ht He Hs. rewrite Ht, He, Hs. reflexivity.
  - intros [Ht | [He | Hs]].
    + rewrite bool_decide_eq_false_2 by assumption. reflexivity.
    + rewrite He, andb_false_r. reflexivity.
    + rewrite Hs, !andb_false_r. reflexivity.
Qed.

(** C2: the update adds no button event when the previous and the current
    button code are equal, and none when the previous code is INIT whatever
    the current one; exactly one event is emitted when the codes differ and
    the previous one is not INIT, and only then. *)
Theorem button_event_guard (self : CarInterface Parser) (c : CarControl)
    (ret0 : CarState.t) (CS' : GMCarState) :
  decode self = (ret0, CS') ->
  (cruise_buttons CS' = prev_cruise_buttons CS' \/
   prev_cruise_buttons CS' = INIT CruiseButtons ->
   CarState.buttonEvents (snd (update self c)) = CarState.buttonEvents ret0) /\
  (cruise_buttons CS' <> prev_cruise_buttons CS' ->
   prev_cruise_buttons CS' <> INIT CruiseButtons ->
   exists be, CarState.buttonEvents (snd (update self c)) = [be]) /\
  (CarState.buttonEvents (snd (update self c)) <> CarState.buttonEvents ret0 ->
   cruise_buttons CS' <> prev_cruise_buttons CS' /\
   prev_cruise_buttons CS' <> INIT CruiseButtons).
Proof.
  intros H. rewrite (update_buttonEvents self c ret0 CS' H).
  destruct (Z.eqb_spec (cruise_buttons CS') (prev_cruise_buttons CS')) as [E1|E1];
    destruct (Z.eqb_spec (prev_cruise_buttons CS') (INIT CruiseButtons)) as [E2|E2];
    cbn [negb andb]; repeat split; intros; try congruence; try tauto; eauto.
Qed.

Lemma spec_evaluate_filter (v : float) (st : bool) (mE mS : float) :
  spec_evaluate v st mE mS =
  List.filter (fun e => match e with
                   | EventName.belowEngageSpeed => PyFloat.lt v mE
                   | EventName.resumeRequired => st
                   | EventName.belowSteerSpeed => PyFloat.lt v mS
                   | _ => false
                   end)
         [EventName.belowEngageSpeed; EventName.resumeRequired; EventName.belowSteerSpeed].
Proof.
  unfold spec_evaluate, PyFloat.lt.
  destruct (PrimFloat.ltb v mE), st, (PrimFloat.ltb v mS); reflexivity.
Qed.

Lemma spec_evaluate_In (v : float) (st : bool) (mE mS : float) :
  (In EventName.belowEngageSpeed (spec_evaluate v st mE mS) <-> PyFloat.lt v mE = true) /\
  (In EventName.resumeRequired (spec_evaluate v st mE mS) <-> st = true) /\
  (In EventName.belowSteerSpeed (spec_evaluate v st mE mS) <-> PyFloat.lt v mS = true).
Proof.
  unfold spec_evaluate, PyFloat.lt.
  destruct (PrimFloat.ltb v mE), st, (PrimFloat.ltb v mS); cbn;
    repeat split; intros; try reflexivity; try discriminate; intuition discriminate.
Qed.

(** C3: the threshold events of a cycle are those of the three rules of the
    specification: belowEngageSpeed exactly when vEgo < minEnableSpeed,
    resumeRequired exactly when the cruise-standstill flag holds,
    belowSteerSpeed exactly when vEgo < minSteerSpeed; they come in the order
    1, 2, 3, depend on the current sample and the parameters alone, and every
    subset of the three can result. *)
Theorem threshold_evaluation (self : CarInterface Parser) (c : CarControl)
    (ret0 : CarState.t) (CS' : GMCarState) :
  decode self = (ret0, CS') ->
  let v := CarState.vEgo ret0 in
  let st := CruiseState.standstill (CarState.cruiseState ret0) in
  let mE := CarParams.minEnableSpeed (CP Parser self) in
  let mS := CarParams.minSteerSpeed (CP Parser self) in
  CarState.events (snd (update self c)) =
    common_events self c ret0 ++ spec_evaluate v st mE mS ++ button_enable_events self c /\
  spec_evaluate v st mE mS =
    List.filter (fun e => match e with
                     | EventName.belowEngageSpeed => PyFloat.lt v mE
                     | EventName.resumeRequired => st
                     | EventName.belowSteerSpeed => PyFloat.lt v mS
                     | _ => false
                     end)
           [EventName.belowEngageSpeed; EventName.resumeRequired; EventName.belowSteerSpeed] /\
  (In EventName.belowEngageSpeed (spec_evaluate v st mE mS) <-> PyFloat.lt v mE = true) /\
  (In EventName.resumeRequired (spec_evaluate v st mE mS) <-> st = true) /\
  (In EventName.belowSteerSpeed (spec_evaluate v st mE mS) <-> PyFloat.lt v mS = true) /\
  (forall b1 b2 b3 : bool, exists v' st' mE' mS',
      spec_evaluate v' st' mE' mS' =
      (if b1 then [EventName.belowEngageSpeed] else []) ++
      (if b2 then [EventName.resumeRequired] else []) ++
      (if b3 then [EventName.belowSteerSpeed] else [])).
Proof.
  intros H v st mE mS.
  split; [exact (update_events self c ret0 CS' H)|].
  split; [apply spec_evaluate_filter|].
  destruct (spec_evaluate_In v st mE mS) as (H1 & H2 & H3).
  repeat (split; [assumption|]).
  intros b1 b2 b3.
  exists 1%float, b2, (if b1 then 2%float else 0%float), (if b3 then 2%float else 0%float).
  destruct b1, b2, b3; reflexivity.
Qed.

(** C4 (amended): in the event list of every cycle the threshold events
    (belowEngageSpeed, resumeRequired, belowSteerSpeed, in this order) follow
    the common events of the base interface, and the events derived from the
    buttons are appended after them, last. *)
Theorem threshold_events_before_button_events (self : CarInterface Parser) (c : CarControl)
    (ret0 : CarState.t) (CS' : GMCarState) :
  decode self = (ret0, CS') ->
  CarState.events (snd (update self c)) =
    (common_events self c ret0 ++
     ((if PyFloat.lt (CarState.vEgo ret0) (CarParams.minEnableSpeed (CP Parser self))
       then [EventName.belowEngageSpeed] else []) ++
      (if CruiseState.standstill (CarState.cruiseState ret0)
       then [EventName.resumeRequired] else []) ++
      (if PyFloat.lt (CarState.vEgo ret0) (CarParams.minSteerSpeed (CP Parser self))
       then [EventName.belowSteerSpeed] else []))) ++
    button_enable_events self c.
Proof.
  intros H. rewrite (update_events self c ret0 CS' H), <- app_assoc. reflexivity.
Qed.

(** C8: the update is a total function and the feed-forward models return
    a value for every pair of floats; in a cycle whose ego speed is NaN both
    speed comparisons are false: neither belowEngageSpeed nor belowSteerSpeed
    is among the threshold events, whatever the parameters. *)
Theorem nan_speed_cycle :
  (forall (self : CarInterface Parser) (c : CarControl),
      exists self' ret, update self c = (self', ret)) /\
  (forall x v : float,
      is_Some (get_steer_feedforward_volt x v) /\
      is_Some (get_steer_feedforward_acadia x v)) /\
  (forall (self : CarInterface Parser) (c : CarControl) (ret0 : CarState.t) (CS' : GMCarState),
      decode self = (ret0, CS') ->
      PyFloat.isnan (CarState.vEgo ret0) = true ->
      let v := CarState.vEgo ret0 in
      let st := CruiseState.standstill (CarState.cruiseState ret0) in
      let mE := CarParams.minEnableSpeed (CP Parser self) in
      let mS := CarParams.minSteerSpeed (CP Parser self) in
      PyFloat.lt v mE = false /\ PyFloat.lt v mS = false /\
      ~ In EventName.belowEngageSpeed (spec_evaluate v st mE mS) /\
      ~ In EventName.belowSteerSpeed (spec_evaluate v st mE mS) /\
      CarState.events (snd (update self c)) =
        common_events self c ret0 ++
        (if st then [EventName.resumeRequired] else []) ++
        button_enable_events self c).
Proof.
  split; [|split].
  - intros self c. destruct (update self c) as [self' ret]. eauto.
  - intros x v.
    rewrite get_steer_feedforward_volt_spec, get_steer_feedforward_acadia_spec. eauto.
  - intros self c ret0 CS' H Hnan v st mE mS.
    assert (HE : PyFloat.lt v mE = false) by (apply ltb_nan_l; assumption).
    assert (HS : PyFloat.lt v mS = false) by (apply ltb_nan_l; assumption).
    destruct (spec_evaluate_In v st mE mS) as (H1 & _ & H3).
    repeat split; try assumption.
    + rewrite H1, HE. discriminate.
    + rewrite H3, HS. discriminate.
    + rewrite (update_events self c ret0 CS' H).
      fold v st mE mS. unfold spec_evaluate. unfold PyFloat.lt in HE, HS.
      rewrite HE, HS, app_nil_r. reflexivity.
Qed.

(** C10: with the parameters built for TAHOE_NR, SILVERADO_NR and SUBURBAN the
    steering threshold is [-1 * MPH_TO_MS], a negative speed, so no cycle with
    a non-negative ego speed adds belowSteerSpeed; likewise the identifiers
    whose minEnableSpeed is -1 never add belowEngageSpeed at a non-negative
    ego speed. *)
Theorem negative_thresholds_never_fire (CV : Conversions) :
  PyFloat.lt 0 (MPH_TO_MS CV) = true ->
  (forall candidate : CAR.t,
      In candidate [CAR.TAHOE_NR; CAR.SILVERADO_NR; CAR.SUBURBAN] ->
      CarParams.minSteerSpeed (get_params CV candidate) = (-1 * MPH_TO_MS CV)%float /\
      PyFloat.lt (CarParams.minSteerSpeed (get_params CV candidate)) 0 = true /\
      forall (self : CarInterface Parser) (c : CarControl) (ret0 : CarState.t)
             (CS' : GMCarState),
        CP Parser self = get_params CV candidate ->
        decode self = (ret0, CS') ->
        PyFloat.le 0 (CarState.vEgo ret0) = true ->
        PyFloat.lt (CarState.vEgo ret0) (CarParams.minSteerSpeed (CP Parser self)) = false /\
        CarState.events (snd (update self c)) =
          common_events self c ret0 ++
          ((if PyFloat.lt (CarState.vEgo ret0) (CarParams.minEnableSpeed (CP Parser self))
            then [EventName.belowEngageSpeed] else []) ++
           (if CruiseState.standstill (CarState.cruiseState ret0)
            then [EventName.resumeRequired] else [])) ++
          button_enable_events self c) /\
  (forall candidate : CAR.t,
      In candidate [CAR.ACADIA; CAR.ACADIA_NR; CAR.ESCALADE_ESV; CAR.BOLT_NR;
                    CAR.TAHOE_NR; CAR.SILVERADO_NR; CAR.SUBURBAN; CAR.BOLT_EUV] ->
      CarParams.minEnableSpeed (get_params CV candidate) = (-1)%float /\
      forall (self : CarInterface Parser) (c : CarControl) (ret0 : CarState.t)
             (CS' : GMCarState),
        CP Parser self = get_params CV candidate ->
        decode self = (ret0, CS') ->
        PyFloat.le 0 (CarState.vEgo ret0) = true ->
        PyFloat.lt (CarState.vEgo ret0) (CarParams.minEnableSpeed (CP Parser self)) = false /\
        CarState.events (snd (update self c)) =
          common_events self c ret0 ++
          ((if CruiseState.standstill (CarState.cruiseState ret0)
            then [EventName.resumeRequired] else []) ++
           (if PyFloat.lt (CarState.vEgo ret0) (CarParams.minSteerSpeed (CP Parser self))
            then [EventName.belowSteerSpeed] else [])) ++
          button_enable_events self c).
Proof.
  intros Hpos. unfold PyFloat.lt, PyFloat.le in *. split.
  - intros candidate Hin.
    assert (Hm : CarParams.minSteerSpeed (get_params CV candidate) = (-1 * MPH_TO_MS CV)%float).
    { cbn in Hin. destruct Hin as [<-|[<-|[<-|[]]]]; reflexivity. }
    assert (Hneg : (CarParams.minSteerSpeed (get_params CV candidate) <? 0)%float = true).
    { rewrite Hm, float_mul_neg_one. apply ltb_opp_zero. assumption. }
    split; [assumption|]. split; [assumption|].
    intros self c ret0 CS' HCP H Hv.
    assert (HS : (CarState.vEgo ret0 <? CarParams.minSteerSpeed (CP Parser self))%float = false).
    { rewrite HCP. apply ltb_nonneg_nonpos; [assumption|]. apply ltb_leb. assumption. }
    split; [assumption|].
    rewrite (update_events self c ret0 CS' H). unfold spec_evaluate.
    rewrite HS, app_nil_r, <- !app_assoc. reflexivity.
  - intros candidate Hin.
    assert (Hm : CarParams.minEnableSpeed (get_params CV candidate) = (-1)%float).
    { cbn in Hin.
      destruct Hin as [<-|[<-|[<-|[<-|[<-|[<-|[<-|[<-|[]]]]]]]]]; reflexivity. }
    split; [assumption|].
    intros self c ret0 CS' HCP H Hv.
    assert (HE : (CarState.vEgo ret0 <? CarParams.minEnableSpeed (CP Parser self))%float = false).
    { rewrite HCP, Hm. apply ltb_nonneg_nonpos; [assumption|reflexivity]. }
    split; [assumption|].
    rewrite (update_events self c ret0 CS' H). unfold spec_evaluate.
    rewrite HE. reflexivity.
Qed.

End UpdateFacts.

(** * The theorems on explicit cycles *)

Section Cycles.
Local Open Scope float_scope.

Local Abbreviation at_sample thm :=
  (thm RawSample unit gm_cruise_buttons sample_CarState_update create_button_event_spec
       sample_create_common_events sample_create_button_enable_events).

(** Resume pressed (after an unpressed sample) while cruise is enabled and the
    vehicle stands still: the event is a press of type [unknown]. *)
Lemma resume_suppression_witness :
  CarState.buttonEvents
    (snd (sample_update (sample_interface CAR.VOLT 1 (sample 0 true true true 2)))) =
  [{| ButtonEvent.pressed := true; ButtonEvent.type := ButtonType.unknown |}].
Proof.
  refine (proj1 (at_sample resume_suppression
                   (sample_interface CAR.VOLT 1 (sample 0 true true true 2)) tt _ _
                   eq_refl _ _) _ _ _);
    vm_compute; solve [reflexivity | discriminate].
Defined.

(** An unchanged button code: the update adds no button event. *)
Lemma button_event_guard_witness :
  CarState.buttonEvents
    (snd (sample_update (sample_interface CAR.VOLT 2 (sample 20 false true false 2)))) = [].
Proof.
  refine (proj1 (at_sample button_event_guard
                   (sample_interface CAR.VOLT 2 (sample 20 false true false 2)) tt _ _
                   eq_refl) _).
  left. reflexivity.
Defined.

(** A Volt at 5 m/s with the cruise-standstill flag set: below the engage
    speed (18 mph) but above the steering speed (7 mph). *)
Lemma threshold_evaluation_witness :
  CarState.events
    (snd (sample_update (sample_interface CAR.VOLT 1 (sample 5 false false true 1)))) =
  [EventName.belowEngageSpeed; EventName.resumeRequired].
Proof.
  exact (proj1 (at_sample threshold_evaluation
                  (sample_interface CAR.VOLT 1 (sample 5 false false true 1)) tt _ _
                  eq_refl)).
Defined.

(** The resume button is released while the cruise-standstill flag is set:
    the threshold event comes first, the button-derived event last. *)
Lemma threshold_events_before_button_events_witness :
  CarState.events
    (snd (sample_update (sample_interface CAR.VOLT 2 (sample 20 false false true 1)))) =
  [EventName.resumeRequired; EventName.buttonEnable].
Proof.
  exact (at_sample threshold_events_before_button_events
           (sample_interface CAR.VOLT 2 (sample 20 false false true 1)) tt _ _ eq_refl).
Defined.

(** C4 (as stated) fails on that cycle: the button-derived event is
    [buttonEnable], the threshold event is [resumeRequired], and the event
    list does not have the button-derived event first. *)
Lemma events_order_counterexample :
  let ret := snd (sample_update (sample_interface CAR.VOLT 2 (sample 20 false false true 1))) in
  CarState.buttonEvents ret =
    [{| ButtonEvent.pressed := false; ButtonEvent.type := ButtonType.accelCruise |}] /\
  sample_create_button_enable_events (CarState.buttonEvents ret) false =
    [EventName.buttonEnable] /\
  spec_evaluate 20 true (18 * 0.44704) (7 * 0.44704) = [EventName.resumeRequired] /\
  CarState.events ret = [EventName.resumeRequired; EventName.buttonEnable] /\
  ~ (exists common,
        CarState.events ret =
        common ++ [EventName.buttonEnable] ++ [EventName.resumeRequired]).
Proof.
  repeat split; try (vm_compute; reflexivity).
  intros [common H]. vm_compute in H.
  destruct common as [|e1 [|e2 [|e3 common]]]; discriminate.
Qed.

(** A NaN ego speed: only the cruise-standstill rule fires. *)
Lemma nan_speed_cycle_witness :
  CarState.events
    (snd (sample_update (sample_interface CAR.VOLT 1 (sample nan false false true 1)))) =
  [EventName.resumeRequired].
Proof.
  exact (proj2 (proj2 (proj2 (proj2
           (proj2 (proj2 (at_sample nan_speed_cycle))
              (sample_interface CAR.VOLT 1 (sample nan false false true 1)) tt _ _
              eq_refl eq_refl))))).
Defined.

(** VOLT_NR: the default function object, with [kf = 1.0]. *)
Lemma no_radar_variants_select_default_witness :
  get_steer_feedforward_function RawSample
    (sample_interface CAR.VOLT_NR 1 (sample 20 false false false 1)) =
  ref_get_steer_feedforward_default /\
  call_steer_feedforward sample_steer_feedforward_default
    (get_steer_feedforward_function RawSample
       (sample_interface CAR.VOLT_NR 1 (sample 20 false false false 1))) =
  sample_steer_feedforward_default /\
  LateralTuning.pid_kf
    (CarParams.lateralTuning (get_params gm_conversions CAR.VOLT_NR)) = Some 1.
Proof.
  exact (proj1 (no_radar_variants_select_default RawSample sample_steer_feedforward_default
                  gm_conversions
                  (sample_interface CAR.VOLT_NR 1 (sample 20 false false false 1)))
               eq_refl).
Defined.

(** TAHOE_NR standing still: the steering threshold is negative and the
    cycle has no belowSteerSpeed. *)
Lemma negative_thresholds_never_fire_witness :
  PyFloat.lt (CarParams.minSteerSpeed (get_params gm_conversions CAR.TAHOE_NR)) 0 = true /\
  CarState.events
    (snd (sample_update (sample_interface CAR.TAHOE_NR 1 (sample 0 true false false 1)))) = [].
Proof.
  pose proof (proj1 (at_sample negative_thresholds_never_fire gm_conversions eq_refl)
                CAR.TAHOE_NR (or_introl eq_refl)) as (_ & Hneg & Hcycle).
  split; [exact Hneg|].
  exact (proj2 (Hcycle (sample_interface CAR.TAHOE_NR 1 (sample 0 true false false 1)) tt _ _
                  eq_refl eq_refl eq_refl)).
Defined.

(** A session from its start: the resume code on the first cycle and again on
    the second raise no button event, the cancel code on the third raises
    exactly one press of type [cancel]. *)
Example session_resume_then_cancel :
  let s0 := sample_interface CAR.VOLT (INIT gm_cruise_buttons) (sample 20 false true false 2) in
  let '(s1, ret1) := sample_cycle (sample 20 false true false 2) s0 in
  let '(s2, ret2) := sample_cycle (sample 20 false true false 2) s1 in
  let '(s3, ret3) := sample_cycle (sample 20 false true false 6) s2 in
  CarState.buttonEvents ret1 = [] /\
  CarState.buttonEvents ret2 = [] /\
  CarState.buttonEvents ret3 =
    [{| ButtonEvent.pressed := true; ButtonEvent.type := ButtonType.cancel |}].
Proof. vm_compute. repeat split. Qed.

End Cycles.

(** * The sign of the feed-forward value *)

Section SignFacts.
Local Open Scope Z_scope.

(** Rounding a non-negative mantissa with sign [false] gives a value that is
    not below zero. *)
Lemma binary_round_aux_nonneg (m e : Z) (l : location) :
  0 <= m -> SFleb (S754_zero false) (binary_round_aux prec emax false m e l) = true.
Proof.
  intros Hm.
  destruct (binary_round_aux_cases false m e l Hm) as [->|[(m' & e' & -> & _)| [-> _]]];
    reflexivity.
Qed.

Lemma SFmul_nonneg (k1 k2 : Z) (x y : spec_float) :
  SF_bounded k1 x -> SF_bounded k2 y ->
  SFleb (S754_zero false) x = true -> SFleb (S754_zero false) y = true ->
  SFleb (S754_zero false) (SFmul prec emax x y) = true.
Proof.
  destruct x as [sx|sx| |[] mx ex], y as [sy|sy| |[] my ey];
    cbn [SF_bounded]; intros Bx By Hx Hy; try contradiction; try discriminate;
    try reflexivity.
  apply binary_round_aux_nonneg. lia.
Qed.

Lemma SFdiv_nonneg (k : Z) (x y : spec_float) :
  SF_bounded k x -> SF_ge_one y -> SFleb (S754_zero false) x = true ->
  SFleb (S754_zero false) (SFdiv prec emax x y) = true.
Proof.
  destruct x as [sx|sx| |[] mx ex], y as [sy|[]| |[] my ey];
    cbn [SF_bounded SF_ge_one]; intros Bx By Hx; try contradiction; try discriminate;
    try reflexivity.
  cbn [SFdiv xorb].
  destruct (SFdiv_core_binary_bounds mx my ex ey) as (q & e' & l & -> & Hq & _).
  apply binary_round_aux_nonneg. assumption.
Qed.

Lemma SFadd_nonneg (v : spec_float) (mc : positive) (ec : Z) :
  SFleb (S754_zero false) v = true -> v <> S754_infinity false ->
  SFleb (S754_zero false) (SFadd prec emax v (S754_finite false mc ec)) = true.
Proof.
  destruct v as [s|[]| |[] m e]; intros Hv Hi; try discriminate; try congruence;
    try reflexivity.
  unfold SFadd, cond_Zopp.
  set (a := fst (shl_align m e _)). set (b := fst (shl_align mc ec _)).
  change (Zpos a + Zpos b) with (Zpos (a + b)).
  unfold binary_normalize, binary_round.
  destruct (shl_align (a + b) _ _) as [mz ez].
  apply binary_round_aux_nonneg. lia.
Qed.

Lemma SFleb_opp_zero (x : spec_float) :
  SFleb (S754_zero false) x = true -> SFleb (SFopp x) (S754_zero false) = true.
Proof. destruct x as [s|[]| |[] m e]; intros H; try discriminate; reflexivity. Qed.

Lemma SFleb_zero_opp (x : spec_float) :
  SFleb x (S754_zero false) = true -> SFleb (S754_zero false) (SFopp x) = true.
Proof. destruct x as [s|[]| |[] m e]; intros H; try discriminate; reflexivity. Qed.

(** On finite inputs that are not below zero, the formula with positive
    coefficients is not below zero. *)
Lemma SF_feedforward_nonneg (x v : spec_float)
    (ma : positive) (ea : Z) (mb : positive) (eb : Z) (mc : positive) (ec : Z) :
  valid_binary v = true -> SF_bounded 1024 x -> SF_bounded 1024 v ->
  SFleb (S754_zero false) x = true -> SFleb (S754_zero false) v = true ->
  ea <= -1 -> Zdigits2 (Zpos ma) + ea <= -3 -> -100 <= Zdigits2 (Zpos ma) + ea ->
  eb <= -1 -> Zdigits2 (Zpos mb) + eb <= -1 ->
  Zdigits2 (Zpos mc) <= 53 -> ec <= 917 -> Zdigits2 (Zpos mc) + ec <= 970 ->
  let y := SFmul prec emax (S754_finite false ma ea) x in
  let sigmoid :=
    SFdiv prec emax y (SFadd prec emax (S754_finite false 4503599627370496 (-52)) (SFabs y)) in
  SFleb (S754_zero false)
        (SFmul prec emax (SFmul prec emax (S754_finite false mb eb) sigmoid)
               (SFadd prec emax v (S754_finite false mc ec))) = true.
Proof.
  intros Hvv Bx Bv Hx Hv Hea Ha Ha' Heb Hb Hdc Hec Hc y sigmoid.
  assert (Ba : SF_bounded (-3) (S754_finite false ma ea)) by (cbn [SF_bounded]; lia).
  assert (Bb : SF_bounded (-1) (S754_finite false mb eb)) by (cbn [SF_bounded]; lia).
  assert (By : SF_bounded 1022 y).
  { unfold y. rewrite SFmul_comm.
    eapply SF_bounded_weaken; [|apply (SFmul_bounded 1024); [assumption | assumption | lia]].
    lia. }
  assert (Hy : SFleb (S754_zero false) y = true).
  { unfold y. apply (SFmul_nonneg (-3) 1024); try assumption. reflexivity. }
  assert (Hden : SF_ge_one (SFadd prec emax (S754_finite false 4503599627370496 (-52)) (SFabs y)))
    by (apply (one_plus_abs_ge_one 1022); assumption).
  assert (Bs : SF_bounded 1023 sigmoid).
  { unfold sigmoid.
    eapply SF_bounded_weaken; [|apply (SFdiv_bounded 1022); [assumption | assumption | lia]].
    lia. }
  assert (Hs : SFleb (S754_zero false) sigmoid = true)
    by (apply (SFdiv_nonneg 1022); assumption).
  assert (Bt : SF_bounded 1023 (SFmul prec emax (S754_finite false mb eb) sigmoid)).
  { rewrite SFmul_comm.
    eapply SF_bounded_weaken; [|apply (SFmul_bounded 1023); [assumption | assumption | lia]].
    lia. }
  assert (Ht : SFleb (S754_zero false) (SFmul prec emax (S754_finite false mb eb) sigmoid) = true).
  { apply (SFmul_nonneg (-1) 1023); try assumption. reflexivity. }
  assert (Bw : SF_bounded 1025 (SFadd prec emax v (S754_finite false mc ec)))
    by (apply SFadd_const_finite; assumption).
  apply (SFmul_nonneg 1023 1025); try assumption.
  apply SFadd_nonneg; [assumption|].
  intros ->. exact Bv.
Qed.

(** At a zero angle the formula is a zero. *)
Lemma SF_feedforward_zero (s : bool) (v : spec_float)
    (sa : bool) (ma : positive) (ea : Z) (sb : bool) (mb : positive) (eb : Z)
    (mc : positive) (ec : Z) :
  valid_binary v = true -> SF_bounded 1024 v ->
  Zdigits2 (Zpos mc) <= 53 -> ec <= 917 -> Zdigits2 (Zpos mc) + ec <= 970 ->
  let y := SFmul prec emax (S754_finite sa ma ea) (S754_zero s) in
  let sigmoid :=
    SFdiv prec emax y (SFadd prec emax (S754_finite false 4503599627370496 (-52)) (SFabs y)) in
  SFeqb (SFmul prec emax (SFmul prec emax (S754_finite sb mb eb) sigmoid)
               (SFadd prec emax v (S754_finite false mc ec)))
        (S754_zero false) = true.
Proof.
  intros Hvv Bv Hdc Hec Hc. cbn.
  pose proof (SFadd_const_finite v mc ec Hvv Bv Hdc Hec Hc) as Bw.
  destruct (SFadd prec emax v (S754_finite false mc ec)) as [sw|sw| |sw mw ew];
    cbn [SF_bounded] in Bw; try contradiction; reflexivity.
Qed.

End SignFacts.

Section FeedforwardSign.
Local Open Scope float_scope.

Lemma eqb_zero_spec (x : float) : (x =? 0) = true -> exists s, Prim2SF x = S754_zero s.
Proof.
  rewrite FloatAxioms.eqb_spec. change (Prim2SF 0) with (S754_zero false).
  destruct (Prim2SF x) as [s|[]| |[] m e]; intros H; try discriminate. eauto.
Qed.

Lemma isfinite_opp (x : float) : PyFloat.isfinite (- x) = PyFloat.isfinite x.
Proof. unfold PyFloat.isfinite. rewrite float_abs_opp. reflexivity. Qed.

Lemma leb_zero_opp (x : float) : (x <=? 0) = true -> (0 <=? - x) = true.
Proof.
  rewrite !FloatAxioms.leb_spec, opp_spec. change (Prim2SF 0) with (S754_zero false).
  apply SFleb_zero_opp.
Qed.

Lemma leb_opp_zero (x : float) : (0 <=? x) = true -> (- x <=? 0) = true.
Proof.
  rewrite !FloatAxioms.leb_spec, opp_spec. change (Prim2SF 0) with (S754_zero false).
  apply SFleb_opp_zero.
Qed.

Lemma spec_feedforward_zero (a b c x v : float)
    (sa : bool) (ma : positive) (ea : Z) (sb : bool) (mb : positive) (eb : Z)
    (mc : positive) (ec : Z) :
  Prim2SF a = S754_finite sa ma ea ->
  Prim2SF b = S754_finite sb mb eb ->
  Prim2SF c = S754_finite false mc ec ->
  (Zdigits2 (Zpos mc) <= 53 /\ ec <= 917 /\ Zdigits2 (Zpos mc) + ec <= 970)%Z ->
  (x =? 0) = true -> PyFloat.isfinite v = true ->
  (spec_feedforward a b c x v =? 0) = true.
Proof.
  intros Ea Eb Ec Hc Hx Hv. destruct (eqb_zero_spec x Hx) as [s Es].
  rewrite FloatAxioms.eqb_spec. unfold spec_feedforward.
  rewrite !mul_spec, div_spec, !add_spec, abs_spec, mul_spec, Ea, Eb, Ec, Es.
  change (Prim2SF 1) with (S754_finite false 4503599627370496 (-52)).
  change (Prim2SF 0) with (S754_zero false).
  apply SF_feedforward_zero;
    try apply Prim2SF_valid; try apply isfinite_spec; try assumption; lia.
Qed.

Lemma spec_feedforward_nonneg (a b c x v : float)
    (ma : positive) (ea : Z) (mb : positive) (eb : Z) (mc : positive) (ec : Z) :
  Prim2SF a = S754_finite false ma ea ->
  Prim2SF b = S754_finite false mb eb ->
  Prim2SF c = S754_finite false mc ec ->
  (ea <= -1 /\ -100 <= Zdigits2 (Zpos ma) + ea <= -3)%Z ->
  (eb <= -1 /\ Zdigits2 (Zpos mb) + eb <= -1)%Z ->
  (Zdigits2 (Zpos mc) <= 53 /\ ec <= 917 /\ Zdigits2 (Zpos mc) + ec <= 970)%Z ->
  PyFloat.isfinite x = true -> PyFloat.isfinite v = true ->
  (0 <=? x) = true -> (0 <=? v) = true ->
  (0 <=? spec_feedforward a b c x v) = true.
Proof.
  intros Ea Eb Ec Ha Hb Hc Fx Fv Hx Hv.
  rewrite FloatAxioms.leb_spec in *. unfold spec_feedforward.
  rewrite !mul_spec, div_spec, !add_spec, abs_spec, mul_spec, Ea, Eb, Ec.
  change (Prim2SF 1) with (S754_finite false 4503599627370496 (-52)).
  change (Prim2SF 0) with (S754_zero false) in *.
  apply SF_feedforward_nonneg;
    try apply Prim2SF_valid; try apply isfinite_spec; try assumption; lia.
Qed.

Lemma spec_feedforward_nonpos (a b c x v : float)
    (ma : positive) (ea : Z) (mb : positive) (eb : Z) (mc : positive) (ec : Z) :
  Prim2SF a = S754_finite false ma ea ->
  Prim2SF b = S754_finite false mb eb ->
  Prim2SF c = S754_finite false mc ec ->
  (ea <= -1 /\ -100 <= Zdigits2 (Zpos ma) + ea <= -3)%Z ->
  (eb <= -1 /\ Zdigits2 (Zpos mb) + eb <= -1)%Z ->
  (Zdigits2 (Zpos mc) <= 53 /\ ec <= 917 /\ Zdigits2 (Zpos mc) + ec <= 970)%Z ->
  PyFloat.isfinite x = true -> PyFloat.isfinite v = true ->
  (x <=? 0) = true -> (0 <=? v) = true ->
  (spec_feedforward a b c x v <=? 0) = true.
Proof.
  intros Ea Eb Ec Ha Hb Hc Fx Fv Hx Hv.
  rewrite <- (float_opp_involutive x), spec_feedforward_opp.
  apply leb_opp_zero.
  apply (spec_feedforward_nonneg a b c (- x) v ma ea mb eb mc ec); try assumption.
  - rewrite isfinite_opp. assumption.
  - apply leb_zero_opp. assumption.
Qed.

(** X1: at a zero desired angle, [0.0] or [-0.0], and any finite speed both
    family models return a value that compares equal to zero. *)
Theorem feedforward_zero_angle (x v : float) :
  PyFloat.eq x 0 = true -> PyFloat.isfinite v = true ->
  (exists r, get_steer_feedforward_volt x v = Some r /\ PyFloat.eq r 0 = true) /\
  (exists r, get_steer_feedforward_acadia x v = Some r /\ PyFloat.eq r 0 = true).
Proof.
  intros Hx Hv. unfold PyFloat.eq in *.
  rewrite get_steer_feedforward_volt_spec, get_steer_feedforward_acadia_spec.
  split; eexists; (split; [reflexivity|]).
  - apply (spec_feedforward_zero _ _ _ x v
             false 8371965446436473 (-58) false 7210584380289573 (-56)
             7036557521978620 (-51)); try reflexivity; try assumption;
      vm_compute; intuition discriminate.
  - apply (spec_feedforward_zero _ _ _ x v
             false 7032971057897365 (-56) false 6758505123358779 (-57)
             5645384293048809 (-49)); try reflexivity; try assumption;
      vm_compute; intuition discriminate.
Qed.

(** A negative zero at 20 m/s. *)
Lemma feedforward_zero_angle_witness :
  (exists r, get_steer_feedforward_volt (-0) 20 = Some r /\ PyFloat.eq r 0 = true) /\
  (exists r, get_steer_feedforward_acadia (-0) 20 = Some r /\ PyFloat.eq r 0 = true).
Proof. exact (feedforward_zero_angle (-0) 20 eq_refl eq_refl). Defined.

(** X2: at a finite speed that is not below zero the value of either family
    model has the sign of the finite desired angle: it is not below zero for
    an angle that is not below zero, and not above zero for an angle that is
    not above zero. *)
Theorem feedforward_sign (x v : float) :
  PyFloat.isfinite x = true -> PyFloat.isfinite v = true -> PyFloat.le 0 v = true ->
  (PyFloat.le 0 x = true ->
   (exists r, get_steer_feedforward_volt x v = Some r /\ PyFloat.le 0 r = true) /\
   (exists r, get_steer_feedforward_acadia x v = Some r /\ PyFloat.le 0 r = true)) /\
  (PyFloat.le x 0 = true ->
   (exists r, get_steer_feedforward_volt x v = Some r /\ PyFloat.le r 0 = true) /\
   (exists r, get_steer_feedforward_acadia x v = Some r /\ PyFloat.le r 0 = true)).
Proof.
  intros Fx Fv Hv. unfold PyFloat.le in *.
  rewrite get_steer_feedforward_volt_spec, get_steer_feedforward_acadia_spec.
  split; intros Hx; split; eexists; (split; [reflexivity|]).
  - apply (spec_feedforward_nonneg _ _ _ x v
             8371965446436473 (-58) 7210584380289573 (-56) 7036557521978620 (-51));
      try reflexivity; try assumption; vm_compute; intuition discriminate.
  - apply (spec_feedforward_nonneg _ _ _ x v
             7032971057897365 (-56) 6758505123358779 (-57) 5645384293048809 (-49));
      try reflexivity; try assumption; vm_compute; intuition discriminate.
  - apply (spec_feedforward_nonpos _ _ _ x v
             8371965446436473 (-58) 7210584380289573 (-56) 7036557521978620 (-51));
      try reflexivity; try assumption; vm_compute; intuition discriminate.
  - apply (spec_feedforward_nonpos _ _ _ x v
             7032971057897365 (-56) 6758505123358779 (-57) 5645384293048809 (-49));
      try reflexivity; try assumption; vm_compute; intuition discriminate.
Qed.

(** -10 degrees at 20 m/s: a value that is not above zero. *)
Lemma feedforward_sign_witness :
  (exists r, get_steer_feedforward_volt (-10) 20 = Some r /\ PyFloat.le r 0 = true) /\
  (exists r, get_steer_feedforward_acadia (-10) 20 = Some r /\ PyFloat.le r 0 = true).
Proof. exact (proj2 (feedforward_sign (-10) 20 eq_refl eq_refl eq_refl) eq_refl). Defined.

End FeedforwardSign.

(** * The order of floats, NaN angles and the button mapping *)

Section OrderFacts.
Local Open Scope Z_scope.


End OrderFacts.

Section FloatOrder.
Local Open Scope float_scope.


End FloatOrder.

Section MoreFloatFacts.
Local Open Scope float_scope.



Lemma isfinite_false_spec (x : float) :
  PyFloat.isfinite x = false ->
  Prim2SF x = S754_nan \/ exists s, Prim2SF x = S754_infinity s.
Proof.
  unfold PyFloat.isfinite. rewrite FloatAxioms.ltb_spec, abs_spec.
  change (Prim2SF infinity) with (S754_infinity false).
  destruct (Prim2SF x) as [s|s| |s m e]; cbn; intros H; try discriminate; eauto.
Qed.

Lemma isnan_of_spec (x : float) : Prim2SF x = S754_nan -> PyFloat.isnan x = true.
Proof.
  intros H. unfold PyFloat.isnan. rewrite FloatAxioms.eqb_spec, H. reflexivity.
Qed.

(** A NaN or infinite angle makes the sigmoid, and with it the value, a NaN. *)
Lemma spec_feedforward_nan (a b c x v : float) (sa : bool) (ma : positive) (ea : Z) :
  Prim2SF a = S754_finite sa ma ea ->
  PyFloat.isfinite x = false ->
  PyFloat.isnan (spec_feedforward a b c x v) = true.
Proof.
  intros Ea Hx. apply isnan_of_spec. unfold spec_feedforward.
  rewrite !mul_spec, div_spec, !add_spec, abs_spec, mul_spec, Ea.
  change (Prim2SF 1) with (S754_finite false 4503599627370496 (-52)).
  destruct (isfinite_false_spec x Hx) as [-> | [s ->]];
    cbn [SF64mul SFmul SFabs SF64add SFadd SF64div SFdiv xorb];
    destruct (Prim2SF b) as [?|?| |? ? ?]; reflexivity.
Qed.

(** X3: at a finite speed each family model returns a value, and that value
    is a NaN exactly when the desired angle is a NaN or an infinity. *)
Theorem feedforward_nan_iff (x v : float) :
  PyFloat.isfinite v = true ->
  (exists r, get_steer_feedforward_volt x v = Some r /\
             (PyFloat.isnan r = true <-> PyFloat.isfinite x = false)) /\
  (exists r, get_steer_feedforward_acadia x v = Some r /\
             (PyFloat.isnan r = true <-> PyFloat.isfinite x = false)).
Proof.
  intros Hv.
  rewrite get_steer_feedforward_volt_spec, get_steer_feedforward_acadia_spec.
  split; eexists; (split; [reflexivity|]); split.
  - intros Hn. destruct (PyFloat.isfinite x) eqn:Hx; [|reflexivity].
    rewrite (volt_finite_not_nan x v Hx Hv) in Hn. discriminate.
  - apply (spec_feedforward_nan _ _ _ x v false 8371965446436473 (-58)). reflexivity.
  - intros Hn. destruct (PyFloat.isfinite x) eqn:Hx; [|reflexivity].
    rewrite (acadia_finite_not_nan x v Hx Hv) in Hn. discriminate.
  - apply (spec_feedforward_nan _ _ _ x v false 7032971057897365 (-56)). reflexivity.
Qed.

(** An infinite angle at 20 m/s. *)
Lemma feedforward_nan_iff_witness :
  (exists r, get_steer_feedforward_volt infinity 20 = Some r /\
             (PyFloat.isnan r = true <-> PyFloat.isfinite infinity = false)) /\
  (exists r, get_steer_feedforward_acadia infinity 20 = Some r /\
             (PyFloat.isnan r = true <-> PyFloat.isfinite infinity = false)).
Proof. exact (feedforward_nan_iff infinity 20 eq_refl). Defined.

End MoreFloatFacts.

Section DictFacts.
Variable CruiseButtons : CruiseButtonCodes.

(** X4: the button mapping sends the CANCEL code to [cancel] whatever the
    other codes are (its entry is written last), holds no key besides the
    four named codes and no value [unknown]; when the four codes are pairwise
    distinct, RES_ACCEL, DECEL_SET and MAIN map to [accelCruise],
    [decelCruise] and [altButton3]. *)
Theorem BUTTONS_DICT_lookup :
  BUTTONS_DICT CruiseButtons !! CANCEL CruiseButtons = Some ButtonType.cancel /\
  (forall k : Z,
      k <> RES_ACCEL CruiseButtons -> k <> DECEL_SET CruiseButtons ->
      k <> MAIN CruiseButtons -> k <> CANCEL CruiseButtons ->
      BUTTONS_DICT CruiseButtons !! k = None) /\
  (forall (k : Z) (t : ButtonType.t),
      BUTTONS_DICT CruiseButtons !! k = Some t ->
      (k = RES_ACCEL CruiseButtons \/ k = DECEL_SET CruiseButtons \/
       k = MAIN CruiseButtons \/ k = CANCEL CruiseButtons) /\
      t <> ButtonType.unknown) /\
  (NoDup [RES_ACCEL CruiseButtons; DECEL_SET CruiseButtons;
          MAIN CruiseButtons; CANCEL CruiseButtons] ->
   BUTTONS_DICT CruiseButtons !! RES_ACCEL CruiseButtons = Some ButtonType.accelCruise /\
   BUTTONS_DICT CruiseButtons !! DECEL_SET CruiseButtons = Some ButtonType.decelCruise /\
   BUTTONS_DICT CruiseButtons !! MAIN CruiseButtons = Some ButtonType.altButton3).
Proof.
  unfold BUTTONS_DICT. split; [apply lookup_insert_eq|]. split; [|split].
  - intros k H1 H2 H3 H4.
    rewrite !lookup_insert_ne by congruence. apply lookup_empty.
  - intros k t H.
    destruct (decide (k = CANCEL CruiseButtons)) as [->|N4];
      [rewrite lookup_insert_eq in H; split; [tauto|congruence]|].
    rewrite lookup_insert_ne in H by congruence.
    destruct (decide (k = MAIN CruiseButtons)) as [->|N3];
      [rewrite lookup_insert_eq in H; split; [tauto|congruence]|].
    rewrite lookup_insert_ne in H by congruence.
    destruct (decide (k = DECEL_SET CruiseButtons)) as [->|N2];
      [rewrite lookup_insert_eq in H; split; [tauto|congruence]|].
    rewrite lookup_insert_ne in H by congruence.
    destruct (decide (k = RES_ACCEL CruiseButtons)) as [->|N1];
      [rewrite lookup_insert_eq in H; split; [tauto|congruence]|].
    rewrite lookup_insert_ne in H by congruence.
    rewrite lookup_empty in H. discriminate.
  - intros Hd.
    apply NoDup_cons in Hd as [Ha Hd]. apply NoDup_cons in Hd as [Hb Hd].
    apply NoDup_cons in Hd as [Hc _].
    repeat split.
    + rewrite !lookup_insert_ne by (clear -Ha; set_solver).
      apply lookup_insert_eq.
    + rewrite !lookup_insert_ne by (clear -Hb; set_solver).
      apply lookup_insert_eq.
    + rewrite !lookup_insert_ne by (clear -Hc; set_solver).
      apply lookup_insert_eq.
Qed.

End DictFacts.

(** * The speed rules along the order of floats *)

Section UpdateOrderFacts.
Variable Parser : Type.
Variable CarControl : Type.
Variable CruiseButtons : CruiseButtonCodes.
Variable CarState_update : GMCarState -> Parser -> Parser -> Parser -> CarState.t * GMCarState.
Variable create_button_event : Z -> Z -> gmap Z ButtonType.t -> Z -> ButtonEvent.t.
Variable create_common_events :
  CarInterface Parser -> CarState.t -> list GearShifter.t -> bool -> Events.t.
Variable create_button_enable_events : list ButtonEvent.t -> bool -> list EventName.t.

Local Abbreviation update :=
  (_update Parser CarControl CruiseButtons CarState_update create_button_event
           create_common_events create_button_enable_events).
Local Abbreviation decode self :=
  (CarState_update (CS Parser self) (cp Parser self) (cp_loopback Parser self)
                   (cp_body Parser self)).


End UpdateOrderFacts.

(** * The complete parameter record *)

Section GetParamsFullFacts.
Local Open Scope float_scope.
Variable SafetyConfig : Type.
Variable CV : Conversions.
Variable LB_TO_KG : float.
Variable STD_CARGO_KG : float.
Variable NO_ASCM : list CAR.t.
Variable gm_safety_config : SafetyConfig.
Variable scale_rot_inertia : float -> float -> option float.
Variable scale_tire_stiffness : float -> float -> float -> float -> option (float * float).
Variable std_params : CAR.t -> Fingerprint -> FullCarParams SafetyConfig.
Variable readback : float -> float.

Local Abbreviation params :=
  (get_params_full SafetyConfig CV LB_TO_KG STD_CARGO_KG NO_ASCM gm_safety_config
                   scale_rot_inertia scale_tire_stiffness std_params readback).

(** X8: [get_params] raises when the fingerprint has no entry for bus 0,
    for every identifier.  With an entry for bus 0 and scaling helpers that
    return, it returns; the fields read by the per-cycle update and by the
    feed-forward selection are then those of [get_params CV candidate],
    whatever the fingerprint, and [enableGasInterceptor] tells whether
    address 0x201 is on bus 0. *)
Theorem get_params_full_returns (candidate : CAR.t) (fingerprint : Fingerprint) :
  (fingerprint !! 0%Z = None -> params candidate fingerprint = None) /\
  ((forall m w, is_Some (scale_rot_inertia m w)) ->
   (forall m w c k, is_Some (scale_tire_stiffness m w c k)) ->
   forall bus0, fingerprint !! 0%Z = Some bus0 ->
   exists ret, params candidate fingerprint = Some ret /\
               basic _ ret = get_params CV candidate /\
               enableGasInterceptor _ ret = bool_decide (is_Some (bus0 !! 0x201%Z))).
Proof.
  split.
  - intros H. unfold get_params_full. rewrite H. reflexivity.
  - intros Hrot Htire bus0 H. unfold get_params_full. rewrite H.
    cbn [mbind option_bind].
    destruct (bool_decide (candidate ∈ NO_ASCM));
      destruct (bool_decide (is_Some (bus0 !! 0x201%Z))) eqn:Hgas;
      destruct candidate; vm_compute;
      match goal with |- context [scale_rot_inertia ?m ?w] =>
        destruct (Hrot m w) as [rot Hr]; rewrite Hr end;
      match goal with |- context [scale_tire_stiffness ?m ?w ?c ?k] =>
        destruct (Htire m w c k) as [[front rear] Ht]; rewrite Ht end;
      eexists; (split; [reflexivity|]); split; reflexivity.
Qed.

(** Case analysis of a returned record: on the bus-0 entry, on [NO_ASCM], on
    the interceptor and on the identifier. *)
Ltac get_params_full_cases H candidate bus0 :=
  unfold get_params_full in H;
  destruct (_ !! 0%Z) as [bus0|]; [|discriminate H];
  cbn [mbind option_bind] in H;
  revert H;
  destruct (bool_decide (candidate ∈ NO_ASCM));
    destruct (bool_decide (is_Some (bus0 !! 0x201%Z)));
    destruct candidate; vm_compute; intros H;
    repeat match type of H with
           | match ?x with Some _ => _ | None => _ end = _ =>
               destruct x as [[? ?]|] || destruct x as [?|]; [|discriminate H]
           end;
    injection H as <-.

(** X9: in the record that [get_params] returns, [radarOffCan] holds
    exactly for the identifiers of [NO_ASCM] and for TAHOE_NR, SUBURBAN and
    BOLT_EUV; [openpilotLongitudinalControl] holds exactly when the
    identifier is none of these three and, besides, is outside [NO_ASCM] or
    has the gas interceptor.  So a car whose radar is on the bus always has
    openpilot longitudinal control, and SILVERADO_NR is the one identifier
    that can have it together with [pcmCruise]. *)
Theorem longitudinal_control_flags (candidate : CAR.t) (fingerprint : Fingerprint)
    (ret : FullCarParams SafetyConfig) :
  params candidate fingerprint = Some ret ->
  let stock := bool_decide (candidate ∈ [CAR.TAHOE_NR; CAR.SUBURBAN; CAR.BOLT_EUV]) in
  let lkas_only := bool_decide (candidate ∈ NO_ASCM) in
  radarOffCan _ ret = lkas_only || stock /\
  openpilotLongitudinalControl _ ret =
    negb stock && (negb lkas_only || enableGasInterceptor _ ret) /\
  (radarOffCan _ ret = false -> openpilotLongitudinalControl _ ret = true) /\
  (CarParams.pcmCruise (basic _ ret) = true ->
   openpilotLongitudinalControl _ ret = true -> candidate = CAR.SILVERADO_NR).
Proof.
  intros H. get_params_full_cases H candidate bus0;
    vm_compute; repeat split; intros; congruence.
Qed.

(** X10: the record that [get_params] returns has the longitudinal tune of
    the gas interceptor exactly when the interceptor is present and the
    identifier is VOLT, VOLT_NR or BOLT_NR; then the stopping fields are set,
    with [vEgoStopping <= vEgoStarting].  Otherwise the tune is the baseline
    and [kf] and the stopping fields are those of the base record.  In both
    cases each gain table is as long as its breakpoint table. *)
Theorem gas_interceptor_tune_applies (candidate : CAR.t) (fingerprint : Fingerprint)
    (ret : FullCarParams SafetyConfig) :
  params candidate fingerprint = Some ret ->
  let std := std_params candidate fingerprint in
  let tuned := enableGasInterceptor _ ret
               && bool_decide (candidate ∈ [CAR.VOLT; CAR.VOLT_NR; CAR.BOLT_NR]) in
  let lt := longitudinalTuning _ ret in
  (LongitudinalTuning.kpBP lt, LongitudinalTuning.kpV lt,
   LongitudinalTuning.kiBP lt, LongitudinalTuning.kiV lt) =
    (if tuned then ([0.0; 35.0], [0.4; 0.06], [0.0; 35.0], [0.0; 0.04])
     else ([5.0; 35.0], [2.4; 1.5], [0.0], [0.36])) /\
  length (LongitudinalTuning.kpBP lt) = length (LongitudinalTuning.kpV lt) /\
  length (LongitudinalTuning.kiBP lt) = length (LongitudinalTuning.kiV lt) /\
  (tuned = true ->
   LongitudinalTuning.kf lt = 0.25 /\ stoppingDecelRate _ ret = 0.8 /\
   stopAccel _ ret = 0.0 /\ vEgoStopping _ ret = 0.5 /\ vEgoStarting _ ret = 0.5 /\
   PyFloat.le (vEgoStopping _ ret) (vEgoStarting _ ret) = true /\
   stoppingControl _ ret = true) /\
  (tuned = false ->
   LongitudinalTuning.kf lt = LongitudinalTuning.kf (longitudinalTuning _ std) /\
   stoppingDecelRate _ ret = stoppingDecelRate _ std /\
   stopAccel _ ret = stopAccel _ std /\
   vEgoStopping _ ret = vEgoStopping _ std /\
   vEgoStarting _ ret = vEgoStarting _ std /\
   stoppingControl _ ret = stoppingControl _ std).
Proof.
  intros H. get_params_full_cases H candidate bus0;
    vm_compute; repeat split; intros; solve [reflexivity | discriminate].
Qed.

End GetParamsFullFacts.

(** * The lateral tuning, the controller call and the button classification *)

Section LateralFacts.
Local Open Scope float_scope.

(** X7: the lateral tuning of every identifier is well formed.  The torque
    member is active exactly for TAHOE_NR, SILVERADO_NR and SUBURBAN, which
    all have [pcmCruise], with [kp = 2 * kf] and [ki = 0.5 * kf].  Otherwise
    the pid member is active: each gain table is as long as its breakpoint
    table, the breakpoint tables are not empty and ascend, and [kf] equals
    1.0 exactly for VOLT, VOLT_NR, ACADIA and ACADIA_NR. *)
Theorem lateral_tuning_shape (CV : Conversions) (candidate : CAR.t) :
  match CarParams.lateralTuning (get_params CV candidate) with
  | LateralTuning.pid p =>
      ~ In candidate [CAR.TAHOE_NR; CAR.SILVERADO_NR; CAR.SUBURBAN] /\
      length (LateralTuning.kpBP p) = length (LateralTuning.kpV p) /\
      length (LateralTuning.kiBP p) = length (LateralTuning.kiV p) /\
      LateralTuning.kpBP p <> [] /\ LateralTuning.kiBP p <> [] /\
      ascending (LateralTuning.kpBP p) = true /\
      ascending (LateralTuning.kiBP p) = true /\
      PyFloat.eq (LateralTuning.kf p) 1 =
        bool_decide (candidate ∈ [CAR.VOLT; CAR.VOLT_NR; CAR.ACADIA; CAR.ACADIA_NR])
  | LateralTuning.torque q =>
      In candidate [CAR.TAHOE_NR; CAR.SILVERADO_NR; CAR.SUBURBAN] /\
      CarParams.pcmCruise (get_params CV candidate) = true /\
      LateralTuning.useSteeringAngle q = true /\
      PyFloat.eq (LateralTuning.torque_kp q) (2 * LateralTuning.torque_kf q) = true /\
      PyFloat.eq (LateralTuning.torque_ki q) (0.5 * LateralTuning.torque_kf q) = true
  end.
Proof.
  destruct candidate; vm_compute; repeat split; try discriminate; intuition discriminate.
Qed.

End LateralFacts.

Section ApplyFacts.
Variable Parser : Type.
Variable CarControl : Type.
Variable Actuation : Type.
Variable CruiseButtons : CruiseButtonCodes.
Variable CarState_update : GMCarState -> Parser -> Parser -> Parser -> CarState.t * GMCarState.
Variable create_button_event : Z -> Z -> gmap Z ButtonType.t -> Z -> ButtonEvent.t.
Variable create_common_events :
  CarInterface Parser -> CarState.t -> list GearShifter.t -> bool -> Events.t.
Variable create_button_enable_events : list ButtonEvent.t -> bool -> list EventName.t.
Variable CarController_update :
  CarController -> CarControl -> GMCarState -> CarController * Actuation.

Local Abbreviation update :=
  (_update Parser CarControl CruiseButtons CarState_update create_button_event
           create_common_events create_button_enable_events).
Local Abbreviation send := (apply Parser CarControl Actuation CarController_update).



End ApplyFacts.

Section ButtonFacts.
Variable Parser : Type.
Variable CarControl : Type.
Variable CruiseButtons : CruiseButtonCodes.
Variable CarState_update : GMCarState -> Parser -> Parser -> Parser -> CarState.t * GMCarState.
Variable create_common_events :
  CarInterface Parser -> CarState.t -> list GearShifter.t -> bool -> Events.t.
Variable create_button_enable_events : list ButtonEvent.t -> bool -> list EventName.t.

Local Abbreviation update :=
  (_update Parser CarControl CruiseButtons CarState_update create_button_event_spec
           create_common_events create_button_enable_events).
Local Abbreviation decode self :=
  (CarState_update (CS Parser self) (cp Parser self) (cp_loopback Parser self)
                   (cp_body Parser self)).

(** X6: with the classification of the specification, a change to a code
    other than UNPRESS (from a code other than INIT) yields exactly one
    pressed event.  Its type is [cancel] for the CANCEL code whatever the
    cruise state, [unknown] for a code outside the mapping, otherwise the
    mapped type or [unknown]; it is [accelCruise] only if cruise is not
    enabled or the vehicle is not standing still. *)
Theorem button_press_classification (self : CarInterface Parser) (c : CarControl)
    (ret0 : CarState.t) (CS' : GMCarState) :
  decode self = (ret0, CS') ->
  cruise_buttons CS' <> prev_cruise_buttons CS' ->
  prev_cruise_buttons CS' <> INIT CruiseButtons ->
  cruise_buttons CS' <> UNPRESS CruiseButtons ->
  exists t,
    CarState.buttonEvents (snd (update self c)) =
      [{| ButtonEvent.pressed := true; ButtonEvent.type := t |}] /\
    (cruise_buttons CS' = CANCEL CruiseButtons -> t = ButtonType.cancel) /\
    (cruise_buttons CS' <> RES_ACCEL CruiseButtons ->
     cruise_buttons CS' <> DECEL_SET CruiseButtons ->
     cruise_buttons CS' <> MAIN CruiseButtons ->
     cruise_buttons CS' <> CANCEL CruiseButtons -> t = ButtonType.unknown) /\
    (t <> ButtonType.unknown -> BUTTONS_DICT CruiseButtons !! cruise_buttons CS' = Some t) /\
    (t = ButtonType.accelCruise ->
     CruiseState.enabled (CarState.cruiseState ret0) && CarState.standstill ret0 = false).
Proof.
  intros H Hne Hinit Hun.
  rewrite (update_buttonEvents _ _ CruiseButtons CarState_update create_button_event_spec
             create_common_events create_button_enable_events self c ret0 CS' H).
  apply Z.eqb_neq in Hne, Hinit. rewrite Hne, Hinit. cbn [negb andb].
  unfold create_button_event_spec.
  apply Z.eqb_neq in Hun. rewrite Hun. cbn [negb].
  set (t0 := default ButtonType.unknown (BUTTONS_DICT CruiseButtons !! cruise_buttons CS')).
  cbn [ButtonEvent.type ButtonEvent.pressed ButtonEvent.set_type].
  assert (Hc : cruise_buttons CS' = CANCEL CruiseButtons -> t0 = ButtonType.cancel).
  { intros E. unfold t0, BUTTONS_DICT. rewrite E, lookup_insert_eq. reflexivity. }
  assert (Hu : cruise_buttons CS' <> RES_ACCEL CruiseButtons ->
               cruise_buttons CS' <> DECEL_SET CruiseButtons ->
               cruise_buttons CS' <> MAIN CruiseButtons ->
               cruise_buttons CS' <> CANCEL CruiseButtons -> t0 = ButtonType.unknown).
  { intros H1 H2 H3 H4. unfold t0, BUTTONS_DICT.
    rewrite !lookup_insert_ne by congruence. rewrite lookup_empty. reflexivity. }
  assert (Hm : t0 <> ButtonType.unknown ->
               BUTTONS_DICT CruiseButtons !! cruise_buttons CS' = Some t0).
  { unfold t0. destruct (BUTTONS_DICT CruiseButtons !! cruise_buttons CS'); cbn; congruence. }
  unfold ButtonType.eqb.
  destruct (bool_decide (t0 = ButtonType.accelCruise)) eqn:Ea;
    [apply bool_decide_eq_true_1 in Ea | apply bool_decide_eq_false_1 in Ea];
    destruct (CruiseState.enabled (CarState.cruiseState ret0) && CarState.standstill ret0) eqn:Es;
    cbn [andb].
  - exists ButtonType.unknown. split; [reflexivity|].
    repeat split; intros; try congruence.
    + rewrite Hc in Ea by assumption. discriminate.
  - exists t0. repeat split; auto.
  - exists t0. repeat split; auto. intros; congruence.
  - exists t0. repeat split; auto.
Qed.

End ButtonFacts.

(** * The further theorems on explicit inputs *)

Section MoreCycles.
Local Open Scope float_scope.

Local Abbreviation at_sample thm :=
  (thm RawSample unit gm_cruise_buttons sample_CarState_update create_button_event_spec
       sample_create_common_events sample_create_button_enable_events).
Local Abbreviation at_sample_params thm :=
  (thm unit gm_conversions 0.45359237 136 sample_NO_ASCM tt
       sample_scale_rot_inertia sample_scale_tire_stiffness sample_std_params
       (fun x : float => x)).

(** The GM codes are pairwise distinct. *)
Lemma BUTTONS_DICT_lookup_witness :
  BUTTONS_DICT gm_cruise_buttons !! 2%Z = Some ButtonType.accelCruise /\
  BUTTONS_DICT gm_cruise_buttons !! 3%Z = Some ButtonType.decelCruise /\
  BUTTONS_DICT gm_cruise_buttons !! 5%Z = Some ButtonType.altButton3.
Proof.
  apply (proj2 (proj2 (proj2 (BUTTONS_DICT_lookup gm_cruise_buttons)))).
  apply (bool_decide_unpack _). vm_compute. exact I.
Defined.


(** Cancel pressed while cruise is enabled and the vehicle stands still. *)
Lemma button_press_classification_witness :
  CarState.buttonEvents
    (snd (sample_update (sample_interface CAR.VOLT 1 (sample 0 true true false 6)))) =
  [{| ButtonEvent.pressed := true; ButtonEvent.type := ButtonType.cancel |}].
Proof.
  destruct (button_press_classification RawSample unit gm_cruise_buttons sample_CarState_update
              sample_create_common_events sample_create_button_enable_events
              (sample_interface CAR.VOLT 1 (sample 0 true true false 6)) tt _ _ eq_refl
              ltac:(discriminate) ltac:(discriminate) ltac:(discriminate))
    as (t & E & Hc & _).
  rewrite (Hc eq_refl) in E. exact E.
Defined.

(** A Volt with an empty fingerprint, and with the interceptor on bus 0. *)
Lemma get_params_full_returns_witness :
  sample_get_params_full CAR.VOLT ∅ = None /\
  exists ret, sample_get_params_full CAR.VOLT sample_fingerprint_pedal = Some ret /\
              basic unit ret = get_params gm_conversions CAR.VOLT /\
              enableGasInterceptor unit ret = true.
Proof.
  split.
  - exact (proj1 (at_sample_params get_params_full_returns CAR.VOLT ∅) eq_refl).
  - exact (proj2 (at_sample_params get_params_full_returns CAR.VOLT sample_fingerprint_pedal)
             (fun m w => ex_intro _ _ eq_refl) (fun m w c k => ex_intro _ _ eq_refl)
             _ eq_refl).
Defined.

(** SILVERADO_NR with the interceptor: stock cruise and openpilot
    longitudinal control together. *)
Lemma longitudinal_control_flags_witness :
  exists ret, sample_get_params_full CAR.SILVERADO_NR sample_fingerprint_pedal = Some ret /\
              radarOffCan unit ret = true /\
              openpilotLongitudinalControl unit ret = true /\
              CarParams.pcmCruise (basic unit ret) = true.
Proof.
  destruct (sample_get_params_full CAR.SILVERADO_NR sample_fingerprint_pedal) as [ret|] eqn:E;
    [|vm_compute in E; discriminate E].
  exists ret. split; [reflexivity|].
  destruct (at_sample_params longitudinal_control_flags CAR.SILVERADO_NR
              sample_fingerprint_pedal ret E) as (H1 & H2 & _).
  rewrite H1, H2. vm_compute in E. injection E as <-. repeat split.
Defined.

(** BOLT_NR with the interceptor. *)
Lemma gas_interceptor_tune_applies_witness :
  exists ret, sample_get_params_full CAR.BOLT_NR sample_fingerprint_pedal = Some ret /\
              LongitudinalTuning.kpBP (longitudinalTuning unit ret) = [0.0; 35.0] /\
              LongitudinalTuning.kiV (longitudinalTuning unit ret) = [0.0; 0.04] /\
              stoppingControl unit ret = true.
Proof.
  destruct (sample_get_params_full CAR.BOLT_NR sample_fingerprint_pedal) as [ret|] eqn:E;
    [|vm_compute in E; discriminate E].
  exists ret. split; [reflexivity|].
  destruct (at_sample_params gas_interceptor_tune_applies CAR.BOLT_NR
              sample_fingerprint_pedal ret E) as (H1 & _ & _ & H2 & _).
  assert (Hg : enableGasInterceptor unit ret = true)
    by (vm_compute in E; injection E as <-; reflexivity).
  rewrite Hg in H1, H2. cbn in H1. injection H1 as Ha Hb Hc Hd.
  split; [assumption|]. split; [assumption|]. apply H2. reflexivity.
Defined.

End MoreCycles.
